(** * Nutri-Vision text API: the extraction and resolution pipeline

    A shallow embedding of [nlp/spacy_extractor.py] and of the text
    pipeline of [main.py], followed by the properties of the pipeline.

    Conventions of the embedding.
    - Python [str] is [string] (a byte string): [lower], [upper], [strip],
      [\d] and [\s] act on the ASCII range only.
    - Python [float] is [pyfloat]: an exact rational ([Qc]) or one of the
      special values [inf], [-inf], [nan].  Binary64 rounding, overflow
      and the sign of zero are outside the model.
    - A call that may raise returns a [result]; [try]/[except] blocks are
      written with [try_except] and [try_return].
    - The collaborators that are not part of the repository (the spaCy
      pipeline, the [word2number] package, the HTTP client) are variables
      of the sections that use them. *)

From Stdlib Require Import ZArith QArith Qcanon Qround String Ascii List Bool Lia.
Import ListNotations.

Set Implicit Arguments.

(* ================================================================= *)
(** ** Exceptions *)

Inductive exn : Type :=
| ValueError (msg : string)
| ZeroDivisionError (msg : string)
| IndexError (msg : string)
| ValidationError (msg : string)
| RuntimeError (msg : string).

(** [str(e)] *)
Definition exn_str (e : exn) : string :=
  match e with
  | ValueError m | ZeroDivisionError m | IndexError m
  | ValidationError m | RuntimeError m => m
  end.

Definition is_ValueError (e : exn) : bool :=
  match e with ValueError _ => true | _ => false end.

Definition is_ZeroDivisionError (e : exn) : bool :=
  match e with ZeroDivisionError _ => true | _ => false end.

(** Every modelled exception derives from [Exception], so a bare
    [except:] and [except Exception:] catch the same things. *)
Definition is_Exception (e : exn) : bool := true.

Inductive result (A : Type) : Type :=
| Ok (a : A)
| Raise (e : exn).

Arguments Ok {A} a.
Arguments Raise {A} e.

Definition bind {A B : Type} (m : result A) (k : A -> result B) : result B :=
  match m with
  | Ok a => k a
  | Raise e => Raise e
  end.

Declare Scope result_scope.
Delimit Scope result_scope with result.
Notation "x <- m ;; k" := (bind m (fun x => k))
  (at level 61, m at next level, right associativity) : result_scope.

(** [try: body  except <catches> as e: handler e] *)
Definition try_except {A : Type} (body : result A) (catches : exn -> bool)
    (handler : exn -> result A) : result A :=
  match body with
  | Ok a => Ok a
  | Raise e => if catches e then handler e else Raise e
  end.

(** [try: return body  except <catches>: pass] followed by [rest]. *)
Definition try_return {A : Type} (body : result A) (catches : exn -> bool)
    (rest : result A) : result A :=
  try_except body catches (fun _ => rest).

(** The call returns a value: no exception leaves it. *)
Definition returns {A : Type} (m : result A) : Prop :=
  exists a, m = Ok a.

(* ================================================================= *)
(** ** Strings *)

Module PyStr.

Open Scope string_scope.

Definition in_range (lo hi : nat) (c : ascii) : bool :=
  let n := nat_of_ascii c in (lo <=? n)%nat && (n <=? hi)%nat.

(** [str.isspace] on the ASCII range: TAB..CR, FS..US and the space. *)
Definition is_space (c : ascii) : bool :=
  in_range 9 13 c || in_range 28 32 c.

Definition is_digit (c : ascii) : bool := in_range 48 57 c.

Definition lower_char (c : ascii) : ascii :=
  if in_range 65 90 c then ascii_of_nat (nat_of_ascii c + 32) else c.

Definition upper_char (c : ascii) : ascii :=
  if in_range 97 122 c then ascii_of_nat (nat_of_ascii c - 32) else c.

Fixpoint lower (s : string) : string :=
  match s with
  | EmptyString => EmptyString
  | String c s' => String (lower_char c) (lower s')
  end.

Fixpoint upper (s : string) : string :=
  match s with
  | EmptyString => EmptyString
  | String c s' => String (upper_char c) (upper s')
  end.

Fixpoint lstrip (s : string) : string :=
  match s with
  | EmptyString => EmptyString
  | String c s' => if is_space c then lstrip s' else s
  end.

Fixpoint rstrip (s : string) : string :=
  match s with
  | EmptyString => EmptyString
  | String c s' =>
      match rstrip s' with
      | EmptyString => if is_space c then EmptyString else String c EmptyString
      | r => String c r
      end
  end.

(** [s.strip()] *)
Definition strip (s : string) : string := rstrip (lstrip s).

(** [needle in hay] *)
Fixpoint contains (needle hay : string) : bool :=
  prefix needle hay ||
  match hay with
  | EmptyString => false
  | String _ hay' => contains needle hay'
  end.

(** [s.split(sep)] for a one-character separator. *)
Fixpoint split (sep : ascii) (s : string) : list string :=
  match s with
  | EmptyString => [EmptyString]
  | String c s' =>
      match split sep s' with
      | [] => [String c EmptyString]
      | p :: ps => if Ascii.eqb c sep then EmptyString :: p :: ps
                   else String c p :: ps
      end
  end.

(** [sep.join(l)] *)
Definition join (sep : string) (l : list string) : string := String.concat sep l.

(** Truth value of a [str]. *)
Definition truthy (s : string) : bool :=
  match s with EmptyString => false | _ => true end.

(** The longest run of decimal digits at the head of [s], and what follows. *)
Fixpoint span_digits (s : string) : string * string :=
  match s with
  | EmptyString => (EmptyString, EmptyString)
  | String c s' =>
      if is_digit c then let (d, r) := span_digits s' in (String c d, r)
      else (EmptyString, s)
  end.

Fixpoint span_spaces (s : string) : string * string :=
  match s with
  | EmptyString => (EmptyString, EmptyString)
  | String c s' =>
      if is_space c then let (d, r) := span_spaces s' in (String c d, r)
      else (EmptyString, s)
  end.

End PyStr.

(* ================================================================= *)
(** ** Floats *)

Module PyFloat.

Inductive pyfloat : Type :=
| Fin (q : Qc)
| PInf
| NInf
| NaN.

(** The rational [q] in lowest terms.  Every finite value built below goes
    through [rat] or [norm], so that equal values are equal terms. *)
Definition rat (q : Q) : Qc := Q2Qc (Qred q).
Definition norm (x : Qc) : Qc := Q2Qc (this x).

(** A decimal literal of the source, such as [0.95] or [95]. *)
Definition fl (q : Q) : pyfloat := Fin (rat q).

(** [float(n)] for an [int]. *)
Definition of_Z (z : Z) : pyfloat := fl (inject_Z z).
Definition of_nat (n : nat) : pyfloat := of_Z (Z.of_nat n).

Definition Qc_leb (x y : Qc) : bool := Qle_bool x y.
Definition Qc_ltb (x y : Qc) : bool := negb (Qle_bool y x).
Definition Qc_is_zero (x : Qc) : bool := Qc_eq_bool x (rat 0).

Definition fsign (x : pyfloat) : comparison :=
  match x with
  | Fin q => Qccompare q (rat 0)
  | PInf => Gt
  | NInf => Lt
  | NaN => Eq
  end.

Definition fadd (a b : pyfloat) : pyfloat :=
  match a, b with
  | NaN, _ | _, NaN => NaN
  | PInf, NInf | NInf, PInf => NaN
  | PInf, _ | _, PInf => PInf
  | NInf, _ | _, NInf => NInf
  | Fin x, Fin y => Fin (norm (Qcplus x y))
  end.

Definition fmul (a b : pyfloat) : pyfloat :=
  match a, b with
  | NaN, _ | _, NaN => NaN
  | Fin x, Fin y => Fin (norm (Qcmult x y))
  | _, _ =>
      match fsign a, fsign b with
      | Eq, _ | _, Eq => NaN
      | Gt, Gt | Lt, Lt => PInf
      | _, _ => NInf
      end
  end.

(** [a / b]: a zero divisor raises before anything else is looked at. *)
Definition fdiv (a b : pyfloat) : result pyfloat :=
  match b with
  | Fin y =>
      if Qc_is_zero y
      then Raise (ZeroDivisionError "float division by zero")
      else match a with
           | Fin x => Ok (Fin (norm (Qcdiv x y)))
           | NaN => Ok NaN
           | _ => match fsign a, fsign b with
                  | Gt, Gt | Lt, Lt => Ok PInf
                  | _, _ => Ok NInf
                  end
           end
  | NaN => Ok NaN
  | _ => match a with
         | Fin _ => Ok (fl 0)
         | _ => Ok NaN
         end
  end.

(** [a <= b] and [a < b]; every comparison with [nan] is false. *)
Definition fleb (a b : pyfloat) : bool :=
  match a, b with
  | NaN, _ | _, NaN => false
  | NInf, _ => true
  | _, PInf => true
  | PInf, _ => false
  | _, NInf => false
  | Fin x, Fin y => Qc_leb x y
  end.

Definition fltb (a b : pyfloat) : bool :=
  match a, b with
  | NaN, _ | _, NaN => false
  | NInf, NInf | PInf, _ => false
  | NInf, _ => true
  | Fin _, PInf => true
  | Fin _, NInf => false
  | Fin x, Fin y => Qc_ltb x y
  end.

(** Truth value of a float: everything but zero. *)
Definition truthy (x : pyfloat) : bool :=
  match x with
  | Fin q => negb (Qc_is_zero q)
  | _ => true
  end.

(** [min(a, b)]: the first argument unless the second is smaller. *)
Definition fmin (a b : pyfloat) : pyfloat := if fltb b a then b else a.

(** [sum(l)]: left to right, from the integer [0]. *)
Definition fsum (l : list pyfloat) : pyfloat := fold_left fadd l (of_Z 0).

(** Rounding to the nearest integer, ties to the even one. *)
Definition round_half_even (q : Q) : Z :=
  let f := Qfloor q in
  match Qcompare (q - inject_Z f) (1 # 2) with
  | Lt => f
  | Gt => (f + 1)%Z
  | Eq => if Z.even f then f else (f + 1)%Z
  end.

Definition pow10 (n : nat) : positive := Z.to_pos (10 ^ Z.of_nat n).

(** [round(x, ndigits)] on the exact value of [x]. *)
Definition fround (x : pyfloat) (ndigits : nat) : pyfloat :=
  match x with
  | Fin q =>
      let p := pow10 ndigits in
      fl (round_half_even (q * inject_Z (Zpos p)) # p)
  | _ => x
  end.

(** [x or d] for an optional float [x]: [None] and [0.0] are both falsy. *)
Definition or_else (x : option pyfloat) (d : option pyfloat) : option pyfloat :=
  match x with
  | Some v => if truthy v then Some v else d
  | None => d
  end.

End PyFloat.

(* ================================================================= *)
(** ** [float(s)] for a string *)

Module FloatParse.

Import PyStr PyFloat.
Open Scope string_scope.

Definition digit_val (c : ascii) : Z := Z.of_nat (nat_of_ascii c - 48).

(** What may follow the first digit of a digit part: digits, each
    optionally preceded by one underscore. *)
Fixpoint digitpart_tail (s : string) : list ascii * string :=
  match s with
  | EmptyString => ([], EmptyString)
  | String c s' =>
      if is_digit c then
        let (ds, r) := digitpart_tail s' in (c :: ds, r)
      else if Ascii.eqb c "_" then
        match s' with
        | String d s'' =>
            if is_digit d then
              let (ds, r) := digitpart_tail s'' in (d :: ds, r)
            else ([], s)
        | EmptyString => ([], s)
        end
      else ([], s)
  end.

(** A possibly empty digit part at the head of [s], and what follows. *)
Definition digitpart (s : string) : list ascii * string :=
  match s with
  | String c s' =>
      if is_digit c then
        let (ds, r) := digitpart_tail s' in (c :: ds, r)
      else ([], s)
  | EmptyString => ([], s)
  end.

Definition digits_val (ds : list ascii) : Z :=
  fold_left (fun acc c => (acc * 10 + digit_val c)%Z) ds 0%Z.

Definition split_sign (s : string) : bool * string :=
  match s with
  | String "+" r => (false, r)
  | String "-" r => (true, r)
  | _ => (false, s)
  end.

(** The exponent suffix: nothing, or [e], an optional sign and a digit
    part up to the end of the string. *)
Definition exponent (s : string) : option Z :=
  match s with
  | EmptyString => Some 0%Z
  | String c s' =>
      if Ascii.eqb c "e" || Ascii.eqb c "E" then
        let (neg, s'') := split_sign s' in
        match digitpart s'' with
        | ((_ :: _) as ds, EmptyString) =>
            Some (if neg then (- digits_val ds)%Z else digits_val ds)
        | _ => None
        end
      else None
  end.

(** An unsigned decimal number: [digits], [digits.], [digits.digits] or
    [.digits], then an optional exponent. *)
Definition parse_decimal (s : string) : option Q :=
  let (ip, r1) := digitpart s in
  let '(fp, r2) :=
    match r1 with
    | String "." r => digitpart r
    | _ => ([], r1)
    end in
  match (ip ++ fp)%list with
  | [] => None
  | ds =>
      match exponent r2 with
      | Some e =>
          Some (inject_Z (digits_val ds)
                * Qpower 10 (e - Z.of_nat (List.length fp)))%Q
      | None => None
      end
  end.

Definition float_error : exn :=
  ValueError "could not convert string to float".

(** [float(s)]: surrounding white space is ignored; [inf], [infinity] and
    [nan] are accepted in any case, with a sign. *)
Definition py_float (s : string) : result pyfloat :=
  let (neg, body) := split_sign (strip s) in
  let lb := lower body in
  if String.eqb lb "inf" || String.eqb lb "infinity" then
    Ok (if neg then NInf else PInf)
  else if String.eqb lb "nan" then Ok NaN
  else
    match parse_decimal body with
    | Some q => Ok (fl (if neg then - q else q)%Q)
    | None => Raise float_error
    end.

End FloatParse.

(* ================================================================= *)
(** ** nlp/spacy_extractor.py *)

Module Extractor.

Import PyStr PyFloat FloatParse.
Open Scope string_scope.
Open Scope list_scope.
Open Scope result_scope.

(** A [dict] with string keys, in insertion order. *)
Fixpoint dict_get {V : Type} (d : list (string * V)) (k : string) : option V :=
  match d with
  | [] => None
  | (k', v) :: d' => if String.eqb k k' then Some v else dict_get d' k
  end.

Definition dict_keys {V : Type} (d : list (string * V)) : list string :=
  map fst d.

Definition dict_values {V : Type} (d : list (string * V)) : list V :=
  map snd d.

(** [l[i]] *)
Definition index {A : Type} (l : list A) (i : nat) : result A :=
  match nth_error l i with
  | Some a => Ok a
  | None => Raise (IndexError "list index out of range")
  end.

(** A spaCy entity, as far as the extractor looks at it.  [attr_score] and
    [attr_confidence] are [getattr(ent, 'score', None)] and
    [getattr(ent, 'confidence', None)]. *)
Record Span : Type := {
  text : string;
  label_ : string;
  start : Z;
  end_ : Z;
  attr_score : option pyfloat;
  attr_confidence : option pyfloat
}.

Definition UNIT_ALIASES : list (string * string) :=
  [ ("g", "grams"); ("gram", "grams"); ("grams", "grams");
    ("kg", "kg"); ("kilogram", "kg"); ("kilograms", "kg");
    ("ml", "ml"); ("milliliter", "ml"); ("milliliters", "ml");
    ("l", "liters"); ("liter", "liters"); ("litre", "liters");
    ("litres", "liters");
    ("cup", "cups"); ("cups", "cups");
    ("slice", "slices"); ("slices", "slices");
    ("piece", "pieces"); ("pieces", "pieces"); ("pc", "pieces");
    ("tbsp", "tablespoons"); ("tablespoon", "tablespoons");
    ("tablespoons", "tablespoons");
    ("tsp", "teaspoons"); ("teaspoon", "teaspoons");
    ("teaspoons", "teaspoons");
    ("glass", "glasses"); ("glasses", "glasses");
    ("serving", "servings"); ("servings", "servings"); ("serve", "servings");
    ("oz", "ounces"); ("ounce", "ounces"); ("ounces", "ounces");
    ("lb", "pounds"); ("pound", "pounds"); ("pounds", "pounds");
    ("bowl", "bowls"); ("bowls", "bowls");
    ("plate", "plates"); ("plates", "plates");
    ("can", "cans"); ("cans", "cans");
    ("bottle", "bottles"); ("bottles", "bottles");
    ("handful", "handful"); ("bunch", "bunch") ].

Definition word_numbers : list (string * pyfloat) :=
  [ ("one", of_Z 1); ("two", of_Z 2); ("three", of_Z 3); ("four", of_Z 4);
    ("five", of_Z 5); ("six", of_Z 6); ("seven", of_Z 7); ("eight", of_Z 8);
    ("nine", of_Z 9); ("ten", of_Z 10);
    ("half", fl 0.5); ("quarter", fl 0.25); ("third", fl 0.33);
    ("a", of_Z 1); ("an", of_Z 1) ].

(** [re.match(r'(\d+)\s+(\d+)/(\d+)', s)]: the three groups.  Each [\d+] and
    [\s+] is followed by a character outside its class, so the greedy
    match is the only one. *)
Definition mixed_match (s : string) : option (string * string * string) :=
  let (whole, r1) := span_digits s in
  let (sp, r2) := span_spaces r1 in
  let (num, r3) := span_digits r2 in
  match r3 with
  | String "/" r4 =>
      let (denom, _) := span_digits r4 in
      if PyStr.truthy whole && PyStr.truthy sp && PyStr.truthy num
         && PyStr.truthy denom
      then Some (whole, num, denom)
      else None
  | _ => None
  end.

(** [float(parts[0]) / float(parts[1])] *)
Definition simple_fraction (qty_str : string) : result pyfloat :=
  let parts := split "/" qty_str in
  p0 <- index parts 0 ;;
  a <- py_float p0 ;;
  p1 <- index parts 1 ;;
  b <- py_float p1 ;;
  fdiv a b.

(** [float(whole) + (float(num) / float(denom))] *)
Definition mixed_fraction (whole num denom : string) : result pyfloat :=
  w <- py_float whole ;;
  n <- py_float num ;;
  d <- py_float denom ;;
  q <- fdiv n d ;;
  Ok (fadd w q).

Section ParseNumber.

(** [w2n.word_to_num] of the [word2number] package. *)
Variable word_to_num : string -> result pyfloat.

(** The word table, then [word2number], then [1.0]. *)
Definition parse_words (qty_str : string) : result pyfloat :=
  match dict_get word_numbers qty_str with
  | Some v => Ok v
  | None => try_return (word_to_num qty_str) is_Exception (Ok (fl 1.0))
  end.

Definition parse_mixed (qty_str : string) : result pyfloat :=
  match mixed_match qty_str with
  | Some (whole, num, denom) =>
      try_return (mixed_fraction whole num denom) is_ZeroDivisionError
        (parse_words qty_str)
  | None => parse_words qty_str
  end.

Definition parse_fraction (qty_str : string) : result pyfloat :=
  if contains "/" qty_str then
    try_return (simple_fraction qty_str) is_Exception (parse_mixed qty_str)
  else parse_mixed qty_str.

Definition parse_number (qty_str : option string) : result pyfloat :=
  match qty_str with
  | None => Ok (fl 1.0)
  | Some s =>
      if negb (PyStr.truthy s) then Ok (fl 1.0)
      else
        let qty_str := lower (strip s) in
        try_return (py_float qty_str) is_ValueError (parse_fraction qty_str)
  end.

End ParseNumber.

Definition normalize_unit (unit : option string) : string :=
  match unit with
  | None => "servings"
  | Some u =>
      if negb (PyStr.truthy u) then "servings"
      else
        let unit_lower := strip (lower u) in
        match dict_get UNIT_ALIASES unit_lower with
        | Some canonical => canonical
        | None => unit_lower
        end
  end.

Definition has_label (l : string) (labels : list string) : bool :=
  existsb (String.eqb l) labels.

Definition present_scores (entities : list (Span * option pyfloat))
  : list pyfloat :=
  flat_map (fun es => match snd es with Some sc => [sc] | None => [] end)
           entities.

Definition calculate_confidence (entities : list (Span * option pyfloat))
  : result pyfloat :=
  match entities with
  | [] => Ok (fl 0.5)
  | _ =>
      let scores := present_scores entities in
      match scores with
      | _ :: _ => fdiv (fsum scores) (of_nat (List.length scores))
      | [] =>
          let entity_types := map (fun es => label_ (fst es)) entities in
          if has_label "FOOD" entity_types then
            if has_label "QUANTITY" entity_types
               && has_label "UNIT" entity_types
            then Ok (fl 0.95)
            else if has_label "QUANTITY" entity_types
                    || has_label "UNIT" entity_types
            then Ok (fl 0.80)
            else Ok (fl 0.65)
          else Ok (fl 0.50)
      end
  end.

Definition is_food (ent : Span) : bool := String.eqb (label_ ent) "FOOD".

Definition nonempty {A : Type} (l : list A) : bool :=
  match l with [] => false | _ => true end.

(** The loop state of the grouper: [groups], [current_group] and
    [has_food_in_group]. *)
Definition group_state : Type := (list (list Span) * list Span * bool)%type.

Definition group_step (st : group_state) (ent : Span) : group_state :=
  let '(groups, current_group, has_food_in_group) := st in
  if is_food ent && has_food_in_group then
    (if nonempty current_group then groups ++ [current_group] else groups,
     [ent], true)
  else
    (groups, current_group ++ [ent],
     if is_food ent then true else has_food_in_group).

Definition group_entities_by_proximity (entities : list Span)
  : list (list Span) :=
  match entities with
  | [] => []
  | _ =>
      let '(groups, current_group, _) :=
        fold_left group_step entities ([], [], false) in
      if nonempty current_group then groups ++ [current_group] else groups
  end.

(** [max(l, key=lambda q: q.end)]: the first entity with the largest end. *)
Fixpoint max_by_end_from (best : Span) (l : list Span) : Span :=
  match l with
  | [] => best
  | x :: l' => max_by_end_from (if (end_ best <? end_ x)%Z then x else best) l'
  end.

Definition max_by_end (l : list Span) : option Span :=
  match l with
  | [] => None
  | x :: l' => Some (max_by_end_from x l')
  end.

(** The returned [dict]. *)
Record Item : Type := {
  ingredient : string;
  quantity : pyfloat;
  unit : string;
  confidence : pyfloat
}.

Definition with_label (l : string) (group : list Span) : list Span :=
  filter (fun ent => String.eqb (label_ ent) l) group.

Definition before (first_food_start : Z) (l : list Span) : list Span :=
  filter (fun ent => (end_ ent <=? first_food_start)%Z) l.

(** [entity_info]: every entity with [score or confidence]. *)
Definition entity_info (group : list Span) : list (Span * option pyfloat) :=
  map (fun ent => (ent, or_else (attr_score ent) (attr_confidence ent))) group.

Section ExtractItem.

Variable word_to_num : string -> result pyfloat.

Definition extract_item_from_group (group : list Span) : result Item :=
  let quantities := with_label "QUANTITY" group in
  let units := with_label "UNIT" group in
  let foods := with_label "FOOD" group in
  let ingredient :=
    match foods with
    | [] => ""
    | _ => join " " (map text foods)
    end in
  qu <- match foods with
        | [] => Ok (fl 1.0, "serving")
        | first_food :: _ =>
            let first_food_start := start first_food in
            quantity <-
              match max_by_end (before first_food_start quantities) with
              | Some closest_qty =>
                  parse_number word_to_num (Some (text closest_qty))
              | None => Ok (fl 1.0)
              end ;;
            let unit :=
              match max_by_end (before first_food_start units) with
              | Some closest_unit => normalize_unit (Some (text closest_unit))
              | None => "serving"
              end in
            Ok (quantity, unit)
        end ;;
  confidence <- calculate_confidence (entity_info group) ;;
  Ok {| ingredient := strip ingredient;
        quantity := fst qu;
        unit := snd qu;
        confidence := fround confidence 2 |}.

(** The loop of [spacy_extract] over the groups. *)
Fixpoint extract_items (entity_groups : list (list Span)) : result (list Item) :=
  match entity_groups with
  | [] => Ok []
  | group :: rest =>
      if existsb is_food group then
        item <- extract_item_from_group group ;;
        items <- extract_items rest ;;
        Ok (if PyStr.truthy (ingredient item) then item :: items else items)
      else extract_items rest
  end.

(** [MODEL_LOADED] and [nlp]: the loaded pipeline, mapping a text to
    [doc.ents], or [None]. *)
Variable MODEL_LOADED : bool.
Variable nlp : option (string -> result (list Span)).

Definition spacy_extract (text : string) : result (list Item) :=
  match MODEL_LOADED, nlp with
  | true, Some run =>
      entities <- run text ;;
      match entities with
      | [] => Ok []
      | _ => extract_items (group_entities_by_proximity entities)
      end
  | _, _ => Ok []
  end.

End ExtractItem.

End Extractor.

(* ================================================================= *)
(** ** main.py: the models and the fallback table *)

Module Api.

Import PyStr PyFloat.
Open Scope string_scope.
Open Scope list_scope.
Open Scope result_scope.

Definition dict_get {V : Type} := @Extractor.dict_get V.

(** [d[k] = v] *)
Fixpoint dict_set {V : Type} (d : list (string * V)) (k : string) (v : V)
  : list (string * V) :=
  match d with
  | [] => [(k, v)]
  | (k', v') :: d' =>
      if String.eqb k k' then (k', v) :: d' else (k', v') :: dict_set d' k v
  end.

Definition get_default {A : Type} (x : option A) (d : A) : A :=
  match x with Some a => a | None => d end.

(** *** The pydantic models *)

Record MacroInfo : Type := {
  calories : pyfloat;
  protein : pyfloat;
  carbs : pyfloat;
  fats : pyfloat;
  fiber : option pyfloat;
  sugar : option pyfloat
}.

(** [Field(ge=0)], [Field(gt=0)], [Field(ge=0, le=1)] *)
Definition ge0 (x : pyfloat) : bool := fleb (fl 0) x.
Definition gt0 (x : pyfloat) : bool := fltb (fl 0) x.
Definition le1 (x : pyfloat) : bool := fleb x (fl 1).

Definition opt_check (check : pyfloat -> bool) (x : option pyfloat) : bool :=
  match x with
  | Some v => check v
  | None => true
  end.

Definition validation_error (model : string) : exn :=
  ValidationError ("validation error for " ++ model).

(** [MacroInfo(calories=..., ...)]: the constructor validates its fields. *)
Definition new_MacroInfo (calories protein carbs fats : pyfloat)
    (fiber sugar : option pyfloat) : result MacroInfo :=
  if ge0 calories && ge0 protein && ge0 carbs && ge0 fats
     && opt_check ge0 fiber && opt_check ge0 sugar
  then Ok {| calories := calories; protein := protein; carbs := carbs;
             fats := fats; fiber := fiber; sugar := sugar |}
  else Raise (validation_error "MacroInfo").

(** [MacroInfo()] *)
Definition MacroInfo_default : MacroInfo :=
  {| calories := fl 0.0; protein := fl 0.0; carbs := fl 0.0; fats := fl 0.0;
     fiber := None; sugar := None |}.

Record FoodItem : Type := {
  name : string;
  quantity : pyfloat;
  unit : string;
  macros : MacroInfo;
  confidence : option pyfloat;
  source : string;
  notes : option string;
  usda_food_id : option string
}.

(** [FoodItem(name=..., ...)].  [macros] is already a [MacroInfo] and is
    taken as it is. *)
Definition new_FoodItem (name : string) (quantity : pyfloat) (unit : string)
    (macros : MacroInfo) (confidence : option pyfloat) (source : string)
    (notes : option string) (usda_food_id : option string) : result FoodItem :=
  if gt0 quantity && opt_check ge0 confidence && opt_check le1 confidence
  then Ok {| name := name; quantity := quantity; unit := unit;
             macros := macros; confidence := confidence; source := source;
             notes := notes; usda_food_id := usda_food_id |}
  else Raise (validation_error "FoodItem").

Inductive Metadata : Type :=
| MetadataOk (ml_available usda_configured usda_lookup_enabled : bool)
             (items_with_usda items_estimated : nat)
| MetadataError (error : string).

(** [processing_time] is wall-clock time and is left out. *)
Record NutritionAnalysis : Type := {
  success : bool;
  input_type : string;
  raw_input : string;
  items : list FoodItem;
  totals : MacroInfo;
  warnings : list string;
  metadata : Metadata
}.

Record TextAnalysisRequest : Type := {
  text : string;
  include_usda : bool
}.

(** *** The USDA payloads, as far as the code reads them *)

(** One entry of [foodNutrients]: [nutrient.name], [nutrient.unitName]
    and [amount], each of which may be missing. *)
Record FoodNutrient : Type := {
  nutrient_name : option string;
  nutrient_unitName : option string;
  amount : option pyfloat
}.

(** The detail record; [other_keys] tells whether the JSON object has keys
    besides [foodNutrients]. *)
Record UsdaFood : Type := {
  other_keys : bool;
  foodNutrients : option (list FoodNutrient)
}.

(** Truth value of the detail [dict]: it has a key. *)
Definition dict_truthy (d : UsdaFood) : bool :=
  other_keys d || match foodNutrients d with Some _ => true | None => false end.

(** A search hit; [fdcId] holds [str] of the value when the key is there. *)
Record UsdaHit : Type := {
  fdcId : option string
}.

Record UsdaSearch : Type := {
  foods : option (list UsdaHit)
}.

(** An HTTP response: the status and what [response.json()] gives. *)
Record Response (A : Type) : Type := {
  status_code : Z;
  json : result A
}.

(** *** The fallback table *)

(** One nutrition [dict] of the table: all six keys are always there. *)
Record Nutrition : Type := {
  n_calories : pyfloat;
  n_protein : pyfloat;
  n_carbs : pyfloat;
  n_fats : pyfloat;
  n_fiber : pyfloat;
  n_sugar : pyfloat
}.

Definition row (cal pro carb fat fib sug : Q) : Nutrition :=
  {| n_calories := fl cal; n_protein := fl pro; n_carbs := fl carb;
     n_fats := fl fat; n_fiber := fl fib; n_sugar := fl sug |}.

Definition nutrition_db : list (string * Nutrition) :=
  [ (* Fruits *)
    ("apple", row 95 0.5 25 0.3 4.0 19);
    ("banana", row 105 1.3 27 0.4 3.1 14);
    ("orange", row 65 1.3 16 0.2 3.4 13);
    ("strawberry", row 49 1.0 12 0.5 3.3 7);
    ("grape", row 69 0.7 18 0.2 0.9 15);
    ("mango", row 99 1.4 25 0.6 2.6 23);
    ("pineapple", row 82 0.9 22 0.2 2.3 16);
    ("watermelon", row 46 0.9 12 0.2 0.6 9);
    ("peach", row 58 1.4 14 0.4 2.3 13);
    ("pear", row 101 0.6 27 0.2 5.5 17);
    (* Vegetables *)
    ("broccoli", row 55 4.6 11 0.6 5.1 2.6);
    ("carrot", row 41 0.9 10 0.2 2.8 4.7);
    ("tomato", row 22 1.1 4.8 0.2 1.4 3.2);
    ("lettuce", row 15 1.4 2.9 0.2 1.3 0.8);
    ("spinach", row 23 2.9 3.6 0.4 2.2 0.4);
    ("cucumber", row 16 0.7 3.6 0.1 0.5 1.7);
    ("bell pepper", row 31 1.0 6 0.3 2.1 4.2);
    ("mushroom", row 22 3.1 3.3 0.3 1.0 2.0);
    ("onion", row 40 1.1 9 0.1 1.7 4.2);
    ("garlic", row 149 6.4 33 0.5 2.1 1.0);
    (* Proteins *)
    ("chicken", row 165 31 0 3.6 0 0);
    ("chicken breast", row 165 31 0 3.6 0 0);
    ("beef", row 250 26 0 15 0 0);
    ("pork", row 242 27 0 14 0 0);
    ("fish", row 206 22 0 12 0 0);
    ("salmon", row 208 20 0 13 0 0);
    ("tuna", row 132 28 0 1.3 0 0);
    ("egg", row 155 13 1.1 11 0 1.1);
    ("tofu", row 76 8 1.9 4.8 0.3 0.7);
    (* Carbohydrates *)
    ("bread", row 265 9 49 3.2 2.7 5.0);
    ("rice", row 130 2.7 28 0.3 0.4 0.1);
    ("brown rice", row 112 2.3 24 0.9 1.8 0.4);
    ("pasta", row 131 5 25 1.1 1.8 0.6);
    ("potato", row 77 2.0 17 0.1 2.1 0.8);
    ("sweet potato", row 86 1.6 20 0.1 3.0 4.2);
    ("oats", row 389 16.9 66 6.9 10.6 0.99);
    ("quinoa", row 120 4.4 21 1.9 2.8 0.9);
    (* Popular dishes *)
    ("pizza", row 285 12 36 10 2.3 3.8);
    ("burger", row 295 17 23 14 2.0 4.0);
    ("salad", row 65 5 7 4 3.0 4.0);
    ("sandwich", row 230 10 30 8 3.0 4.0);
    ("soup", row 85 4 12 2.5 2.0 3.0);
    ("wrap", row 245 11 32 9 2.5 3.5);
    (* Dairy & snacks *)
    ("cheese", row 113 7 1 9 0 0.5);
    ("yogurt", row 59 10 3.6 0.4 0 3.6);
    ("milk", row 61 3.2 4.8 3.3 0 5.1);
    ("nuts", row 607 20 16 54 8.0 4.0);
    ("almonds", row 579 21 22 50 12.5 4.4);
    ("peanuts", row 567 26 16 49 8.5 4.7);
    ("avocado", row 160 2 9 15 7.0 0.7) ].

Definition default_nutrition : Nutrition := row 150 8 20 5 2.0 5.0.

(** The [for key, nutrition in nutrition_db.items()] loop. *)
Fixpoint partial_match (db : list (string * Nutrition))
    (food_name_lower : string) : Nutrition :=
  match db with
  | [] => default_nutrition
  | (key, nutrition) :: rest =>
      if contains key food_name_lower || contains food_name_lower key
      then nutrition
      else partial_match rest food_name_lower
  end.

Definition get_mock_nutrition_by_food_name (food_name : string) : Nutrition :=
  let food_name_lower := lower food_name in
  match dict_get nutrition_db food_name_lower with
  | Some nutrition => nutrition
  | None => partial_match nutrition_db food_name_lower
  end.

(** The mock values, each multiplied by [item_quantity], handed to the
    [MacroInfo] constructor as keyword arguments. *)
Definition scaled_MacroInfo (mock_nutrition : Nutrition)
    (item_quantity : pyfloat) : result MacroInfo :=
  new_MacroInfo (fmul (n_calories mock_nutrition) item_quantity)
                (fmul (n_protein mock_nutrition) item_quantity)
                (fmul (n_carbs mock_nutrition) item_quantity)
                (fmul (n_fats mock_nutrition) item_quantity)
                (Some (fmul (n_fiber mock_nutrition) item_quantity))
                (Some (fmul (n_sugar mock_nutrition) item_quantity)).

(** *** [extract_usda_macros] *)

Definition nutrient_map : list (string * string) :=
  [ ("Energy", "calories");
    ("Protein", "protein");
    ("Carbohydrate, by difference", "carbs");
    ("Total lipid (fat)", "fats");
    ("Fiber, total dietary", "fiber");
    ("Sugars, total including NLEA", "sugar") ].

(** One round of the loop over [foodNutrients]. *)
Definition nutrient_step (nutrients : list (string * pyfloat))
    (nutrient : FoodNutrient) : result (list (string * pyfloat)) :=
  let name := get_default (nutrient_name nutrient) "" in
  match dict_get nutrient_map name with
  | Some field =>
      let value := get_default (amount nutrient) (of_Z 0) in
      if String.eqb name "Energy" then
        let unit := upper (get_default (nutrient_unitName nutrient) "") in
        if String.eqb unit "KCAL" then Ok (dict_set nutrients field value)
        else if String.eqb unit "KJ" then
          kcal <- fdiv value (fl 4.184) ;;
          Ok (dict_set nutrients field kcal)
        else Ok nutrients
      else Ok (dict_set nutrients field value)
  | None => Ok nutrients
  end.

Fixpoint nutrient_loop (nutrients : list (string * pyfloat))
    (l : list FoodNutrient) : result (list (string * pyfloat)) :=
  match l with
  | [] => Ok nutrients
  | nutrient :: l' =>
      nutrients' <- nutrient_step nutrients nutrient ;;
      nutrient_loop nutrients' l'
  end.

Definition extract_usda_macros (usda_food : UsdaFood) : result MacroInfo :=
  nutrients <- nutrient_loop [] (get_default (foodNutrients usda_food) []) ;;
  new_MacroInfo (get_default (dict_get nutrients "calories") (fl 0.0))
                (get_default (dict_get nutrients "protein") (fl 0.0))
                (get_default (dict_get nutrients "carbs") (fl 0.0))
                (get_default (dict_get nutrients "fats") (fl 0.0))
                (dict_get nutrients "fiber")
                (dict_get nutrients "sugar").

(** *** [calculate_totals] *)

(** [x or 0] for an optional macro. *)
Definition or_zero (x : option pyfloat) : pyfloat :=
  match x with
  | Some v => if truthy v then v else of_Z 0
  | None => of_Z 0
  end.

(** [if totals.f: totals.f = round(totals.f, 1)] *)
Definition round_if_truthy (x : option pyfloat) : option pyfloat :=
  match x with
  | Some v => if truthy v then Some (fround v 1) else Some v
  | None => None
  end.

Definition calculate_totals (items : list FoodItem) : result MacroInfo :=
  totals <- new_MacroInfo
              (fsum (map (fun item => calories (macros item)) items))
              (fsum (map (fun item => protein (macros item)) items))
              (fsum (map (fun item => carbs (macros item)) items))
              (fsum (map (fun item => fats (macros item)) items))
              (Some (fsum (map (fun item => or_zero (fiber (macros item))) items)))
              (Some (fsum (map (fun item => or_zero (sugar (macros item))) items))) ;;
  Ok {| calories := fround (calories totals) 1;
        protein := fround (protein totals) 1;
        carbs := fround (carbs totals) 1;
        fats := fround (fats totals) 1;
        fiber := round_if_truthy (fiber totals);
        sugar := round_if_truthy (sugar totals) |}.

(** *** The USDA client and the text pipeline *)

Definition placeholder_key : string := "your_usda_api_key_here".

(** [if macros.f: macros.f *= item_quantity] *)
Definition scale_if_truthy (x : option pyfloat) (item_quantity : pyfloat)
  : option pyfloat :=
  match x with
  | Some v => if truthy v then Some (fmul v item_quantity) else Some v
  | None => None
  end.

(** The in-place scaling of the USDA macros; assignments are not validated. *)
Definition scale_macros (m : MacroInfo) (item_quantity : pyfloat) : MacroInfo :=
  {| calories := fmul (calories m) item_quantity;
     protein := fmul (protein m) item_quantity;
     carbs := fmul (carbs m) item_quantity;
     fats := fmul (fats m) item_quantity;
     fiber := scale_if_truthy (fiber m) item_quantity;
     sugar := scale_if_truthy (sugar m) item_quantity |}.

Definition opt_str_truthy (x : option string) : bool :=
  match x with
  | Some s => PyStr.truthy s
  | None => false
  end.

(** [f"USDA error: {str(e)}"] *)
Definition usda_error_note (e : exn) : string :=
  String.append "USDA error: " (exn_str e).

Definition count {A : Type} (p : A -> bool) (l : list A) : nat :=
  List.length (filter p l).

Section Pipeline.

(** The module constants and the collaborators: the API key, whether the
    extractor could be imported, the extractor, and the two HTTP requests
    ([/foods/search] with a query and a page size, [/food/<id>]). *)
Variable USDA_API_KEY : string.
Variable ML_AVAILABLE : bool.
Variable enhanced_extract : string -> result (list Extractor.Item).
Variable http_search : string -> Z -> result (Response UsdaSearch).
Variable http_food : string -> result (Response UsdaFood).

Definition key_missing : bool :=
  negb (PyStr.truthy USDA_API_KEY) || String.eqb USDA_API_KEY placeholder_key.

Definition search_usda_food (query : string) (limit : Z)
  : result (list UsdaHit) :=
  try_except
    (if key_missing then Ok []
     else
       response <- http_search query limit ;;
       if (status_code response =? 200)%Z then
         data <- json response ;;
         Ok (get_default (foods data) [])
       else Ok [])
    is_Exception
    (fun _ => Ok []).

Definition get_usda_nutrition (food_id : string) : result (option UsdaFood) :=
  try_except
    (if key_missing then Ok None
     else
       response <- http_food food_id ;;
       if (status_code response =? 200)%Z then
         data <- json response ;;
         Ok (Some data)
       else Ok None)
    is_Exception
    (fun _ => Ok None).

(** What the USDA block leaves in [macros], [notes] and [usda_food_id]. *)
Definition usda_state : Type :=
  (option MacroInfo * list string * option string)%type.

(** The body of the inner [try], from the search on; the state is threaded
    so that an exception keeps what was assigned before it. *)
Definition usda_lookup (item_name : string) (item_quantity : pyfloat)
  : usda_state :=
  match search_usda_food item_name 1 with
  | Raise e => (None, [usda_error_note e], None)
  | Ok [] => (None, ["No USDA match found"], None)
  | Ok (usda_food :: _) =>
      let usda_food_id := Some (get_default (fdcId usda_food) "") in
      match get_usda_nutrition (get_default (fdcId usda_food) "") with
      | Raise e => (None, [usda_error_note e], usda_food_id)
      | Ok (Some usda_detail) =>
          if dict_truthy usda_detail then
            match extract_usda_macros usda_detail with
            | Raise e => (None, [usda_error_note e], usda_food_id)
            | Ok macros => (Some (scale_macros macros item_quantity), [],
                            usda_food_id)
            end
          else (None, ["USDA nutrition lookup failed"], usda_food_id)
      | Ok None => (None, ["USDA nutrition lookup failed"], usda_food_id)
      end
  end.

(** The body of the per-item [try].  Every dictionary the extractor
    returns has its four keys, so the defaults of [item.get] stay unused. *)
Definition process_item (include_usda : bool) (item : Extractor.Item)
  : result FoodItem :=
  let item_name := Extractor.ingredient item in
  let item_quantity := Extractor.quantity item in
  let item_unit := Extractor.unit item in
  let item_confidence := Extractor.confidence item in
  let '(macros, notes, usda_food_id) :=
    if include_usda && negb key_missing
    then usda_lookup item_name item_quantity
    else (None, [], None) in
  mn <- match macros with
        | Some m => Ok (m, notes)
        | None =>
            let mock_nutrition := get_mock_nutrition_by_food_name item_name in
            m <- scaled_MacroInfo mock_nutrition item_quantity ;;
            Ok (m, notes ++ ["Using estimated nutrition values"])
        end ;;
  let final_confidence :=
    if opt_str_truthy usda_food_id
    then fmin (fadd item_confidence (fl 0.05)) (fl 1.0)
    else item_confidence in
  new_FoodItem item_name item_quantity item_unit (fst mn)
    (Some final_confidence)
    (if opt_str_truthy usda_food_id then "text_usda" else "text_estimated")
    (match snd mn with [] => None | l => Some (join "; " l) end)
    usda_food_id.

(** The loop over the extracted items: a failing item is skipped. *)
Fixpoint process_items (include_usda : bool)
    (extracted_items : list Extractor.Item) : result (list FoodItem) :=
  match extracted_items with
  | [] => Ok []
  | item :: rest =>
      processed <- try_except
                     (food_item <- process_item include_usda item ;;
                      Ok [food_item])
                     is_Exception
                     (fun _ => Ok []) ;;
      others <- process_items include_usda rest ;;
      Ok (processed ++ others)
  end.

Definition process_text_analysis (text : string) (include_usda : bool)
  : result (list FoodItem) :=
  extracted <- try_except
                 (extracted_items <- enhanced_extract text ;;
                  Ok (Some extracted_items))
                 is_Exception
                 (fun _ => Ok None) ;;
  match extracted with
  | None => Ok []
  | Some [] => Ok []
  | Some extracted_items => process_items include_usda extracted_items
  end.

Definition analysis_warnings (items : list FoodItem) : list string :=
  (match items with
   | [] => ["No food items could be identified"]
   | _ => []
   end)
  ++ (if negb ML_AVAILABLE
      then ["Using basic extraction (enhanced ML unavailable)"] else [])
  ++ (if key_missing
      then ["Using estimated nutrition data (USDA API not configured)"]
      else []).

Definition failure_response (request : TextAnalysisRequest) (e : exn)
  : NutritionAnalysis :=
  {| success := false;
     input_type := "text";
     raw_input := text request;
     items := [];
     totals := MacroInfo_default;
     warnings := [String.append "Analysis failed: " (exn_str e)];
     metadata := MetadataError (exn_str e) |}.

(** The body of the [try] of [analyze_text]. *)
Definition analysis (request : TextAnalysisRequest)
  : result NutritionAnalysis :=
  items <- process_text_analysis (text request) (include_usda request) ;;
  totals <- calculate_totals items ;;
  Ok {| success := true;
        input_type := "text";
        raw_input := text request;
        items := items;
        totals := totals;
        warnings := analysis_warnings items;
        metadata :=
          MetadataOk ML_AVAILABLE
            (negb (String.eqb USDA_API_KEY placeholder_key))
            (include_usda request)
            (count (fun item => opt_str_truthy (usda_food_id item)) items)
            (count (fun item => negb (opt_str_truthy (usda_food_id item)))
                   items) |}.

Definition analyze_text (request : TextAnalysisRequest)
  : result NutritionAnalysis :=
  try_except (analysis request) is_Exception
    (fun e => Ok (failure_response request e)).

End Pipeline.

End Api.

(* ================================================================= *)
(** ** Definitions used to state the properties *)

(** *** Loop invariants *)

Module Invariants.

Import Extractor.
Open Scope list_scope.

(** The spans a state of the grouper's loop holds, in order. *)
Definition flat (st : group_state) : list Span :=
  let '(groups, current_group, _) := st in concat groups ++ current_group.

Definition closed_groups (st : group_state) : list (list Span) :=
  let '(groups, _, _) := st in groups.

(** A string that does not start with white space. *)
Definition head_ok (s : string) : Prop :=
  match s with
  | EmptyString => True
  | String c _ => PyStr.is_space c = false
  end.

(** A string made of decimal digits only, and of no white space. *)
Fixpoint all_digits (s : string) : bool :=
  match s with
  | EmptyString => true
  | String c s' => PyStr.is_digit c && all_digits s'
  end.

Fixpoint no_space (s : string) : bool :=
  match s with
  | EmptyString => true
  | String c s' => negb (PyStr.is_space c) && no_space s'
  end.

Fixpoint chars (s : string) : list ascii :=
  match s with
  | EmptyString => []
  | String c s' => c :: chars s'
  end.

(** An entity whose score, if it has one, is not zero, and which carries
    no [confidence] attribute: [score or confidence] then is its score. *)
Definition plainly_scored (ent : Span) : Prop :=
  attr_confidence ent = None
  /\ forall x, attr_score ent = Some x -> PyFloat.truthy x = true.

(** No [UNIT] entity of the group ends at or before [first_food_start]. *)
Definition no_unit_before (first_food_start : Z) (group : list Span) : Prop :=
  forall u, In u group -> label_ u = "UNIT"%string ->
            (first_food_start < end_ u)%Z.

(** A non-empty run of digits: what a [\d+] group holds. *)
Definition digit_run (s : string) : Prop :=
  all_digits s = true /\ s <> EmptyString.

End Invariants.

(** *** The specification's own wording, for comparison with the code *)

Module Spec.

Import PyStr PyFloat Extractor.
Open Scope string_scope.
Open Scope list_scope.
Open Scope result_scope.

(** Section 4.2, step 5: the closed lexical table. *)
Definition one_third : pyfloat := Fin (norm (Qcdiv (rat 1) (rat 3))).

Definition lexical_table : list (string * pyfloat) :=
  [ ("one", of_Z 1); ("two", of_Z 2); ("three", of_Z 3); ("four", of_Z 4);
    ("five", of_Z 5); ("six", of_Z 6); ("seven", of_Z 7); ("eight", of_Z 8);
    ("nine", of_Z 9); ("ten", of_Z 10);
    ("half", fl 0.5); ("quarter", fl 0.25); ("third", one_third);
    ("a", of_Z 1); ("an", of_Z 1) ].

(** The same table with the value the code gives to "third". *)
Definition lexical_table_amended : list (string * pyfloat) :=
  [ ("one", of_Z 1); ("two", of_Z 2); ("three", of_Z 3); ("four", of_Z 4);
    ("five", of_Z 5); ("six", of_Z 6); ("seven", of_Z 7); ("eight", of_Z 8);
    ("nine", of_Z 9); ("ten", of_Z 10);
    ("half", fl 0.5); ("quarter", fl 0.25); ("third", fl 0.33);
    ("a", of_Z 1); ("an", of_Z 1) ].

(** The parser gives [value] for [word], whatever [word2number] does. *)
Definition parses_to (word_to_num : string -> result pyfloat)
    (entry : string * pyfloat) : Prop :=
  parse_number word_to_num (Some (fst entry)) = Ok (snd entry).

(** A strictly positive float. *)
Definition positive (x : pyfloat) : Prop := fltb (fl 0) x = true.

(** Section 4.4: the scores that are present, their mean, and the
    structural heuristic over the label types. *)
Definition scores_present (group : list Span) : list pyfloat :=
  flat_map (fun ent => match attr_score ent with
                       | Some sc => [sc]
                       | None => []
                       end) group.

Definition mean (scores : list pyfloat) : result pyfloat :=
  fdiv (fsum scores) (of_nat (List.length scores)).

Definition has (l : string) (group : list Span) : bool :=
  existsb (fun ent => String.eqb (label_ ent) l) group.

Definition heuristic (group : list Span) : pyfloat :=
  if has "FOOD" group then
    if has "QUANTITY" group && has "UNIT" group then fl 0.95
    else if xorb (has "QUANTITY" group) (has "UNIT" group) then fl 0.80
    else fl 0.65
  else fl 0.50.

Definition confidence (group : list Span) : result pyfloat :=
  match scores_present group with
  | [] => Ok (heuristic group)
  | scores => mean scores
  end.

End Spec.

(** *** Sample inputs *)

Module Samples.

Import PyStr PyFloat Extractor.
Open Scope string_scope.
Open Scope list_scope.

(** A [word_to_num] that knows no word. *)
Definition no_words (s : string) : result pyfloat :=
  Raise (ValueError "No valid number words found!").

Definition span (label text : string) (start end_ : Z) : Span :=
  {| Extractor.text := text; label_ := label;
     Extractor.start := start; Extractor.end_ := end_;
     attr_score := None; attr_confidence := None |}.

Definition scored (label text : string) (start end_ : Z) (score : Q) : Span :=
  {| Extractor.text := text; label_ := label;
     Extractor.start := start; Extractor.end_ := end_;
     attr_score := Some (fl score); attr_confidence := None |}.

(** "I had 2 apples" *)
Definition two_apples : list Span :=
  [ span "QUANTITY" "2" 6 7; span "FOOD" "apples" 8 14 ].

(** "3 cups of rice" *)
Definition three_cups_of_rice : list Span :=
  [ span "QUANTITY" "3" 0 1; span "UNIT" "cups" 2 6; span "FOOD" "rice" 10 14 ].

(** "2 rice", the food scored [0.0] by the entity source. *)
Definition zero_scored_food : list Span :=
  [ scored "QUANTITY" "2" 0 1 0.8; scored "FOOD" "rice" 2 6 0.0 ].

(** "0 apples" *)
Definition zero_apples : list Span :=
  [ span "QUANTITY" "0" 0 1; span "FOOD" "apples" 2 8 ].

End Samples.

(** *** The resolver and the aggregator in the specification's wording *)

Module ApiSpec.

Import PyStr PyFloat Api.
Open Scope string_scope.
Open Scope list_scope.

(** Section 4.6, step 4: (a) the exact case-insensitive key match, (b) the
    first entry, in table order, whose key is a substring of the
    ingredient or the other way round, (c) the generic default. *)
Definition matches_exactly (ingredient key : string) : bool :=
  String.eqb (lower key) (lower ingredient).

Definition matches_partially (ingredient key : string) : bool :=
  contains key (lower ingredient) || contains (lower ingredient) key.

Definition generic_default : Nutrition :=
  {| n_calories := fl 150; n_protein := fl 8; n_carbs := fl 20;
     n_fats := fl 5; n_fiber := fl 2.0; n_sugar := fl 5.0 |}.

Definition fallback_lookup (ingredient : string) : Nutrition :=
  match find (fun entry => matches_exactly ingredient (fst entry))
             nutrition_db with
  | Some (_, profile) => profile
  | None =>
      match find (fun entry => matches_partially ingredient (fst entry))
                 nutrition_db with
      | Some (_, profile) => profile
      | None => generic_default
      end
  end.

(** Section 4.7: the sum of a macro over the items, an absent optional
    value contributing nothing, rounded to one decimal. *)
Fixpoint total (values : list pyfloat) : pyfloat :=
  match values with
  | [] => of_Z 0
  | v :: values' => fadd v (total values')
  end.

Definition contribution (x : option pyfloat) : pyfloat :=
  match x with
  | Some v => v
  | None => of_Z 0
  end.

Definition round1 (x : pyfloat) : pyfloat := fround x 1.

Definition totals_of (items : list FoodItem) : MacroInfo :=
  {| calories := round1 (total (map (fun i => calories (macros i)) items));
     protein := round1 (total (map (fun i => protein (macros i)) items));
     carbs := round1 (total (map (fun i => carbs (macros i)) items));
     fats := round1 (total (map (fun i => fats (macros i)) items));
     fiber :=
       Some (round1 (total (map (fun i => contribution (fiber (macros i)))
                                items)));
     sugar :=
       Some (round1 (total (map (fun i => contribution (sugar (macros i)))
                                items))) |}.

Definition all_zero_totals : MacroInfo :=
  {| calories := fl 0; protein := fl 0; carbs := fl 0; fats := fl 0;
     fiber := Some (fl 0); sugar := Some (fl 0) |}.

(** The invariant of [MacroInfo]: no field is negative. *)
Definition valid_macros (m : MacroInfo) : Prop :=
  ge0 (calories m) = true /\ ge0 (protein m) = true
  /\ ge0 (carbs m) = true /\ ge0 (fats m) = true
  /\ opt_check ge0 (fiber m) = true /\ opt_check ge0 (sugar m) = true.

(** An extracted item as the data model has it: a finite quantity above
    zero and a confidence between 0 and 1. *)
Definition finite (x : pyfloat) : Prop := exists q, x = Fin q.

Definition well_formed (item : Extractor.Item) : Prop :=
  finite (Extractor.quantity item)
  /\ gt0 (Extractor.quantity item) = true
  /\ ge0 (Extractor.confidence item) = true
  /\ le1 (Extractor.confidence item) = true.

(** A table value: finite and not negative. *)
Definition table_value (x : pyfloat) : bool :=
  match x with
  | Fin _ => ge0 x
  | _ => false
  end.

Definition table_row (n : Nutrition) : bool :=
  table_value (n_calories n) && table_value (n_protein n)
  && table_value (n_carbs n) && table_value (n_fats n)
  && table_value (n_fiber n) && table_value (n_sugar n).

End ApiSpec.

(** *** Sample requests and sample USDA answers *)

Module ApiSamples.

Import PyStr PyFloat Api.
Open Scope string_scope.
Open Scope list_scope.

Definition item (ingredient : string) (quantity confidence : Q)
  : Extractor.Item :=
  {| Extractor.ingredient := ingredient;
     Extractor.quantity := fl quantity;
     Extractor.unit := "serving";
     Extractor.confidence := fl confidence |}.

(** What the assembler gives for "I had 2 apples" and for "0 apples". *)
Definition apples : Extractor.Item := item "apples" 2 0.8.
Definition no_apples : Extractor.Item := item "apples" 0 0.8.

Definition extracts (l : list Extractor.Item) (text : string)
  : result (list Extractor.Item) := Ok l.


(** An unreachable USDA service. *)
Definition search_down (query : string) (limit : Z)
  : result (Response UsdaSearch) := Raise (RuntimeError "connection refused").

Definition food_down (food_id : string) : result (Response UsdaFood) :=
  Raise (RuntimeError "connection refused").

(** A search that finds one candidate, and a detail request answered with
    status 500. *)
Definition search_hit (query : string) (limit : Z)
  : result (Response UsdaSearch) :=
  Ok {| status_code := 200;
        json := Ok {| foods := Some [ {| fdcId := Some "171688" |} ] |} |}.

Definition food_500 (food_id : string) : result (Response UsdaFood) :=
  Ok {| status_code := 500; json := Raise (ValueError "no body") |}.


Definition twice_an_apple : MacroInfo :=
  {| calories := fl 190; protein := fl 1.0; carbs := fl 50; fats := fl 0.6;
     fiber := Some (fl 8.0); sugar := Some (fl 38) |}.

(** "I had 2 apples", resolved from the fallback table. *)
Definition resolved_apples : FoodItem :=
  {| name := "apples"; quantity := fl 2; unit := "serving";
     macros := twice_an_apple;
     confidence := Some (fl 0.8);
     source := "text_estimated";
     notes := Some "Using estimated nutrition values";
     usda_food_id := None |}.

(** The same item when a candidate was found and its detail request
    failed. *)
Definition boosted_apples : FoodItem :=
  {| name := "apples"; quantity := fl 2; unit := "serving";
     macros := twice_an_apple;
     confidence := Some (fl 0.85);
     source := "text_usda";
     notes := Some
       "USDA nutrition lookup failed; Using estimated nutrition values";
     usda_food_id := Some "171688" |}.

Definition api_key : string := "DEMO_KEY".

Definition request (text : string) (include_usda : bool)
  : TextAnalysisRequest :=
  {| Api.text := text; Api.include_usda := include_usda |}.


End ApiSamples.

(** *** Shapes of groups, positions of entities, decimal tokens *)

From Stdlib Require Import Sorted Lqa.

Module Shapes.

Import PyStr PyFloat FloatParse Extractor Invariants.
Open Scope string_scope.
Open Scope list_scope.

(** How many [FOOD] entities a list holds. *)
Definition foods (g : list Span) : nat := List.length (filter is_food g).

(** A group that starts with its only [FOOD] entity. *)
Definition food_first (g : list Span) : Prop :=
  exists f rest, g = f :: rest /\ is_food f = true /\ foods rest = 0%nat.

(** The entities of a document, as spaCy gives them: each one ends after it
    starts, and each one ends before the later ones start. *)
Definition precedes (a b : Span) : Prop := (end_ a <= start b)%Z.

Definition proper (ent : Span) : Prop := (start ent < end_ ent)%Z.

Definition well_positioned (entities : list Span) : Prop :=
  StronglySorted precedes entities /\ Forall proper entities.

(** The state of the grouper's loop, as far as foods go: the first group
    holds at most one food, a later group starts with its only food, and a
    group was only closed after a food. *)
Definition group_shape (st : group_state) : Prop :=
  let '(groups, current_group, has_food_in_group) := st in
  has_food_in_group = existsb is_food current_group
  /\ match groups with
     | [] => (foods current_group <= 1)%nat
     | first :: later =>
         foods first = 1%nat /\ Forall food_first later
         /\ food_first current_group
     end.

(** A [QUANTITY] or [UNIT] entity of the group that the assembler may
    attach to the food starting at [first_food_start]. *)
Definition candidate (label : string) (first_food_start : Z)
    (group : list Span) (ent : Span) : Prop :=
  In ent group /\ label_ ent = label /\ (end_ ent <= first_food_start)%Z.

(** The candidate closest to the food: none ends later. *)
Definition closest (label : string) (first_food_start : Z)
    (group : list Span) (ent : Span) : Prop :=
  candidate label first_food_start group ent
  /\ forall other, candidate label first_food_start group other ->
                   (end_ other <= end_ ent)%Z.

(** The value of a run of decimal digits, as a float. *)
Definition decimal (d : string) : pyfloat := of_Z (digits_val (chars d)).

(** The tokens ["n/d"] and ["w n/d"]. *)
Definition fraction_token (n d : string) : string := n ++ String "/" d.

Definition mixed_token (w n d : string) : string :=
  w ++ String " " (fraction_token n d).

(** A string in which the character [c] does not occur. *)
Fixpoint no_char (c : ascii) (s : string) : bool :=
  match s with
  | EmptyString => true
  | String c' s' => negb (Ascii.eqb c' c) && no_char c s'
  end.

(** A float between 0 and 1. *)
Definition in_unit_interval (x : pyfloat) : bool :=
  fleb (fl 0) x && fleb x (fl 1).

(** An entity whose [score] and [confidence], where it has them, are
    between 0 and 1. *)
Definition scored_in_unit_interval (ent : Span) : Prop :=
  forall sc, attr_score ent = Some sc \/ attr_confidence ent = Some sc ->
             in_unit_interval sc = true.

(** [kept R l l']: [l] answers, in order and through [R], to some of the
    elements of [l']; the others were skipped. *)
Inductive kept {A B : Type} (R : A -> B -> Prop) : list A -> list B -> Prop :=
| kept_nil : kept R [] []
| kept_skip (l : list A) (b : B) (l' : list B) :
    kept R l l' -> kept R l (b :: l')
| kept_take (a : A) (l : list A) (b : B) (l' : list B) :
    R a b -> kept R l l' -> kept R (a :: l) (b :: l').

End Shapes.

(** *** More sample inputs *)

Module MoreSamples.

Import PyStr PyFloat Extractor Samples.
Open Scope string_scope.
Open Scope list_scope.

(** "ate 3 eggs and 2 slices of toast" *)
Definition eggs_and_toast : list Span :=
  [ span "QUANTITY" "3" 4 5; span "FOOD" "eggs" 6 10;
    span "QUANTITY" "2" 15 16; span "UNIT" "slices" 17 23;
    span "FOOD" "toast" 27 32 ].

(** "2 cups", with no food. *)
Definition two_cups : list Span :=
  [ span "QUANTITY" "2" 0 1; span "UNIT" "cups" 2 6 ].

End MoreSamples.

(** *** What the resolver makes of an extracted item *)

Module Outcomes.

Import PyStr PyFloat Api ApiSpec.
Open Scope string_scope.
Open Scope list_scope.

(** A fallback profile, scaled by a quantity. *)
Definition scaled (n : Nutrition) (q : pyfloat) : MacroInfo :=
  {| calories := fmul (n_calories n) q;
     protein := fmul (n_protein n) q;
     carbs := fmul (n_carbs n) q;
     fats := fmul (n_fats n) q;
     fiber := Some (fmul (n_fiber n) q);
     sugar := Some (fmul (n_sugar n) q) |}.

Definition estimate (item : Extractor.Item) : MacroInfo :=
  scaled (get_mock_nutrition_by_food_name (Extractor.ingredient item))
         (Extractor.quantity item).

(** The item resolved from the fallback table, with no USDA candidate. *)
Definition estimated (item : Extractor.Item) (note : string) : FoodItem :=
  {| name := Extractor.ingredient item;
     quantity := Extractor.quantity item;
     unit := Extractor.unit item;
     macros := estimate item;
     confidence := Some (Extractor.confidence item);
     source := "text_estimated";
     notes := Some note;
     usda_food_id := None |}.

(** The item resolved with the USDA candidate [id]. *)
Definition with_candidate (item : Extractor.Item) (id : string)
    (m : MacroInfo) (note : option string) : FoodItem :=
  {| name := Extractor.ingredient item;
     quantity := Extractor.quantity item;
     unit := Extractor.unit item;
     macros := m;
     confidence :=
       Some (if PyStr.truthy id
             then fmin (fadd (Extractor.confidence item) (fl 0.05)) (fl 1.0)
             else Extractor.confidence item);
     source := if PyStr.truthy id then "text_usda" else "text_estimated";
     notes := note;
     usda_food_id := Some id |}.

(** The lookup is asked for and the key is configured. *)
Definition lookup_enabled (USDA_API_KEY : string) (include_usda : bool)
  : bool :=
  include_usda && negb (key_missing USDA_API_KEY).

(** A resolved item that answers to an extracted one. *)
Definition same_food (food_item : FoodItem) (item : Extractor.Item) : Prop :=
  name food_item = Extractor.ingredient item
  /\ quantity food_item = Extractor.quantity item
  /\ unit food_item = Extractor.unit item.

(** What holds of every resolved item. *)
Definition coherent (food_item : FoodItem) : Prop :=
  gt0 (quantity food_item) = true
  /\ (exists c, confidence food_item = Some c
                /\ ge0 c = true /\ le1 c = true)
  /\ source food_item
     = (if opt_str_truthy (usda_food_id food_item)
        then "text_usda" else "text_estimated")
  /\ (usda_food_id food_item = None ->
      exists note, notes food_item = Some note)
  /\ (finite (quantity food_item) -> valid_macros (macros food_item)).

(** An extracted item whose quantity is above zero. *)
Definition positive_quantity (item : Extractor.Item) : bool :=
  gt0 (Extractor.quantity item).

(** The warning of the handler about the key. *)
Definition not_configured_warning : string :=
  "Using estimated nutrition data (USDA API not configured)".

(** The two sources of a resolved item. *)
Definition from_usda (food_item : FoodItem) : bool :=
  String.eqb (source food_item) "text_usda".

Definition from_table (food_item : FoodItem) : bool :=
  String.eqb (source food_item) "text_estimated".

(** What the extractor gave, or nothing if it raised. *)
Definition extracted_from
    (enhanced_extract : string -> result (list Extractor.Item))
    (text : string) : list Extractor.Item :=
  match enhanced_extract text with
  | Ok extracted_items => extracted_items
  | Raise _ => []
  end.

(** The entries of [foodNutrients] that [extract_usda_macros] reads. *)
Definition relevant (nutrient : FoodNutrient) : bool :=
  let name := get_default (nutrient_name nutrient) "" in
  match dict_get nutrient_map name with
  | Some _ =>
      if String.eqb name "Energy" then
        let unit := upper (get_default (nutrient_unitName nutrient) "") in
        String.eqb unit "KCAL" || String.eqb unit "KJ"
      else true
  | None => false
  end.


End Outcomes.

Module MoreApiSamples.

Import PyStr PyFloat Api ApiSpec ApiSamples.
Open Scope string_scope.
Open Scope list_scope.

(** A search that finds nothing. *)
Definition search_empty (query : string) (limit : Z)
  : result (Response UsdaSearch) :=
  Ok {| status_code := 200; json := Ok {| foods := Some [] |} |}.

(** The detail record of an apple, per serving. *)
Definition apple_detail : UsdaFood :=
  {| other_keys := true;
     foodNutrients := Some
       [ {| nutrient_name := Some "Energy";
            nutrient_unitName := Some "kcal";
            amount := Some (fl 52) |};
         {| nutrient_name := Some "Water";
            nutrient_unitName := Some "g";
            amount := Some (fl 85.6) |};
         {| nutrient_name := Some "Energy";
            nutrient_unitName := Some "cal";
            amount := Some (fl 52000) |};
         {| nutrient_name := Some "Protein";
            nutrient_unitName := Some "g";
            amount := Some (fl 0.3) |} ] |}.

Definition apple_macros : MacroInfo :=
  {| calories := fl 52; protein := fl 0.3; carbs := fl 0; fats := fl 0;
     fiber := None; sugar := None |}.

Definition food_apple (food_id : string) : result (Response UsdaFood) :=
  Ok {| status_code := 200; json := Ok apple_detail |}.

(** An extractor whose model fails. *)
Definition extract_fails (text : string) : result (list Extractor.Item) :=
  Raise (RuntimeError "model failure").

End MoreApiSamples.

(* ================================================================= *)
(** * Properties *)

(** The keys of a table written out in the source are pairwise distinct,
    so that the first binding of a key is its only one. *)
Ltac distinct_keys :=
  let H := fresh "H" in
  repeat (constructor;
          [ simpl; intro H;
            repeat (destruct H as [H|H]; [discriminate H|]); exact H | ]);
  constructor.

(** ** [float(s)] on sample strings *)

Module FloatParseTests.
Import PyFloat FloatParse.
Open Scope string_scope.

Example float_2 : py_float "2" = Ok (fl 2).
Proof. reflexivity. Qed.
Example float_1_5 : py_float " 1.5 " = Ok (fl 1.5).
Proof. reflexivity. Qed.
Example float_neg : py_float "-0.25" = Ok (fl (-0.25)).
Proof. reflexivity. Qed.
Example float_exp : py_float "1.5e3" = Ok (fl 1500).
Proof. reflexivity. Qed.
Example float_exp_neg : py_float "25E-2" = Ok (fl 0.25).
Proof. reflexivity. Qed.
Example float_underscore : py_float "1_000" = Ok (fl 1000).
Proof. reflexivity. Qed.
Example float_dot5 : py_float ".5" = Ok (fl 0.5).
Proof. reflexivity. Qed.
Example float_1dot : py_float "1." = Ok (fl 1).
Proof. reflexivity. Qed.
Example float_inf : py_float "-Infinity" = Ok NInf.
Proof. reflexivity. Qed.
Example float_word : py_float "half" = Raise float_error.
Proof. reflexivity. Qed.
Example float_empty : py_float "" = Raise float_error.
Proof. reflexivity. Qed.
Example float_two_words : py_float "1 1" = Raise float_error.
Proof. reflexivity. Qed.
Example float_bad_underscore : py_float "1__0" = Raise float_error.
Proof. reflexivity. Qed.
Example float_dot : py_float "." = Raise float_error.
Proof. reflexivity. Qed.

End FloatParseTests.

(** ** The string and float operations on sample values *)

Module BuiltinTests.
Import PyStr PyFloat.
Open Scope string_scope.
Open Scope list_scope.

Example strip_sample : strip "  1 1/2 " = "1 1/2".
Proof. reflexivity. Qed.
Example lower_sample : lower "TbSp" = "tbsp".
Proof. reflexivity. Qed.
Example split_sample : split "/" "1/2/3" = ["1"; "2"; "3"].
Proof. reflexivity. Qed.
Example split_empty : split "/" "" = [""].
Proof. reflexivity. Qed.
Example contains_samples :
  contains "apple" "pineapple" = true /\ contains "" "rice" = true
  /\ contains "rice" "ice" = false.
Proof. repeat split. Qed.
Example join_sample : join " " ["brown"; "rice"] = "brown rice".
Proof. reflexivity. Qed.

Example round_ties_to_even :
  fround (fl 0.125) 2 = fl 0.12 /\ fround (fl 0.375) 2 = fl 0.38.
Proof. repeat split. Qed.
Example round_one_decimal : fround (fl 0.96) 1 = fl 1.
Proof. reflexivity. Qed.
Example division_by_zero :
  fdiv (fl 1) (fl 0) = Raise (ZeroDivisionError "float division by zero").
Proof. reflexivity. Qed.
Example inf_times_zero : fmul PInf (fl 0) = NaN.
Proof. reflexivity. Qed.
Example min_caps : fmin (fl 1.03) (fl 1.0) = fl 1.0.
Proof. reflexivity. Qed.
Example sum_samples : fsum [fl 0.1; fl 0.2; fl 0.3] = fl 0.6.
Proof. reflexivity. Qed.

End BuiltinTests.

(* ================================================================= *)
(** ** The grouper *)

Module GrouperFacts.

Import Extractor Invariants.
Open Scope list_scope.

Lemma concat_snoc (A : Type) (gs : list (list A)) (g : list A) :
  concat (gs ++ [g]) = concat gs ++ g.
Proof.
  rewrite concat_app. simpl. now rewrite app_nil_r.
Qed.

Lemma group_step_flat (st : group_state) (ent : Span) :
  flat (group_step st ent) = flat st ++ [ent].
Proof.
  destruct st as [[groups current_group] has_food].
  unfold group_step, flat.
  destruct (is_food ent && has_food).
  - destruct current_group as [|x xs]; simpl.
    + now rewrite app_nil_r.
    + now rewrite concat_snoc.
  - now rewrite app_assoc.
Qed.

Lemma group_loop_flat (l : list Span) (st : group_state) :
  flat (fold_left group_step l st) = flat st ++ l.
Proof.
  revert st. induction l as [|ent l IH]; intro st; simpl.
  - now rewrite app_nil_r.
  - rewrite IH, group_step_flat, <- app_assoc. reflexivity.
Qed.

Lemma group_step_closed (st : group_state) (ent : Span) :
  Forall (fun g => g <> []) (closed_groups st) ->
  Forall (fun g => g <> []) (closed_groups (group_step st ent)).
Proof.
  destruct st as [[groups current_group] has_food].
  unfold group_step, closed_groups. intro H.
  destruct (is_food ent && has_food); [|exact H].
  destruct current_group as [|x xs]; simpl; [exact H|].
  apply Forall_app. split; [exact H|].
  constructor; [discriminate|constructor].
Qed.

Lemma group_loop_closed (l : list Span) (st : group_state) :
  Forall (fun g => g <> []) (closed_groups st) ->
  Forall (fun g => g <> []) (closed_groups (fold_left group_step l st)).
Proof.
  revert st. induction l as [|ent l IH]; intros st H; simpl.
  - exact H.
  - apply IH, group_step_closed, H.
Qed.

(** C3.  Concatenating the groups of [group_entities_by_proximity], in
    order, gives back the input sequence of spans: nothing is added,
    dropped, duplicated or reordered.  No group is empty, so the groups
    partition the input. *)
Theorem grouper_lossless_partition (entities : list Span) :
  concat (group_entities_by_proximity entities) = entities
  /\ Forall (fun g => g <> []) (group_entities_by_proximity entities).
Proof.
  unfold group_entities_by_proximity.
  destruct entities as [|e es]; [split; [reflexivity|constructor]|].
  pose proof (group_loop_flat (e :: es) ([], [], false)) as Hflat.
  pose proof (@group_loop_closed (e :: es) ([], [], false)
                (Forall_nil _)) as Hclosed.
  destruct (fold_left group_step (e :: es) ([], [], false))
    as [[groups current_group] has_food].
  unfold flat in Hflat. unfold closed_groups in Hclosed.
  simpl in Hflat.
  destruct current_group as [|x xs]; simpl.
  - rewrite app_nil_r in Hflat. split; assumption.
  - split.
    + rewrite concat_snoc. exact Hflat.
    + apply Forall_app. split; [exact Hclosed|].
      constructor; [discriminate|constructor].
Qed.

(** The third testable property of the specification. *)
Example grouper_two_foods :
  let q := {| text := "2"; label_ := "QUANTITY"; start := 0; end_ := 1;
              attr_score := None; attr_confidence := None |} in
  let f1 := {| text := "eggs"; label_ := "FOOD"; start := 2; end_ := 6;
               attr_score := None; attr_confidence := None |} in
  let f2 := {| text := "toast"; label_ := "FOOD"; start := 10; end_ := 16;
               attr_score := None; attr_confidence := None |} in
  group_entities_by_proximity [q; f1; f2] = [[q; f1]; [f2]].
Proof. reflexivity. Qed.

End GrouperFacts.

(* ================================================================= *)
(** ** Strings: [lower] and [strip] *)

Module StringFacts.

Import PyStr Invariants.
Open Scope string_scope.

Ltac by_cases_on_char c :=
  destruct c as [[] [] [] [] [] [] [] []]; reflexivity.

Lemma lower_char_idem (c : ascii) : lower_char (lower_char c) = lower_char c.
Proof. by_cases_on_char c. Qed.

Lemma is_space_lower_char (c : ascii) : is_space (lower_char c) = is_space c.
Proof. by_cases_on_char c. Qed.

Lemma lower_idem (s : string) : lower (lower s) = lower s.
Proof.
  induction s as [|c s IH]; simpl; [reflexivity|].
  now rewrite lower_char_idem, IH.
Qed.

Lemma lower_lstrip (s : string) : lower (lstrip s) = lstrip (lower s).
Proof.
  induction s as [|c s IH]; simpl; [reflexivity|].
  rewrite is_space_lower_char. destruct (is_space c); [exact IH|reflexivity].
Qed.

Lemma lower_rstrip (s : string) : lower (rstrip s) = rstrip (lower s).
Proof.
  induction s as [|c s IH]; simpl; [reflexivity|].
  rewrite <- IH, is_space_lower_char.
  destruct (rstrip s) as [|d r]; simpl.
  - destruct (is_space c); reflexivity.
  - reflexivity.
Qed.

Lemma lower_strip (s : string) : lower (strip s) = strip (lower s).
Proof.
  unfold strip. now rewrite lower_rstrip, lower_lstrip.
Qed.

Lemma lstrip_head_ok (s : string) : head_ok (lstrip s).
Proof.
  induction s as [|c s IH]; simpl; [exact I|].
  destruct (is_space c) eqn:E; [exact IH|exact E].
Qed.

Lemma lstrip_fixed (s : string) : head_ok s -> lstrip s = s.
Proof.
  destruct s as [|c s]; simpl; [reflexivity|].
  intros ->. reflexivity.
Qed.

Lemma rstrip_head_ok (s : string) : head_ok s -> head_ok (rstrip s).
Proof.
  destruct s as [|c s]; simpl; [trivial|].
  intro E. rewrite E. destruct (rstrip s); exact E.
Qed.

Lemma rstrip_idem (s : string) : rstrip (rstrip s) = rstrip s.
Proof.
  induction s as [|c s IH]; simpl; [reflexivity|].
  destruct (rstrip s) as [|d r] eqn:E.
  - destruct (is_space c) eqn:Ec; simpl; [reflexivity|].
    now rewrite Ec.
  - change (rstrip (String c (String d r)) = String c (String d r)).
    simpl in IH |- *.
    destruct (match rstrip r with
              | "" => if is_space d then "" else String d ""
              | String a s0 => String d (String a s0)
              end) eqn:E2; [discriminate|].
    now rewrite IH.
Qed.

Lemma strip_idem (s : string) : strip (strip s) = strip s.
Proof.
  unfold strip.
  rewrite (lstrip_fixed (rstrip (lstrip s))).
  - apply rstrip_idem.
  - apply rstrip_head_ok, lstrip_head_ok.
Qed.

(** [s.lower().strip()] is unchanged by a second [.lower().strip()]. *)
Lemma strip_lower_idem (s : string) :
  strip (lower (strip (lower s))) = strip (lower s).
Proof.
  now rewrite <- lower_strip, strip_idem, lower_strip, lower_idem.
Qed.

End StringFacts.

(* ================================================================= *)
(** ** The unit normalizer *)

Module NormalizeUnitFacts.

Import PyStr Extractor StringFacts.
Open Scope string_scope.
Open Scope list_scope.

Lemma dict_get_In (V : Type) (d : list (string * V)) (k : string) (v : V) :
  dict_get d k = Some v -> In v (dict_values d).
Proof.
  induction d as [|[k' v'] d IH]; simpl; [discriminate|].
  destruct (String.eqb k k').
  - intros [= ->]. now left.
  - intro H. right. now apply IH.
Qed.

Lemma UNIT_ALIASES_keys_distinct : NoDup (dict_keys UNIT_ALIASES).
Proof. unfold UNIT_ALIASES, dict_keys. simpl. distinct_keys. Qed.

(** Every canonical value of the alias table normalizes to itself. *)
Lemma canonical_values_fixed (c : string) :
  In c (dict_values UNIT_ALIASES) -> normalize_unit (Some c) = c.
Proof.
  intro H.
  assert (Hall : forallb (fun v => String.eqb (normalize_unit (Some v)) v)
                         (dict_values UNIT_ALIASES) = true)
    by (vm_compute; reflexivity).
  rewrite forallb_forall in Hall.
  now apply String.eqb_eq, Hall.
Qed.

Lemma truthy_false (s : string) : PyStr.truthy s = false -> s = "".
Proof. destruct s; [reflexivity|discriminate]. Qed.

Lemma normalize_unit_eq (u : string) :
  normalize_unit (Some u)
  = if negb (PyStr.truthy u) then "servings"
    else match dict_get UNIT_ALIASES (strip (lower u)) with
         | Some canonical => canonical
         | None => strip (lower u)
         end.
Proof. reflexivity. Qed.

(** The normalizer is idempotent on every token it does not map to the
    empty string, that is on every token but a non-empty run of white
    space. *)
Lemma normalize_unit_idempotent_unless_blank (u : string) :
  normalize_unit (Some u) <> "" ->
  normalize_unit (Some (normalize_unit (Some u))) = normalize_unit (Some u).
Proof.
  rewrite (normalize_unit_eq u).
  destruct (PyStr.truthy u) eqn:Hu; unfold negb; [|reflexivity].
  destruct (dict_get UNIT_ALIASES (strip (lower u))) as [c|] eqn:Hget.
  - intros _. eapply canonical_values_fixed, dict_get_In, Hget.
  - intro Hne. rewrite normalize_unit_eq.
    destruct (PyStr.truthy (strip (lower u))) eqn:Hv; unfold negb.
    + now rewrite strip_lower_idem, Hget.
    + apply truthy_false in Hv. contradiction.
Qed.

Lemma normalize_unit_idempotent_witness :
  normalize_unit (Some (normalize_unit (Some " Tbsp ")))
  = normalize_unit (Some " Tbsp ").
Proof.
  apply (normalize_unit_idempotent_unless_blank " Tbsp ").
  vm_compute. discriminate.
Defined.

(** C10.  The normalizer is not idempotent on a token made of white space
    only: such a token passes the emptiness test, is trimmed to the empty
    string and returned, and the empty string then normalizes to
    ["servings"]. *)
Theorem normalize_unit_blank_not_idempotent :
  normalize_unit (Some " ") = ""
  /\ normalize_unit (Some (normalize_unit (Some " "))) = "servings"
  /\ normalize_unit (Some (normalize_unit (Some " ")))
     <> normalize_unit (Some " ").
Proof.
  repeat split; try reflexivity.
  vm_compute. discriminate.
Qed.

(** The fifth testable property of the specification. *)
Example normalize_unit_samples :
  map normalize_unit [Some "g"; Some "Tbsp"; Some "smidge"; Some ""; None]
  = ["grams"; "tablespoons"; "smidge"; "servings"; "servings"].
Proof. reflexivity. Qed.

End NormalizeUnitFacts.

(* ================================================================= *)
(** ** Floats: arithmetic facts *)

Module FloatFacts.

Import PyFloat.

Lemma norm_id (x : Qc) : norm x = x.
Proof.
  unfold norm. apply Qc_is_canon. simpl. apply Qred_correct.
Qed.

Lemma rat_eq (p q : Q) : rat p = rat q <-> (p == q)%Q.
Proof.
  unfold rat. rewrite Q2Qc_eq_iff. now rewrite !Qred_correct.
Qed.

Lemma rat_this (x : Qc) : rat (this x) = x.
Proof.
  unfold rat. apply Qc_is_canon. simpl. now rewrite !Qred_correct.
Qed.

Lemma Qc_is_zero_spec (x : Qc) : Qc_is_zero x = true <-> x = rat 0.
Proof.
  unfold Qc_is_zero, Qc_eq_bool. destruct (Qc_eq_dec x (rat 0)); split;
    intro H; congruence.
Qed.

Lemma of_nat_S_not_zero (n : nat) :
  Qc_is_zero (rat (inject_Z (Z.of_nat (S n)))) = false.
Proof.
  destruct (Qc_is_zero _) eqn:E; [|reflexivity].
  apply Qc_is_zero_spec, rat_eq in E.
  unfold Qeq in E. simpl in E. lia.
Qed.

(** A division raises nothing but [ZeroDivisionError]. *)
Lemma fdiv_raise (a b : pyfloat) (e : exn) :
  fdiv a b = Raise e -> is_ZeroDivisionError e = true.
Proof.
  unfold fdiv.
  destruct b as [y| | |]; [destruct (Qc_is_zero y)| | |];
    destruct a as [x| | |]; simpl;
    repeat match goal with
           | |- context [match ?c with Eq => _ | Lt => _ | Gt => _ end] =>
               destruct c
           end;
    intro H; inversion H; reflexivity.
Qed.

(** A division by a positive integer returns. *)
Lemma fdiv_of_nat_S (a : pyfloat) (n : nat) : returns (fdiv a (of_nat (S n))).
Proof.
  unfold returns, fdiv, of_nat, of_Z, fl.
  rewrite of_nat_S_not_zero.
  destruct a; simpl;
    repeat match goal with
           | |- context [match ?c with Eq => _ | Lt => _ | Gt => _ end] =>
               destruct c
           end; eauto.
Qed.

Lemma fadd_comm (a b : pyfloat) : fadd a b = fadd b a.
Proof.
  destruct a, b; simpl; try reflexivity.
  now rewrite Qcplus_comm.
Qed.

Lemma fadd_assoc (a b c : pyfloat) : fadd a (fadd b c) = fadd (fadd a b) c.
Proof.
  destruct a, b, c; simpl; try reflexivity.
  now rewrite !norm_id, Qcplus_assoc.
Qed.

Lemma fadd_zero_l (a : pyfloat) : fadd (of_Z 0) a = a.
Proof.
  destruct a; simpl; try reflexivity.
  rewrite norm_id. f_equal. apply Qcplus_0_l.
Qed.

Lemma fadd_zero_r (a : pyfloat) : fadd a (of_Z 0) = a.
Proof. rewrite fadd_comm. apply fadd_zero_l. Qed.

End FloatFacts.

(* ================================================================= *)
(** ** The quantity parser *)

Module ParseNumberFacts.

Import PyStr PyFloat FloatParse Extractor Invariants StringFacts FloatFacts.
Open Scope string_scope.
Open Scope list_scope.

(** *** [float(s)] raises nothing but [ValueError] *)

Lemma py_float_raise (s : string) (e : exn) :
  py_float s = Raise e -> is_ValueError e = true.
Proof.
  unfold py_float.
  destruct (split_sign (strip s)) as [neg body].
  destruct (_ || _); [discriminate|].
  destruct (String.eqb _ _); [discriminate|].
  destruct (parse_decimal body); [discriminate|].
  intros [= <-]. reflexivity.
Qed.

(** *** [float(s)] on a run of digits *)

Lemma digit_facts (c : ascii) :
  is_digit c = true ->
  is_space c = false
  /\ lower_char c = c
  /\ Ascii.eqb c "+" = false /\ Ascii.eqb c "-" = false
  /\ Ascii.eqb c "i" = false /\ Ascii.eqb c "n" = false.
Proof.
  destruct c as [[] [] [] [] [] [] [] []]; intro H;
    try discriminate H; repeat split.
Qed.

Lemma all_digits_no_space (s : string) :
  all_digits s = true -> no_space s = true.
Proof.
  induction s as [|c s IH]; simpl; [reflexivity|].
  intro H. apply andb_prop in H as [Hc Hs].
  destruct (digit_facts c Hc) as [-> _]. simpl. now apply IH.
Qed.

Lemma rstrip_no_space (s : string) : no_space s = true -> rstrip s = s.
Proof.
  induction s as [|c s IH]; simpl; [reflexivity|].
  intro H. apply andb_prop in H as [Hc Hs].
  rewrite (IH Hs). destruct s; [|reflexivity].
  destruct (is_space c); [discriminate|reflexivity].
Qed.

Lemma strip_no_space (s : string) : no_space s = true -> strip s = s.
Proof.
  intro H. unfold strip. rewrite lstrip_fixed.
  - now apply rstrip_no_space.
  - destruct s as [|c s]; simpl in *; [exact I|].
    apply andb_prop in H as [Hc _]. now destruct (is_space c).
Qed.

Lemma digitpart_tail_digits (s : string) :
  all_digits s = true -> digitpart_tail s = (chars s, "").
Proof.
  induction s as [|c s IH]; simpl; [reflexivity|].
  intro H. apply andb_prop in H as [Hc Hs].
  now rewrite Hc, (IH Hs).
Qed.

Lemma py_float_digit_run (s : string) :
  digit_run s -> exists q, py_float s = Ok (Fin q).
Proof.
  intros [Hall Hne].
  destruct s as [|c s]; [contradiction|].
  simpl in Hall. apply andb_prop in Hall as [Hc Hs].
  destruct (digit_facts c Hc) as (Hsp & Hlow & Hplus & Hminus & Hi & Hn).
  unfold py_float.
  rewrite strip_no_space
    by (simpl; rewrite Hsp; simpl; now apply all_digits_no_space).
  assert (Hsign : split_sign (String c s) = (false, String c s)).
  { unfold split_sign.
    destruct c as [[] [] [] [] [] [] [] []]; try discriminate; reflexivity. }
  rewrite Hsign.
  assert (Hinf : String.eqb (lower (String c s)) "inf" = false)
    by (simpl; now rewrite Hlow, Hi).
  assert (Hinfinity : String.eqb (lower (String c s)) "infinity" = false)
    by (simpl; now rewrite Hlow, Hi).
  assert (Hnan : String.eqb (lower (String c s)) "nan" = false)
    by (simpl; now rewrite Hlow, Hn).
  rewrite Hinf, Hinfinity, Hnan. simpl orb. cbv iota.
  unfold parse_decimal, digitpart.
  rewrite Hc, (digitpart_tail_digits s Hs).
  simpl. unfold fl. eauto.
Qed.

(** *** The groups of the mixed-fraction pattern are runs of digits *)

Lemma span_digits_all (s d r : string) :
  span_digits s = (d, r) -> all_digits d = true.
Proof.
  revert d r. induction s as [|c s IH]; simpl; intros d r H.
  - now inversion H.
  - destruct (is_digit c) eqn:Hc.
    + destruct (span_digits s) as [d' r'] eqn:E. inversion H; subst.
      simpl. rewrite Hc. exact (IH _ _ eq_refl).
    + now inversion H.
Qed.

Lemma truthy_nonempty (s : string) : PyStr.truthy s = true -> s <> "".
Proof. destruct s; [discriminate|discriminate]. Qed.

Lemma mixed_match_digit_runs (s whole num denom : string) :
  mixed_match s = Some (whole, num, denom) ->
  digit_run whole /\ digit_run num /\ digit_run denom.
Proof.
  unfold mixed_match.
  destruct (span_digits s) as [w r1] eqn:E1.
  destruct (span_spaces r1) as [sp r2].
  destruct (span_digits r2) as [n r3] eqn:E2.
  destruct r3 as [|c r4]; [discriminate|].
  destruct c as [[] [] [] [] [] [] [] []]; try discriminate.
  destruct (span_digits r4) as [d r5] eqn:E3.
  destruct (PyStr.truthy w) eqn:Hw; [|discriminate].
  destruct (PyStr.truthy sp); [|discriminate].
  destruct (PyStr.truthy n) eqn:Hn; [|discriminate].
  destruct (PyStr.truthy d) eqn:Hd; [|discriminate].
  simpl. intros [= <- <- <-].
  repeat split;
    eauto using span_digits_all, truthy_nonempty.
Qed.

(** A mixed fraction raises nothing but [ZeroDivisionError]. *)
Lemma mixed_fraction_raise (s whole num denom : string) (e : exn) :
  mixed_match s = Some (whole, num, denom) ->
  mixed_fraction whole num denom = Raise e ->
  is_ZeroDivisionError e = true.
Proof.
  intro Hm. apply mixed_match_digit_runs in Hm as (Hw & Hn & Hd).
  destruct (py_float_digit_run Hw) as [w Ew].
  destruct (py_float_digit_run Hn) as [n En].
  destruct (py_float_digit_run Hd) as [d Ed].
  unfold mixed_fraction, bind. rewrite Ew, En, Ed. cbv beta iota.
  destruct (fdiv (Fin n) (Fin d)) eqn:E; [intros [=]|].
  intros [= <-]. eapply fdiv_raise, E.
Qed.

Section Totality.

Variable word_to_num : string -> result pyfloat.

Lemma parse_words_returns (s : string) : returns (parse_words word_to_num s).
Proof.
  unfold parse_words, returns.
  destruct (dict_get word_numbers s); [eauto|].
  unfold try_return, try_except.
  destruct (word_to_num s); simpl; eauto.
Qed.

Lemma parse_mixed_returns (s : string) : returns (parse_mixed word_to_num s).
Proof.
  unfold parse_mixed.
  destruct (mixed_match s) as [[[whole num] denom]|] eqn:Hm;
    [|apply parse_words_returns].
  unfold try_return, try_except.
  destruct (mixed_fraction whole num denom) eqn:E; [red; eauto|].
  rewrite (mixed_fraction_raise _ Hm E). apply parse_words_returns.
Qed.

Lemma parse_fraction_returns (s : string) :
  returns (parse_fraction word_to_num s).
Proof.
  unfold parse_fraction.
  destruct (contains "/" s); [|apply parse_mixed_returns].
  unfold try_return, try_except.
  destruct (simple_fraction s); [red; eauto|].
  simpl. apply parse_mixed_returns.
Qed.

(** The parser returns on every input, whatever [word2number] does. *)
Lemma parse_number_returns (qty_str : option string) :
  returns (parse_number word_to_num qty_str).
Proof.
  unfold parse_number.
  destruct qty_str as [s|]; [|red; eauto].
  destruct (negb (PyStr.truthy s)); [red; eauto|].
  unfold try_return, try_except.
  destruct (py_float (lower (strip s))) eqn:E; [red; eauto|].
  rewrite (py_float_raise _ E). apply parse_fraction_returns.
Qed.

End Totality.

(** C5 fails as stated: the parser returns [0.0] for the token "0", which
    is not a positive float. *)
Lemma parse_number_not_always_positive :
  ~ (forall (word_to_num : string -> result pyfloat) (qty_str : option string),
        exists x, parse_number word_to_num qty_str = Ok x /\ Spec.positive x).
Proof.
  intro H.
  destruct (H Samples.no_words (Some "0")) as [x [Hx Hpos]].
  vm_compute in Hx. injection Hx as <-.
  vm_compute in Hpos. discriminate Hpos.
Qed.

(** C5, amended.  On every input, absent and empty included, the quantity
    parser returns a float and raises nothing; the absent and the empty
    token give [1.0].  The float need not be positive. *)
Theorem parse_number_total (word_to_num : string -> result pyfloat)
    (qty_str : option string) :
  returns (parse_number word_to_num qty_str)
  /\ parse_number word_to_num None = Ok (fl 1)
  /\ parse_number word_to_num (Some "") = Ok (fl 1).
Proof.
  split; [apply parse_number_returns|split; reflexivity].
Qed.

(** C6 fails as stated: "third" parses to [0.33], not to one third. *)
Lemma third_is_not_one_third :
  ~ (forall word_to_num : string -> result pyfloat,
        Forall (Spec.parses_to word_to_num) Spec.lexical_table).
Proof.
  intro H. specialize (H Samples.no_words).
  rewrite Forall_forall in H.
  assert (Hin : In ("third", Spec.one_third) Spec.lexical_table)
    by (unfold Spec.lexical_table; simpl; tauto).
  apply H in Hin. unfold Spec.parses_to in Hin.
  vm_compute in Hin. discriminate Hin.
Qed.

(** C6, amended.  For every word of the closed lexical table the parser
    returns the table's value: "one" to "ten" give 1 to 10, "half" 0.5,
    "quarter" 0.25, "third" 0.33 and "a", "an" 1. *)
Theorem parse_number_lexical_table
    (word_to_num : string -> result pyfloat) :
  Forall (Spec.parses_to word_to_num) Spec.lexical_table_amended.
Proof.
  unfold Spec.lexical_table_amended, Spec.parses_to.
  repeat constructor.
Qed.

(** The table of the code is that table, and no word is bound twice. *)
Lemma word_numbers_is_amended_table :
  word_numbers = Spec.lexical_table_amended.
Proof. reflexivity. Qed.

Lemma word_numbers_keys_distinct : NoDup (dict_keys word_numbers).
Proof. unfold word_numbers, dict_keys. simpl. distinct_keys. Qed.

(** The fourth testable property of the specification. *)
Example parse_number_samples (word_to_num : string -> result pyfloat) :
  map (parse_number word_to_num)
      [Some "2"; Some "1/2"; Some "1 1/2"; Some "half"; Some "a"; Some ""; None]
  = map Ok [fl 2; fl 0.5; fl 1.5; fl 0.5; fl 1; fl 1; fl 1].
Proof. reflexivity. Qed.

Example parse_number_unparseable :
  parse_number Samples.no_words (Some "lots") = Ok (fl 1).
Proof. reflexivity. Qed.

Example parse_number_division_by_zero :
  parse_number Samples.no_words (Some "1 1/0") = Ok (fl 1).
Proof. reflexivity. Qed.

Example parse_number_negative :
  parse_number Samples.no_words (Some "-2") = Ok (fl (-2)).
Proof. reflexivity. Qed.

End ParseNumberFacts.

(* ================================================================= *)
(** ** The confidence scorer and the item assembler *)

Module AssemblerFacts.

Import PyStr PyFloat Extractor Invariants FloatFacts ParseNumberFacts.
Open Scope string_scope.
Open Scope list_scope.

(** *** The confidence scorer *)

Lemma calculate_confidence_returns (entities : list (Span * option pyfloat)) :
  returns (calculate_confidence entities).
Proof.
  unfold calculate_confidence.
  destruct entities as [|es rest]; [red; eauto|].
  destruct (present_scores (es :: rest)) as [|sc scores].
  - repeat match goal with
           | |- context [if ?b then _ else _] => destruct b
           end; red; eauto.
  - apply fdiv_of_nat_S.
Qed.

Lemma present_scores_plain (group : list Span) :
  Forall plainly_scored group ->
  present_scores (entity_info group) = Spec.scores_present group.
Proof.
  unfold present_scores, entity_info, Spec.scores_present.
  induction 1 as [|ent group [Hconf Hscore] _ IH]; [reflexivity|].
  cbn [map flat_map snd]. rewrite IH, Hconf. f_equal.
  destruct (attr_score ent) as [x|]; [|reflexivity].
  unfold or_else. now rewrite (Hscore x eq_refl).
Qed.

Lemma has_label_entity_info (l : string) (group : list Span) :
  has_label l (map (fun es : Span * option pyfloat => label_ (fst es))
                   (entity_info group))
  = Spec.has l group.
Proof.
  unfold has_label, Spec.has, entity_info.
  rewrite map_map. simpl.
  induction group as [|ent group IH]; simpl; [reflexivity|].
  rewrite IH. f_equal. apply String.eqb_sym.
Qed.

(** On a group whose entities are plainly scored the scorer is the one of
    the specification: the mean of the scores that are present, or the
    structural heuristic when there is none. *)
Lemma calculate_confidence_plain (group : list Span) :
  Forall plainly_scored group ->
  calculate_confidence (entity_info group) = Spec.confidence group.
Proof.
  intro H. unfold calculate_confidence, Spec.confidence.
  rewrite (present_scores_plain H).
  destruct group as [|ent group]; [reflexivity|].
  change (entity_info (ent :: group)) with
    ((ent, or_else (attr_score ent) (attr_confidence ent))
       :: entity_info group).
  cbv iota.
  destruct (Spec.scores_present (ent :: group)) as [|sc scores];
    [|reflexivity].
  change ((ent, or_else (attr_score ent) (attr_confidence ent))
            :: entity_info group) with (entity_info (ent :: group)).
  rewrite !has_label_entity_info. unfold Spec.heuristic.
  destruct (Spec.has "FOOD" (ent :: group)),
           (Spec.has "QUANTITY" (ent :: group)),
           (Spec.has "UNIT" (ent :: group)); reflexivity.
Qed.

Lemma calculate_confidence_plain_witness :
  calculate_confidence (entity_info Samples.three_cups_of_rice)
  = Spec.confidence Samples.three_cups_of_rice.
Proof.
  apply (@calculate_confidence_plain Samples.three_cups_of_rice).
  repeat constructor; discriminate.
Defined.

(** C4.  An entity whose score is [0.0] is read as an entity without a
    score ([score or confidence] takes [0.0] for false).  With a quantity
    scored [0.8] and a food scored [0.0] the scorer returns [0.8], the mean
    of the single score it kept, where the mean of the scores that are
    present is [0.4]. *)
Theorem zero_score_is_dropped :
  calculate_confidence (entity_info Samples.zero_scored_food) = Ok (fl 0.8)
  /\ Spec.confidence Samples.zero_scored_food = Ok (fl 0.4)
  /\ calculate_confidence (entity_info Samples.zero_scored_food)
     <> Spec.confidence Samples.zero_scored_food.
Proof.
  repeat split; try reflexivity.
  vm_compute. discriminate.
Qed.

(** The sixth testable property of the specification. *)
Example confidence_samples :
  calculate_confidence (entity_info Samples.three_cups_of_rice) = Ok (fl 0.95)
  /\ calculate_confidence
       (entity_info [Samples.span "FOOD" "steak" 4 9]) = Ok (fl 0.65)
  /\ calculate_confidence (entity_info Samples.two_apples) = Ok (fl 0.80)
  /\ calculate_confidence
       (entity_info [Samples.span "QUANTITY" "2" 0 1]) = Ok (fl 0.50).
Proof. repeat split. Qed.

(** *** The item assembler *)

Lemma before_units_empty (first_food_start : Z) (group : list Span) :
  no_unit_before first_food_start group ->
  before first_food_start (with_label "UNIT" group) = [].
Proof.
  intro H. unfold before, with_label.
  induction group as [|ent group IH]; [reflexivity|].
  simpl. destruct (String.eqb (label_ ent) "UNIT") eqn:El.
  - simpl. apply String.eqb_eq in El.
    assert (Hlt : (first_food_start < end_ ent)%Z)
      by (apply H; [now left|exact El]).
    apply Z.leb_gt in Hlt. rewrite Hlt.
    apply IH. intros u Hu. apply H. now right.
  - apply IH. intros u Hu. apply H. now right.
Qed.

(** Where a group has a food and no unit before it, the assembler returns
    an item whose unit is the string ["serving"]. *)
Lemma default_unit_is_serving (word_to_num : string -> result pyfloat)
    (group : list Span) (first_food : Span) (foods : list Span) :
  with_label "FOOD" group = first_food :: foods ->
  no_unit_before (start first_food) group ->
  exists item,
    extract_item_from_group word_to_num group = Ok item
    /\ unit item = "serving".
Proof.
  intros Hfood Hunit. unfold extract_item_from_group.
  rewrite Hfood, (before_units_empty Hunit).
  destruct (max_by_end (before (start first_food) (with_label "QUANTITY" group)))
    as [closest_qty|].
  - destruct (parse_number_returns word_to_num (Some (text closest_qty)))
      as [q ->].
    destruct (calculate_confidence_returns (entity_info group)) as [c ->].
    simpl. eauto.
  - destruct (calculate_confidence_returns (entity_info group)) as [c ->].
    simpl. eauto.
Qed.

Lemma default_unit_is_serving_witness :
  exists item,
    extract_item_from_group Samples.no_words Samples.two_apples = Ok item
    /\ unit item = "serving".
Proof.
  apply (@default_unit_is_serving Samples.no_words Samples.two_apples
           (Samples.span "FOOD" "apples" 8 14) []).
  - reflexivity.
  - intros u [<-|[<-|[]]]; discriminate.
Defined.

(** C1.  For "I had 2 apples", a group with a food and no unit, the
    assembler returns the unit ["serving"].  That is not the canonical
    ["servings"], which the normalizer gives for an absent unit and to which
    it maps ["serving"]. *)
Theorem default_unit_not_canonical
    (word_to_num : string -> result pyfloat) :
  extract_item_from_group word_to_num Samples.two_apples
  = Ok {| ingredient := "apples"; quantity := fl 2; unit := "serving";
          confidence := fl 0.8 |}
  /\ normalize_unit None = "servings"
  /\ normalize_unit (Some "serving") = "servings".
Proof. repeat split. Qed.

Example assembler_with_unit (word_to_num : string -> result pyfloat) :
  extract_item_from_group word_to_num Samples.three_cups_of_rice
  = Ok {| ingredient := "rice"; quantity := fl 3; unit := "cups";
          confidence := fl 0.95 |}.
Proof. reflexivity. Qed.

(** A quantity of zero reaches the extracted item. *)
Example assembler_zero_quantity (word_to_num : string -> result pyfloat) :
  extract_item_from_group word_to_num Samples.zero_apples
  = Ok {| ingredient := "apples"; quantity := fl 0; unit := "serving";
          confidence := fl 0.8 |}.
Proof. reflexivity. Qed.

End AssemblerFacts.

(* ================================================================= *)
(** ** The fallback table *)

Module FallbackFacts.

Import PyStr PyFloat Api ApiSpec StringFacts.
Open Scope string_scope.
Open Scope list_scope.

Lemma dict_get_find (V : Type) (d : list (string * V)) (k : string) :
  dict_get d k
  = option_map snd (find (fun entry => String.eqb k (fst entry)) d).
Proof.
  unfold dict_get.
  induction d as [|[k' v] d IH]; simpl; [reflexivity|].
  destruct (String.eqb k k'); [reflexivity|exact IH].
Qed.

Lemma find_ext_in (A : Type) (f g : A -> bool) (l : list A) :
  (forall x, In x l -> f x = g x) -> find f l = find g l.
Proof.
  induction l as [|a l IH]; simpl; intro H; [reflexivity|].
  rewrite (H a) by now left.
  destruct (g a); [reflexivity|].
  apply IH. intros x Hx. apply H. now right.
Qed.

Lemma partial_match_find (db : list (string * Nutrition)) (n : string) :
  partial_match db n
  = match find (fun entry => contains (fst entry) n || contains n (fst entry))
               db with
    | Some (_, profile) => profile
    | None => default_nutrition
    end.
Proof.
  induction db as [|[key nutrition] db IH]; simpl; [reflexivity|].
  destruct (contains key n || contains n key); [reflexivity|exact IH].
Qed.

(** The keys of the table are in lower case and pairwise distinct. *)
Lemma nutrition_db_keys_lower (entry : string * Nutrition) :
  In entry nutrition_db -> lower (fst entry) = fst entry.
Proof.
  intro H.
  assert (Hall : forallb (fun e : string * Nutrition =>
                            String.eqb (lower (fst e)) (fst e))
                         nutrition_db = true)
    by (vm_compute; reflexivity).
  rewrite forallb_forall in Hall.
  now apply String.eqb_eq, Hall.
Qed.

Lemma nutrition_db_keys_distinct : NoDup (map fst nutrition_db).
Proof. unfold nutrition_db. simpl. distinct_keys. Qed.

(** C7.  The fallback lookup returns the profile under the exact
    case-insensitive key match if there is one; otherwise the profile of
    the first entry, in the order of the table, whose key is a substring of
    the lower-cased ingredient or contains it; otherwise the generic
    default [{150, 8, 20, 5, 2.0, 5.0}]. *)
Theorem fallback_lookup_refines (food_name : string) :
  get_mock_nutrition_by_food_name food_name = fallback_lookup food_name.
Proof.
  unfold get_mock_nutrition_by_food_name, fallback_lookup.
  rewrite dict_get_find, partial_match_find.
  rewrite (@find_ext_in _
             (fun entry : string * Nutrition =>
                matches_exactly food_name (fst entry))
             (fun entry => String.eqb (lower food_name) (fst entry))).
  - destruct (find _ nutrition_db) as [[key profile]|]; reflexivity.
  - intros entry Hin. unfold matches_exactly.
    rewrite (nutrition_db_keys_lower Hin). apply String.eqb_sym.
Qed.

(** The order of the table decides between overlapping keys. *)
Example fallback_lookup_samples :
  get_mock_nutrition_by_food_name "Apple" = row 95 0.5 25 0.3 4.0 19
  /\ get_mock_nutrition_by_food_name "apples" = row 95 0.5 25 0.3 4.0 19
  /\ get_mock_nutrition_by_food_name "grilled chicken breast"
     = row 165 31 0 3.6 0 0
  /\ get_mock_nutrition_by_food_name "brown rice" = row 112 2.3 24 0.9 1.8 0.4
  /\ get_mock_nutrition_by_food_name "fried rice" = row 130 2.7 28 0.3 0.4 0.1
  /\ get_mock_nutrition_by_food_name "pineapple juice"
     = row 95 0.5 25 0.3 4.0 19
  /\ get_mock_nutrition_by_food_name "" = row 95 0.5 25 0.3 4.0 19
  /\ get_mock_nutrition_by_food_name "steak" = row 150 8 20 5 2.0 5.0.
Proof. repeat split. Qed.

End FallbackFacts.

(* ================================================================= *)
(** ** The aggregator *)

Module TotalsFacts.

Import PyFloat Api ApiSpec FloatFacts.
Open Scope list_scope.

Lemma ge0_Fin (q : Qc) : ge0 (Fin q) = true <-> (rat 0 <= q)%Qc.
Proof. unfold ge0, fl, fleb, Qc_leb. apply Qle_bool_iff. Qed.

Lemma ge0_fadd (a b : pyfloat) :
  ge0 a = true -> ge0 b = true -> ge0 (fadd a b) = true.
Proof.
  destruct a as [x| | |], b as [y| | |]; simpl; try discriminate;
    try reflexivity.
  intros Hx Hy. apply ge0_Fin in Hx, Hy. apply ge0_Fin.
  rewrite norm_id.
  replace (rat 0) with (rat 0 + rat 0)%Qc by (apply Qcplus_0_l).
  now apply Qcplus_le_compat.
Qed.

Lemma fold_fadd_ge0 (l : list pyfloat) (acc : pyfloat) :
  ge0 acc = true -> Forall (fun v => ge0 v = true) l ->
  ge0 (fold_left fadd l acc) = true.
Proof.
  revert acc. induction l as [|v l IH]; intros acc Hacc Hl; simpl.
  - exact Hacc.
  - inversion Hl; subst. apply IH; [now apply ge0_fadd|assumption].
Qed.

Lemma fsum_ge0 (l : list pyfloat) :
  Forall (fun v => ge0 v = true) l -> ge0 (fsum l) = true.
Proof. apply fold_fadd_ge0. reflexivity. Qed.

(** The left-to-right sum of the code is the sum of the list. *)
Lemma fold_fadd_total (l : list pyfloat) (acc : pyfloat) :
  fold_left fadd l acc = fadd acc (total l).
Proof.
  revert acc. induction l as [|v l IH]; intro acc; simpl.
  - now rewrite fadd_zero_r.
  - now rewrite IH, fadd_assoc.
Qed.

Lemma fsum_total (l : list pyfloat) : fsum l = total l.
Proof. unfold fsum. now rewrite fold_fadd_total, fadd_zero_l. Qed.

Lemma not_truthy_zero (x : pyfloat) : truthy x = false -> x = of_Z 0.
Proof.
  destruct x as [q| | |]; simpl; try discriminate.
  intro H. apply negb_false_iff, Qc_is_zero_spec in H. now subst.
Qed.

(** [x or 0] is what an optional macro contributes to a sum. *)
Lemma or_zero_contribution (x : option pyfloat) : or_zero x = contribution x.
Proof.
  destruct x as [v|]; simpl; [|reflexivity].
  destruct (truthy v) eqn:E; [reflexivity|].
  symmetry. now apply not_truthy_zero.
Qed.

(** Rounding only a sum that is not zero is rounding it in every case. *)
Lemma round_if_truthy_Some (x : pyfloat) :
  round_if_truthy (Some x) = Some (round1 x).
Proof.
  simpl. destruct (truthy x) eqn:E; [reflexivity|].
  apply not_truthy_zero in E. subst. reflexivity.
Qed.

Lemma contribution_ge0 (x : option pyfloat) :
  opt_check ge0 x = true -> ge0 (contribution x) = true.
Proof. destruct x; simpl; [trivial|reflexivity]. Qed.

Lemma Forall_map_ge0 (f : FoodItem -> pyfloat) (items : list FoodItem) :
  Forall (fun i => ge0 (f i) = true) items ->
  Forall (fun v => ge0 v = true) (map f items).
Proof. intro H. now apply Forall_map. Qed.


End TotalsFacts.

(* ================================================================= *)
(** ** The nutrition resolver and the request handler *)

Module PipelineFacts.

Import PyStr PyFloat Api ApiSpec FloatFacts TotalsFacts.
Open Scope string_scope.
Open Scope list_scope.

(** *** The fallback profile can always be scaled *)

Lemma dict_get_value (V : Type) (d : list (string * V)) (k : string) (v : V) :
  dict_get d k = Some v -> In v (map snd d).
Proof.
  unfold dict_get.
  induction d as [|[k' v'] d IH]; simpl; [discriminate|].
  destruct (String.eqb k k').
  - intros [= ->]. now left.
  - intro H. right. now apply IH.
Qed.

Lemma partial_match_value (db : list (string * Nutrition)) (n : string) :
  In (partial_match db n) (map snd db) \/ partial_match db n = default_nutrition.
Proof.
  induction db as [|[key nutrition] db IH]; simpl; [now right|].
  destruct (contains key n || contains n key); [left; now left|].
  destruct IH as [IH|IH]; [left; now right|now right].
Qed.

Lemma get_mock_table_row (food_name : string) :
  table_row (get_mock_nutrition_by_food_name food_name) = true.
Proof.
  assert (Hall : forallb table_row (map snd nutrition_db) = true)
    by (vm_compute; reflexivity).
  rewrite forallb_forall in Hall.
  unfold get_mock_nutrition_by_food_name.
  destruct (dict_get nutrition_db (lower food_name)) as [n|] eqn:E.
  - eapply Hall, dict_get_value, E.
  - destruct (partial_match_value nutrition_db (lower food_name)) as [H|H].
    + now apply Hall.
    + rewrite H. reflexivity.
Qed.

Lemma gt0_Fin (q : Qc) : gt0 (Fin q) = true <-> (rat 0 < q)%Qc.
Proof.
  unfold gt0, fl, fltb, Qc_ltb. rewrite negb_true_iff.
  split; intro H.
  - apply Qnot_le_lt. intro Hle. apply Qle_bool_iff in Hle. congruence.
  - destruct (Qle_bool q (rat 0)) eqn:E; [|reflexivity].
    apply Qle_bool_iff in E. exfalso. eapply Qlt_not_le; eassumption.
Qed.

Lemma scaled_value_ge0 (x : pyfloat) (q : Qc) :
  table_value x = true -> gt0 (Fin q) = true -> ge0 (fmul x (Fin q)) = true.
Proof.
  destruct x as [v| | |]; simpl; try discriminate.
  intros Hv Hq. apply ge0_Fin in Hv. apply gt0_Fin in Hq. apply ge0_Fin.
  rewrite norm_id.
  replace (rat 0) with (rat 0 * q)%Qc by (apply Qcmult_0_l).
  apply Qcmult_le_compat_r; [exact Hv|]. now apply Qclt_le_weak.
Qed.

Lemma scaled_MacroInfo_returns (n : Nutrition) (q : Qc) :
  table_row n = true -> gt0 (Fin q) = true ->
  returns (scaled_MacroInfo n (Fin q)).
Proof.
  unfold table_row. intros Hrow Hq.
  repeat (apply andb_prop in Hrow as [Hrow ?]).
  unfold scaled_MacroInfo, new_MacroInfo, opt_check.
  rewrite !scaled_value_ge0 by assumption.
  red. simpl. eauto.
Qed.

(** *** The boosted confidence stays between 0 and 1 *)

Lemma boosted_in_range (c : pyfloat) :
  ge0 c = true -> le1 c = true ->
  ge0 (fmin (fadd c (fl 0.05)) (fl 1.0)) = true
  /\ le1 (fmin (fadd c (fl 0.05)) (fl 1.0)) = true.
Proof.
  destruct c as [x| | |]; try discriminate. intros H0 H1.
  change (fadd (Fin x) (fl 0.05)) with (Fin (norm (x + rat 0.05))).
  unfold fmin.
  destruct (fltb (fl 1.0) (Fin (norm (x + rat 0.05)))) eqn:E.
  - split; reflexivity.
  - split.
    + apply ge0_Fin in H0. apply ge0_Fin. rewrite norm_id.
      replace (rat 0) with (rat 0 + rat 0)%Qc by (apply Qcplus_0_l).
      apply Qcplus_le_compat; [exact H0|]. now apply Qle_bool_iff.
    + unfold le1, fleb, Qc_leb.
      unfold fltb, fl, Qc_ltb in E. now apply negb_false_iff in E.
Qed.

Section Pipeline.

Variable USDA_API_KEY : string.
Variable ML_AVAILABLE : bool.
Variable enhanced_extract : string -> result (list Extractor.Item).
Variable http_search : string -> Z -> result (Response UsdaSearch).
Variable http_food : string -> result (Response UsdaFood).

Abbreviation search_usda_food := (search_usda_food USDA_API_KEY http_search).
Abbreviation get_usda_nutrition := (get_usda_nutrition USDA_API_KEY http_food).
Abbreviation usda_lookup := (usda_lookup USDA_API_KEY http_search http_food).
Abbreviation process_item := (process_item USDA_API_KEY http_search http_food).
Abbreviation process_items := (process_items USDA_API_KEY http_search http_food).
Abbreviation process_text_analysis :=
  (process_text_analysis USDA_API_KEY enhanced_extract http_search http_food).
Abbreviation analyze_text :=
  (analyze_text USDA_API_KEY ML_AVAILABLE enhanced_extract http_search
                http_food).

(** *** Nothing raises *)

Lemma try_except_all_returns (A : Type) (body : result A)
    (handler : exn -> result A) :
  (forall e, returns (handler e)) ->
  returns (try_except body is_Exception handler).
Proof.
  intro H. unfold try_except. destruct body; [red; eauto|apply H].
Qed.

Lemma search_usda_food_returns (query : string) (limit : Z) :
  returns (search_usda_food query limit).
Proof. apply try_except_all_returns. intro. red. eauto. Qed.

Lemma get_usda_nutrition_returns (food_id : string) :
  returns (get_usda_nutrition food_id).
Proof. apply try_except_all_returns. intro. red. eauto. Qed.




(** *** A well-formed item is always resolved *)

Lemma process_item_well_formed (include_usda : bool) (item : Extractor.Item) :
  well_formed item ->
  exists food_item,
    process_item include_usda item = Ok food_item
    /\ name food_item = Extractor.ingredient item.
Proof.
  intros ([q Hq] & Hgt & Hge & Hle).
  unfold Api.process_item.
  destruct (if include_usda && negb (key_missing USDA_API_KEY)
            then usda_lookup (Extractor.ingredient item)
                             (Extractor.quantity item)
            else (None, [], None)) as [[macros notes] usda_food_id].
  assert (Hconf :
    opt_check ge0
      (Some (if opt_str_truthy usda_food_id
             then fmin (fadd (Extractor.confidence item) (fl 0.05)) (fl 1.0)
             else Extractor.confidence item)) = true
    /\ opt_check le1
      (Some (if opt_str_truthy usda_food_id
             then fmin (fadd (Extractor.confidence item) (fl 0.05)) (fl 1.0)
             else Extractor.confidence item)) = true).
  { simpl. destruct (opt_str_truthy usda_food_id); [|now split].
    now apply boosted_in_range. }
  destruct Hconf as [Hc0 Hc1].
  destruct macros as [m|].
  - unfold bind, new_FoodItem. rewrite Hgt, Hc0, Hc1. simpl. eauto.
  - rewrite Hq in Hgt |- *.
    destruct (@scaled_MacroInfo_returns _ _
                (get_mock_table_row (Extractor.ingredient item)) Hgt)
      as [m ->].
    unfold bind, new_FoodItem. rewrite Hgt, Hc0, Hc1. simpl. eauto.
Qed.


End Pipeline.

End PipelineFacts.

(* ================================================================= *)
(** ** The pipeline, end to end *)

Module EndToEnd.

Import PyStr PyFloat Api ApiSpec ApiSamples FloatFacts TotalsFacts
       PipelineFacts.
Open Scope string_scope.
Open Scope list_scope.

(** *** The aggregator on a resolved item *)


(** The tenth testable property of the specification: the totals of the
    single item are its macros. *)
Example totals_of_two_apples :
  calculate_totals [resolved_apples] = Ok twice_an_apple.
Proof. reflexivity. Qed.

(** *** The fallback tier and the confidence *)

Section Resolver.

Variable USDA_API_KEY : string.
Variable http_search : string -> Z -> result (Response UsdaSearch).
Variable http_food : string -> result (Response UsdaFood).

(** Where the external lookup is disabled or not configured, or the
    search returns no candidate, the resolved item keeps the confidence of
    the extraction and is marked as estimated. *)
Lemma fallback_keeps_confidence (include_usda : bool)
    (item : Extractor.Item) (food_item : FoodItem) :
  include_usda && negb (key_missing USDA_API_KEY) = false
  \/ search_usda_food USDA_API_KEY http_search
       (Extractor.ingredient item) 1 = Ok [] ->
  process_item USDA_API_KEY http_search http_food include_usda item
  = Ok food_item ->
  confidence food_item = Some (Extractor.confidence item)
  /\ source food_item = "text_estimated"
  /\ usda_food_id food_item = None.
Proof.
  intros Hfallback. unfold process_item.
  assert (Hstate :
    exists notes,
      (if include_usda && negb (key_missing USDA_API_KEY)
       then usda_lookup USDA_API_KEY http_search http_food
              (Extractor.ingredient item) (Extractor.quantity item)
       else (None, [], None))
      = (None, notes, None)).
  { destruct (include_usda && negb (key_missing USDA_API_KEY)) eqn:E;
      [|eauto].
    destruct Hfallback as [H|H]; [discriminate|].
    unfold usda_lookup. rewrite H. eauto. }
  destruct Hstate as [notes ->].
  destruct (scaled_MacroInfo _ _) as [m|e]; [|intros [=]].
  unfold bind, new_FoodItem. cbn [opt_str_truthy fst snd].
  match goal with
  | |- (if ?valid then _ else _) = _ -> _ => destruct valid
  end; [|intros [=]].
  intros [= <-]. repeat split.
Qed.

End Resolver.

Lemma fallback_keeps_confidence_witness :
  confidence resolved_apples = Some (Extractor.confidence apples)
  /\ source resolved_apples = "text_estimated"
  /\ usda_food_id resolved_apples = None.
Proof.
  apply (@fallback_keeps_confidence api_key search_down food_down false
           apples resolved_apples).
  - left. reflexivity.
  - reflexivity.
Defined.

(** C2.  A candidate is found and its detail request fails: the macros
    come from the fallback table and the note says so, yet the confidence
    is boosted from [0.8] to [0.85] and the item is marked [text_usda].
    The boost is decided on [usda_food_id], which is set before the detail
    is fetched. *)
Theorem failed_detail_still_boosts :
  process_item api_key search_hit food_500 true apples = Ok boosted_apples
  /\ macros boosted_apples = macros resolved_apples
  /\ confidence boosted_apples = Some (fl 0.85)
  /\ Some (Extractor.confidence apples) = Some (fl 0.8)
  /\ confidence boosted_apples <> Some (Extractor.confidence apples).
Proof.
  repeat split. vm_compute. discriminate.
Qed.

(** *** The request handler *)




(** From the entities of "I had 2 apples" to the resolved item. *)
Example two_apples_from_entities :
  process_text_analysis api_key
    (Extractor.spacy_extract Samples.no_words true
       (Some (fun _ => Ok Samples.two_apples)))
    search_down food_down "I had 2 apples" false
  = Ok [resolved_apples].
Proof. reflexivity. Qed.

(** The tenth testable property of the specification, end to end. *)
Example two_apples_end_to_end :
  analyze_text api_key true (extracts [apples]) search_down food_down
    (request "I had 2 apples" false)
  = Ok {| success := true; input_type := "text";
          raw_input := "I had 2 apples";
          items := [resolved_apples];
          totals := twice_an_apple;
          warnings := [];
          metadata := MetadataOk true true false 0 1 |}.
Proof. reflexivity. Qed.

End EndToEnd.

(* ================================================================= *)
(** ** The grouper: one group per food *)

Module GrouperShape.

Import PyStr PyFloat Extractor Invariants Shapes MoreSamples GrouperFacts.
Open Scope string_scope.
Open Scope list_scope.

Lemma foods_app (a b : list Span) : foods (a ++ b) = (foods a + foods b)%nat.
Proof. unfold foods. now rewrite filter_app, length_app. Qed.

Lemma foods_zero (g : list Span) :
  foods g = 0%nat <-> existsb is_food g = false.
Proof.
  unfold foods. induction g as [|e g IH]; simpl; [tauto|].
  destruct (is_food e); simpl; [split; discriminate|exact IH].
Qed.

Lemma foods_pos (g : list Span) :
  existsb is_food g = true -> (1 <= foods g)%nat.
Proof.
  intro H. destruct (foods g) eqn:E; [|lia].
  apply foods_zero in E. congruence.
Qed.

Lemma food_first_foods (g : list Span) : food_first g -> foods g = 1%nat.
Proof.
  intros (f & rest & -> & Hf & Hrest).
  unfold foods in *. simpl. rewrite Hf. simpl. now rewrite Hrest.
Qed.

Lemma food_first_has_food (g : list Span) :
  food_first g -> existsb is_food g = true.
Proof. intros (f & rest & -> & Hf & _). simpl. now rewrite Hf. Qed.

Lemma food_first_snoc (g : list Span) (ent : Span) :
  food_first g -> is_food ent = false -> food_first (g ++ [ent]).
Proof.
  intros (f & rest & -> & Hf & Hrest) Hent.
  exists f, (rest ++ [ent]). repeat split; [assumption|].
  rewrite foods_app, Hrest. unfold foods. simpl. now rewrite Hent.
Qed.

Lemma food_first_single (ent : Span) : is_food ent = true -> food_first [ent].
Proof. intro H. exists ent, []. repeat split. exact H. Qed.

Lemma group_step_shape (st : group_state) (ent : Span) :
  group_shape st -> group_shape (group_step st ent).
Proof.
  destruct st as [[groups current_group] has_food].
  unfold group_shape, group_step. intros [Hflag Hshape]. subst has_food.
  destruct (is_food ent) eqn:Hent; simpl andb.
  - destruct (existsb is_food current_group) eqn:Hcur.
    + (* a second food: the current group is closed *)
      assert (Hne : nonempty current_group = true)
        by (destruct current_group; [discriminate|reflexivity]).
      rewrite Hne. split; [simpl; now rewrite Hent|].
      destruct groups as [|first later]; simpl.
      * split; [|split; [constructor|now apply food_first_single]].
        apply foods_pos in Hcur. lia.
      * destruct Hshape as (Hfirst & Hlater & Hcurrent).
        split; [assumption|]. split; [|now apply food_first_single].
        apply Forall_app. split; [assumption|now constructor].
    + (* the first food of the group *)
      split; [now rewrite existsb_app; simpl; rewrite Hent, orb_true_r|].
      destruct groups as [|first later].
      * rewrite foods_app. apply foods_zero in Hcur. rewrite Hcur.
        unfold foods. simpl. rewrite Hent. simpl. lia.
      * destruct Hshape as (_ & _ & Hcurrent).
        apply food_first_has_food in Hcurrent. congruence.
  - split.
    + rewrite existsb_app. simpl. rewrite Hent. simpl.
      now rewrite orb_false_r.
    + destruct groups as [|first later].
      * rewrite foods_app. unfold foods at 2. simpl. rewrite Hent. simpl. lia.
      * destruct Hshape as (Hfirst & Hlater & Hcurrent).
        repeat split; try assumption. now apply food_first_snoc.
Qed.

Lemma group_loop_shape (l : list Span) (st : group_state) :
  group_shape st -> group_shape (fold_left group_step l st).
Proof.
  revert st. induction l as [|ent l IH]; intros st H; simpl; [exact H|].
  apply IH, group_step_shape, H.
Qed.

Lemma group_step_nonempty (st : group_state) (ent : Span) :
  nonempty (snd (fst (group_step st ent))) = true.
Proof.
  destruct st as [[groups current_group] has_food]. unfold group_step.
  destruct (is_food ent && has_food); simpl; [reflexivity|].
  destruct current_group; reflexivity.
Qed.

Lemma group_loop_nonempty (l : list Span) (st : group_state) :
  nonempty (snd (fst st)) = true ->
  nonempty (snd (fst (fold_left group_step l st))) = true.
Proof.
  revert st. induction l as [|ent l IH]; intros st H; simpl; [exact H|].
  apply IH, group_step_nonempty.
Qed.

(** The groups of a sequence of entities: the first group holds at most
    one food, and every later group starts with its only food. *)
Lemma grouper_groups_shape (entities : list Span) :
  match group_entities_by_proximity entities with
  | [] => entities = []
  | first :: later =>
      (foods first <= 1)%nat
      /\ (later <> [] -> foods first = 1%nat)
      /\ Forall food_first later
  end.
Proof.
  unfold group_entities_by_proximity.
  destruct entities as [|e es]; [reflexivity|].
  assert (Hshape : group_shape (fold_left group_step (e :: es) ([], [], false)))
    by (apply group_loop_shape; simpl; split; [reflexivity|unfold foods; simpl; lia]).
  assert (Hne : nonempty (snd (fst (fold_left group_step (e :: es)
                                              ([], [], false)))) = true)
    by (cbn [fold_left]; apply group_loop_nonempty, group_step_nonempty).
  destruct (fold_left group_step (e :: es) ([], [], false))
    as [[groups current_group] has_food].
  simpl in Hne. rewrite Hne.
  destruct Hshape as [_ Hshape].
  destruct groups as [|first later]; simpl.
  - repeat split; [assumption|now intros []|constructor].
  - destruct Hshape as (Hfirst & Hlater & Hcurrent).
    repeat split; [lia|intros _; assumption|].
    apply Forall_app. split; [assumption|now constructor].
Qed.

Lemma grouper_concat (entities : list Span) :
  concat (group_entities_by_proximity entities) = entities.
Proof.
  unfold group_entities_by_proximity.
  destruct entities as [|e es]; [reflexivity|].
  pose proof (group_loop_flat (e :: es) ([], [], false)) as Hflat.
  destruct (fold_left group_step (e :: es) ([], [], false))
    as [[groups current_group] has_food].
  unfold flat in Hflat. simpl in Hflat.
  destruct current_group as [|x xs]; simpl.
  - now rewrite app_nil_r in Hflat.
  - now rewrite concat_snoc.
Qed.

Lemma foods_concat_food_first (later : list (list Span)) :
  Forall food_first later -> foods (concat later) = List.length later.
Proof.
  induction 1 as [|g later Hg _ IH]; [reflexivity|].
  simpl. now rewrite foods_app, IH, (food_first_foods Hg).
Qed.

(** X1.  The grouper makes one group per [FOOD] entity: a non-empty
    sequence of entities with [k] foods is cut into [max 1 k] groups, each
    group holds at most one food, and every group after the first starts
    with its food. *)
Theorem grouper_one_group_per_food (entities : list Span) :
  entities <> [] ->
  List.length (group_entities_by_proximity entities)
  = Nat.max 1 (foods entities)
  /\ Forall (fun g => (foods g <= 1)%nat) (group_entities_by_proximity entities)
  /\ Forall food_first (tl (group_entities_by_proximity entities)).
Proof.
  intro Hne.
  pose proof (grouper_groups_shape entities) as Hshape.
  pose proof (grouper_concat entities) as Hflat.
  destruct (group_entities_by_proximity entities) as [|first later];
    [simpl in Hflat; congruence|].
  destruct Hshape as (Hfirst & Hone & Hlater).
  repeat split.
  - rewrite <- Hflat. cbn [concat].
    rewrite foods_app, (foods_concat_food_first Hlater).
    destruct later as [|g later']; cbn [List.length]; [lia|].
    rewrite Hone by discriminate. lia.
  - constructor; [assumption|].
    eapply Forall_impl; [|exact Hlater].
    intros g Hg. rewrite (food_first_foods Hg). lia.
  - exact Hlater.
Qed.

Lemma grouper_one_group_per_food_witness :
  List.length (group_entities_by_proximity eggs_and_toast)
  = Nat.max 1 (foods eggs_and_toast)
  /\ Forall (fun g => (foods g <= 1)%nat)
            (group_entities_by_proximity eggs_and_toast)
  /\ Forall food_first (tl (group_entities_by_proximity eggs_and_toast)).
Proof.
  apply (@grouper_one_group_per_food eggs_and_toast). discriminate.
Defined.

End GrouperShape.

(* ================================================================= *)
(** ** The assembler: which quantity and which unit *)

Module AssemblerRules.

Import PyStr PyFloat Extractor Invariants Shapes MoreSamples StringFacts
       ParseNumberFacts AssemblerFacts GrouperShape.
Open Scope string_scope.
Open Scope list_scope.

(** *** [max(..., key=end)] *)

Lemma max_by_end_from_spec (l : list Span) (best : Span) :
  (max_by_end_from best l = best \/ In (max_by_end_from best l) l)
  /\ (end_ best <= end_ (max_by_end_from best l))%Z
  /\ forall x, In x l -> (end_ x <= end_ (max_by_end_from best l))%Z.
Proof.
  revert best. induction l as [|y l IH]; intro best; simpl.
  - repeat split; [now left|lia|now intros x []].
  - destruct (IH (if (end_ best <? end_ y)%Z then y else best))
      as (Hin & Hbest & Hall).
    destruct (end_ best <? end_ y)%Z eqn:E.
    + apply Z.ltb_lt in E. repeat split.
      * destruct Hin as [->|Hin]; right; [now left|now right].
      * lia.
      * intros x [<-|Hx]; [exact Hbest|now apply Hall].
    + apply Z.ltb_ge in E. repeat split.
      * destruct Hin as [Hin|Hin]; [now left|right; now right].
      * exact Hbest.
      * intros x [<-|Hx]; [lia|now apply Hall].
Qed.

Lemma max_by_end_spec (l : list Span) (m : Span) :
  max_by_end l = Some m ->
  In m l /\ forall x, In x l -> (end_ x <= end_ m)%Z.
Proof.
  destruct l as [|y l]; simpl; [discriminate|]. intros [= <-].
  destruct (max_by_end_from_spec l y) as (Hin & Hbest & Hall).
  split.
  - destruct Hin as [->|Hin]; [now left|now right].
  - intros x [<-|Hx]; [exact Hbest|now apply Hall].
Qed.

Lemma in_before (label : string) (first_food_start : Z)
    (group : list Span) (ent : Span) :
  In ent (before first_food_start (with_label label group))
  <-> candidate label first_food_start group ent.
Proof.
  unfold before, with_label, candidate.
  rewrite !filter_In, String.eqb_eq, Z.leb_le. tauto.
Qed.

(** What the assembler picks among the entities of one label. *)
Lemma pick_spec (label : string) (first_food_start : Z) (group : list Span) :
  match max_by_end (before first_food_start (with_label label group)) with
  | Some ent => closest label first_food_start group ent
  | None => forall ent, ~ candidate label first_food_start group ent
  end.
Proof.
  destruct (max_by_end _) as [m|] eqn:E.
  - apply max_by_end_spec in E as [Hin Hmax]. split.
    + now apply in_before.
    + intros other Hother. now apply Hmax, in_before.
  - intros ent Hent. apply in_before in Hent.
    destruct (before first_food_start (with_label label group));
      [contradiction|discriminate].
Qed.

(** *** The assembler raises nothing *)

Lemma extract_item_from_group_returns
    (word_to_num : string -> result pyfloat) (group : list Span) :
  returns (extract_item_from_group word_to_num group).
Proof.
  unfold extract_item_from_group.
  destruct (calculate_confidence_returns (entity_info group)) as [c Hc].
  destruct (with_label "FOOD" group) as [|first_food foods].
  - rewrite Hc. red. simpl. eauto.
  - destruct (max_by_end (before (start first_food)
                                 (with_label "QUANTITY" group)))
      as [closest_qty|].
    + destruct (parse_number_returns word_to_num (Some (text closest_qty)))
        as [q ->].
      rewrite Hc. red. simpl. eauto.
    + rewrite Hc. red. simpl. eauto.
Qed.

(** X2.  The closest-preceding rule.  In a group whose first food is [f],
    the quantity of the item is parsed from the [QUANTITY] entity that
    ends at or before the start of [f] and closest to it, and is [1.0]
    when no [QUANTITY] entity ends there; the unit is chosen in the same
    way among the [UNIT] entities, with the default ["serving"]. *)
Theorem assembler_picks_closest_preceding
    (word_to_num : string -> result pyfloat) (group : list Span)
    (f : Span) (other_foods : list Span) (item : Item) :
  with_label "FOOD" group = f :: other_foods ->
  extract_item_from_group word_to_num group = Ok item ->
  ((exists q, closest "QUANTITY" (start f) group q
              /\ parse_number word_to_num (Some (text q))
                 = Ok (quantity item))
   \/ ((forall q, ~ candidate "QUANTITY" (start f) group q)
       /\ quantity item = fl 1.0))
  /\ ((exists u, closest "UNIT" (start f) group u
                 /\ unit item = normalize_unit (Some (text u)))
      \/ ((forall u, ~ candidate "UNIT" (start f) group u)
          /\ unit item = "serving")).
Proof.
  intros Hfood. unfold extract_item_from_group. rewrite Hfood.
  pose proof (pick_spec "QUANTITY" (start f) group) as Hq.
  pose proof (pick_spec "UNIT" (start f) group) as Hu.
  destruct (calculate_confidence_returns (entity_info group)) as [c ->].
  destruct (max_by_end (before (start f) (with_label "QUANTITY" group)))
    as [q|];
    destruct (max_by_end (before (start f) (with_label "UNIT" group)))
      as [u|].
  - destruct (parse_number word_to_num (Some (text q))) as [x|e] eqn:E;
      simpl; intros [= <-]; simpl. split; [left|left]; eauto.
  - destruct (parse_number word_to_num (Some (text q))) as [x|e] eqn:E;
      simpl; intros [= <-]; simpl. split; [left|right]; eauto.
  - simpl. intros [= <-]. simpl. split; [right|left]; eauto.
  - simpl. intros [= <-]. simpl. split; [right|right]; eauto.
Qed.

Lemma assembler_picks_closest_preceding_witness :
  ((exists q, closest "QUANTITY" 10 Samples.three_cups_of_rice q
              /\ parse_number Samples.no_words (Some (text q)) = Ok (fl 3))
   \/ ((forall q, ~ candidate "QUANTITY" 10 Samples.three_cups_of_rice q)
       /\ fl 3 = fl 1.0))
  /\ ((exists u, closest "UNIT" 10 Samples.three_cups_of_rice u
                 /\ "cups" = normalize_unit (Some (text u)))
      \/ ((forall u, ~ candidate "UNIT" 10 Samples.three_cups_of_rice u)
          /\ "cups" = "serving")).
Proof.
  apply (@assembler_picks_closest_preceding Samples.no_words
           Samples.three_cups_of_rice (Samples.span "FOOD" "rice" 10 14) []
           {| ingredient := "rice"; quantity := fl 3; unit := "cups";
              confidence := fl 0.95 |}).
  - reflexivity.
  - reflexivity.
Defined.

(** *** A group that starts with its food *)

Lemma no_candidate_after (label : string) (first_food_start : Z)
    (l : list Span) :
  (forall x, In x l -> (first_food_start < end_ x)%Z) ->
  before first_food_start (with_label label l) = [].
Proof.
  intro H. unfold before, with_label.
  induction l as [|x l IH]; [reflexivity|]. simpl.
  assert (Hx : (end_ x <=? first_food_start)%Z = false)
    by (apply Z.leb_gt, H; now left).
  destruct (String.eqb (label_ x) label); simpl; [rewrite Hx|];
    apply IH; intros y Hy; apply H; now right.
Qed.

Lemma food_first_item (word_to_num : string -> result pyfloat)
    (f : Span) (rest : list Span) :
  is_food f = true -> foods rest = 0%nat ->
  (forall x, In x (f :: rest) -> (start f < end_ x)%Z) ->
  exists item,
    extract_item_from_group word_to_num (f :: rest) = Ok item
    /\ ingredient item = strip (text f)
    /\ quantity item = fl 1.0
    /\ unit item = "serving".
Proof.
  intros Hf Hrest Hafter. unfold extract_item_from_group.
  assert (Hfoods : with_label "FOOD" (f :: rest) = [f]).
  { unfold with_label. simpl.
    change (String.eqb (label_ f) "FOOD") with (is_food f). rewrite Hf.
    f_equal. unfold foods in Hrest.
    change (filter (fun ent => String.eqb (label_ ent) "FOOD") rest)
      with (filter is_food rest).
    now destruct (filter is_food rest). }
  rewrite Hfoods, !(no_candidate_after _ _ Hafter).
  destruct (calculate_confidence_returns (entity_info (f :: rest))) as [c ->].
  simpl. eexists. repeat split.
Qed.

End AssemblerRules.

(* ================================================================= *)
(** ** The extractor, from entities to items *)

Module ExtractorFacts.

Import PyStr PyFloat Extractor Invariants Shapes MoreSamples StringFacts
       ParseNumberFacts AssemblerFacts GrouperFacts GrouperShape
       AssemblerRules.
Open Scope string_scope.
Open Scope list_scope.

(** *** Groups of well-positioned entities *)

Lemma sorted_app (A : Type) (R : A -> A -> Prop) (a b : list A) :
  StronglySorted R (a ++ b) -> StronglySorted R a /\ StronglySorted R b.
Proof.
  induction a as [|x a IH]; simpl; intro H; [split; [constructor|exact H]|].
  apply StronglySorted_inv in H as [Hs Hx].
  destruct (IH Hs) as [Ha Hb]. split; [|exact Hb].
  constructor; [exact Ha|]. apply Forall_app in Hx. tauto.
Qed.

Lemma sorted_concat (A : Type) (R : A -> A -> Prop) (gs : list (list A)) :
  StronglySorted R (concat gs) -> Forall (StronglySorted R) gs.
Proof.
  induction gs as [|g gs IH]; simpl; intro H; [constructor|].
  apply sorted_app in H as [Hg Hgs]. constructor; [exact Hg|now apply IH].
Qed.

Lemma starts_before_all (f : Span) (rest : list Span) :
  StronglySorted precedes (f :: rest) -> Forall proper (f :: rest) ->
  forall x, In x (f :: rest) -> (start f < end_ x)%Z.
Proof.
  intros Hs Hp x Hx.
  apply StronglySorted_inv in Hs as [_ Hf].
  rewrite Forall_forall in Hf, Hp.
  destruct Hx as [<-|Hx]; [apply Hp; now left|].
  pose proof (Hf x Hx) as H1. pose proof (Hp x (or_intror Hx)) as H2.
  pose proof (Hp f (or_introl eq_refl)) as H3.
  unfold precedes, proper in *. lia.
Qed.

(** X3.  Only the first food of a text can get a quantity and a unit.  For
    entities in document order, every group after the first starts with
    its food, so no quantity or unit of the group precedes it: the item of
    such a group has the quantity [1.0] and the unit ["serving"], whatever
    the text says ("3 eggs and 2 slices of toast" gives one serving of
    toast). *)
Theorem later_foods_get_defaults
    (word_to_num : string -> result pyfloat) (entities : list Span) :
  well_positioned entities ->
  Forall (fun g => exists item,
              extract_item_from_group word_to_num g = Ok item
              /\ quantity item = fl 1.0
              /\ unit item = "serving")
         (tl (group_entities_by_proximity entities)).
Proof.
  intros [Hsorted Hproper].
  pose proof (grouper_groups_shape entities) as Hshape.
  pose proof (grouper_concat entities) as Hflat.
  rewrite <- Hflat in Hsorted, Hproper.
  apply sorted_concat in Hsorted. apply Forall_concat in Hproper.
  destruct (group_entities_by_proximity entities) as [|first later];
    [constructor|].
  destruct Hshape as (_ & _ & Hlater). simpl.
  apply Forall_inv_tail in Hsorted, Hproper.
  rewrite Forall_forall in *. intros g Hg.
  destruct (Hlater g Hg) as (f & rest & -> & Hf & Hrest).
  destruct (@food_first_item word_to_num f rest Hf Hrest
              (starts_before_all (Hsorted _ Hg) (Hproper _ Hg)))
    as (item & Hitem & _ & Hq & Hu).
  eauto.
Qed.

Lemma later_foods_get_defaults_witness :
  Forall (fun g => exists item,
              extract_item_from_group Samples.no_words g = Ok item
              /\ quantity item = fl 1.0
              /\ unit item = "serving")
         (tl (group_entities_by_proximity eggs_and_toast)).
Proof.
  apply (@later_foods_get_defaults Samples.no_words eggs_and_toast).
  split.
  - unfold eggs_and_toast.
    repeat (constructor; [|repeat constructor; unfold precedes; simpl; lia]).
    constructor.
  - repeat constructor; unfold proper; simpl; lia.
Defined.

(** The toast of "ate 3 eggs and 2 slices of toast". *)
Example eggs_and_toast_items :
  extract_items Samples.no_words (group_entities_by_proximity eggs_and_toast)
  = Ok [ {| ingredient := "eggs"; quantity := fl 3; unit := "serving";
            confidence := fl 0.95 |};
         {| ingredient := "toast"; quantity := fl 1; unit := "serving";
            confidence := fl 0.65 |} ].
Proof. reflexivity. Qed.

(** *** The loop over the groups *)

Lemma extract_item_ingredient (word_to_num : string -> result pyfloat)
    (group : list Span) (item : Item) :
  extract_item_from_group word_to_num group = Ok item ->
  exists raw, ingredient item = strip raw.
Proof.
  unfold extract_item_from_group.
  match goal with
  | |- bind ?m _ = _ -> _ => destruct m as [qu|e]
  end; [|intros [=]].
  simpl. destruct (calculate_confidence (entity_info group)); [|intros [=]].
  simpl. intros [= <-]. simpl. eauto.
Qed.

(** An ingredient that an item may carry: not empty, and trimmed. *)
Lemma extract_items_spec (word_to_num : string -> result pyfloat)
    (entity_groups : list (list Span)) :
  exists items,
    extract_items word_to_num entity_groups = Ok items
    /\ (List.length items
        <= List.length (filter (existsb is_food) entity_groups))%nat
    /\ Forall (fun item => ingredient item <> ""
                           /\ strip (ingredient item) = ingredient item)
              items.
Proof.
  induction entity_groups as [|group rest (items & IH & Hlen & Hall)].
  - exists []. repeat split; [simpl; lia|constructor].
  - simpl. destruct (existsb is_food group).
    + destruct (extract_item_from_group_returns word_to_num group)
        as [item Hitem].
      rewrite Hitem, IH. simpl.
      destruct (PyStr.truthy (ingredient item)) eqn:Ht.
      * exists (item :: items). repeat split; [simpl; lia|].
        constructor; [|exact Hall]. split.
        -- now apply truthy_nonempty.
        -- destruct (extract_item_ingredient _ _ Hitem) as [raw ->].
           apply strip_idem.
      * exists items. repeat split; [simpl; lia|exact Hall].
    + exists items. repeat split; assumption.
Qed.


(** X4.  The extractor raises only when the spaCy pipeline does: an error
    of [spacy_extract] is the error of [nlp(text)], with the model loaded.
    Grouping, parsing a quantity, normalizing a unit and scoring raise
    nothing. *)
Theorem spacy_extract_raises_with_nlp_only
    (word_to_num : string -> result pyfloat) (MODEL_LOADED : bool)
    (nlp : option (string -> result (list Span))) (text : string) (e : exn) :
  spacy_extract word_to_num MODEL_LOADED nlp text = Raise e ->
  MODEL_LOADED = true /\ exists run, nlp = Some run /\ run text = Raise e.
Proof.
  unfold spacy_extract.
  destruct MODEL_LOADED; [|intros [=]].
  destruct nlp as [run|]; [|intros [=]].
  destruct (run text) as [entities|e'] eqn:E; simpl.
  - destruct entities as [|ent entities]; [intros [=]|].
    destruct (extract_items_spec word_to_num
                (group_entities_by_proximity (ent :: entities)))
      as (items & -> & _).
    intros [=].
  - intros [= ->]. eauto.
Qed.

Lemma spacy_extract_raises_with_nlp_only_witness :
  true = true
  /\ exists run,
       Some (fun _ : string => @Raise (list Span) (RuntimeError "E050"))
       = Some run
       /\ run "2 apples" = Raise (RuntimeError "E050").
Proof.
  apply (@spacy_extract_raises_with_nlp_only Samples.no_words true
           (Some (fun _ => Raise (RuntimeError "E050"))) "2 apples"
           (RuntimeError "E050")).
  reflexivity.
Defined.



(** A text without food gives no item; no model gives no item. *)
Example spacy_extract_edges :
  spacy_extract Samples.no_words true (Some (fun _ => Ok two_cups)) "2 cups"
  = Ok []
  /\ spacy_extract Samples.no_words false None "2 apples" = Ok []
  /\ spacy_extract Samples.no_words true (Some (fun _ => Ok [])) "hello"
     = Ok [].
Proof. repeat split. Qed.

End ExtractorFacts.

(* ================================================================= *)
(** ** Tokens: case, white space, digits and fractions *)

Module TokenFacts.

Import PyStr PyFloat FloatParse Extractor Invariants Shapes StringFacts
       FloatFacts ParseNumberFacts NormalizeUnitFacts.
Open Scope string_scope.
Open Scope list_scope.

(** *** Case and surrounding white space *)









Section ParseNumber.

Variable word_to_num : string -> result pyfloat.


Lemma parse_number_plain (s : string) :
  s <> "" -> lower (strip s) = s ->
  parse_number word_to_num (Some s)
  = try_return (py_float s) is_ValueError (parse_fraction word_to_num s).
Proof.
  intros Hne Hplain. unfold parse_number.
  destruct s; [contradiction|]. cbn [PyStr.truthy negb].
  cbv iota. now rewrite Hplain.
Qed.

End ParseNumber.


(** *** Runs of digits *)

Lemma lower_digits (s : string) : all_digits s = true -> lower s = s.
Proof.
  induction s as [|c s IH]; simpl; [reflexivity|].
  intro H. apply andb_prop in H as [Hc Hs].
  destruct (digit_facts c Hc) as (_ & -> & _). now rewrite IH.
Qed.

Lemma py_float_digits_value (s : string) :
  digit_run s -> py_float s = Ok (decimal s).
Proof.
  intros [Hall Hne].
  destruct s as [|c s]; [contradiction|].
  simpl in Hall. apply andb_prop in Hall as [Hc Hs].
  destruct (digit_facts c Hc) as (Hsp & Hlow & Hplus & Hminus & Hi & Hn).
  unfold py_float.
  rewrite strip_no_space
    by (simpl; rewrite Hsp; simpl; now apply all_digits_no_space).
  assert (Hsign : split_sign (String c s) = (false, String c s)).
  { unfold split_sign.
    destruct c as [[] [] [] [] [] [] [] []]; try discriminate; reflexivity. }
  rewrite Hsign.
  assert (Hinf : String.eqb (lower (String c s)) "inf" = false)
    by (simpl; now rewrite Hlow, Hi).
  assert (Hinfinity : String.eqb (lower (String c s)) "infinity" = false)
    by (simpl; now rewrite Hlow, Hi).
  assert (Hnan : String.eqb (lower (String c s)) "nan" = false)
    by (simpl; now rewrite Hlow, Hn).
  rewrite Hinf, Hinfinity, Hnan. simpl orb. cbv iota.
  unfold parse_decimal, digitpart.
  rewrite Hc, (digitpart_tail_digits s Hs).
  cbn [exponent app List.length]. rewrite app_nil_r.
  unfold decimal, of_Z, fl. do 2 f_equal. apply rat_eq.
  cbn [chars]. simpl Z.sub. simpl Qpower. apply Qmult_1_r.
Qed.

(** X8.  A token made of decimal digits parses to the number it writes. *)
Theorem parse_number_digits (word_to_num : string -> result pyfloat)
    (d : string) :
  digit_run d -> parse_number word_to_num (Some d) = Ok (decimal d).
Proof.
  intro Hd. pose proof Hd as [Hall Hne].
  rewrite parse_number_plain.
  - now rewrite (py_float_digits_value Hd).
  - exact Hne.
  - rewrite strip_no_space by now apply all_digits_no_space.
    now apply lower_digits.
Qed.

Lemma parse_number_digits_witness :
  parse_number Samples.no_words (Some "250") = Ok (decimal "250").
Proof.
  apply (@parse_number_digits Samples.no_words "250").
  split; [reflexivity|discriminate].
Defined.

End TokenFacts.

(* ================================================================= *)
(** ** Fractions and mixed fractions *)

Module FractionFacts.

Import PyStr PyFloat FloatParse Extractor Invariants Shapes StringFacts
       FloatFacts ParseNumberFacts TokenFacts.
Open Scope list_scope.
Open Scope string_scope.

(** *** Strings put together *)

Lemma lower_app (a b : string) : lower (a ++ b) = lower a ++ lower b.
Proof.
  induction a as [|c a IH]; simpl; [reflexivity|]. now rewrite IH.
Qed.

Lemma no_space_app (a b : string) :
  no_space (a ++ b) = no_space a && no_space b.
Proof.
  induction a as [|c a IH]; simpl; [reflexivity|].
  now rewrite IH, andb_assoc.
Qed.

Lemma rstrip_app (a b : string) :
  rstrip b <> "" -> rstrip (a ++ b) = a ++ rstrip b.
Proof.
  intro H. induction a as [|c a IH]; simpl; [reflexivity|].
  rewrite IH. destruct (a ++ rstrip b) eqn:E; [|reflexivity].
  destruct a; simpl in E; [contradiction|discriminate].
Qed.

Lemma strip_fixed (s : string) : head_ok s -> rstrip s = s -> strip s = s.
Proof. intros Hh Hr. unfold strip. now rewrite lstrip_fixed. Qed.

Lemma digit_run_head_ok (d rest : string) : digit_run d -> head_ok (d ++ rest).
Proof.
  intros [Hall Hne]. destruct d as [|c d]; [contradiction|].
  simpl in *. apply andb_prop in Hall as [Hc _].
  now destruct (digit_facts c Hc).
Qed.

Lemma digit_run_rstrip (d : string) : digit_run d -> rstrip d = d.
Proof. intros [Hall _]. now apply rstrip_no_space, all_digits_no_space. Qed.

Lemma all_digits_no_char (c : ascii) (s : string) :
  is_digit c = false -> all_digits s = true -> no_char c s = true.
Proof.
  intro Hc. induction s as [|c' s IH]; simpl; [reflexivity|].
  intro H. apply andb_prop in H as [Hc' Hs]. rewrite (IH Hs), andb_true_r.
  destruct (Ascii.eqb c' c) eqn:E; [|reflexivity].
  apply Ascii.eqb_eq in E. congruence.
Qed.

Lemma contains_slash (a b : string) : contains "/" (a ++ String "/" b) = true.
Proof.
  induction a as [|c a IH]; simpl.
  - destruct b; reflexivity.
  - rewrite IH. apply orb_true_r.
Qed.

(** *** [split] *)

Lemma split_cons (sep : ascii) (s : string) :
  exists p ps, split sep s = p :: ps.
Proof.
  induction s as [|c s (p & ps & IH)]; simpl; [eauto|].
  rewrite IH. destruct (Ascii.eqb c sep); eauto.
Qed.

Lemma split_no_sep (sep : ascii) (s : string) :
  no_char sep s = true -> split sep s = [s].
Proof.
  induction s as [|c s IH]; simpl; [reflexivity|].
  intro H. apply andb_prop in H as [Hc Hs]. rewrite (IH Hs).
  apply negb_true_iff in Hc. now rewrite Hc.
Qed.

Lemma split_app (sep : ascii) (a b : string) :
  no_char sep a = true ->
  split sep (a ++ String sep b) = a :: split sep b.
Proof.
  induction a as [|c a IH]; simpl.
  - intros _. destruct (split_cons sep b) as (p & ps & ->).
    now rewrite Ascii.eqb_refl.
  - intro H. apply andb_prop in H as [Hc Ha]. rewrite (IH Ha).
    apply negb_true_iff in Hc. now rewrite Hc.
Qed.

(** *** Digits followed by something else *)

Lemma span_digits_run (d : string) (c : ascii) (r : string) :
  all_digits d = true -> is_digit c = false ->
  span_digits (d ++ String c r) = (d, String c r).
Proof.
  intros Hd Hc. induction d as [|c' d IH]; simpl.
  - now rewrite Hc.
  - simpl in Hd. apply andb_prop in Hd as [Hc' Hd].
    now rewrite Hc', (IH Hd).
Qed.

Lemma span_digits_all_digits (d : string) :
  all_digits d = true -> span_digits d = (d, "").
Proof.
  induction d as [|c d IH]; simpl; [reflexivity|].
  intro H. apply andb_prop in H as [Hc Hd]. now rewrite Hc, (IH Hd).
Qed.

Lemma digitpart_tail_run (d : string) (c : ascii) (r : string) :
  all_digits d = true -> is_digit c = false -> Ascii.eqb c "_" = false ->
  digitpart_tail (d ++ String c r) = (chars d, String c r).
Proof.
  intros Hd Hc Hu. induction d as [|c' d IH]; simpl.
  - now rewrite Hc, Hu.
  - simpl in Hd. apply andb_prop in Hd as [Hc' Hd].
    now rewrite Hc', (IH Hd).
Qed.

(** [float] refuses digits followed by a space or a slash. *)
Lemma py_float_digits_then (d : string) (c : ascii) (r : string) :
  digit_run d -> c = " "%char \/ c = "/"%char ->
  strip (d ++ String c r) = d ++ String c r ->
  py_float (d ++ String c r) = Raise float_error.
Proof.
  intros [Hall Hne] Hc Hstrip.
  destruct d as [|c0 d]; [contradiction|].
  simpl in Hall. apply andb_prop in Hall as [Hc0 Hd].
  destruct (digit_facts c0 Hc0) as (Hsp & Hlow & Hplus & Hminus & Hi & Hn).
  unfold py_float. rewrite Hstrip.
  assert (Hsign : split_sign (String c0 d ++ String c r)
                  = (false, String c0 d ++ String c r)).
  { unfold split_sign. simpl.
    destruct c0 as [[] [] [] [] [] [] [] []]; try discriminate; reflexivity. }
  rewrite Hsign.
  assert (Hinf : String.eqb (lower (String c0 d ++ String c r)) "inf" = false)
    by (simpl; now rewrite Hlow, Hi).
  assert (Hinfinity :
            String.eqb (lower (String c0 d ++ String c r)) "infinity" = false)
    by (simpl; now rewrite Hlow, Hi).
  assert (Hnan : String.eqb (lower (String c0 d ++ String c r)) "nan" = false)
    by (simpl; now rewrite Hlow, Hn).
  rewrite Hinf, Hinfinity, Hnan. simpl orb. cbv iota.
  unfold parse_decimal, digitpart. cbn [append]. rewrite Hc0.
  destruct Hc as [-> | ->];
    rewrite digitpart_tail_run by (assumption || reflexivity); reflexivity.
Qed.

Lemma word_numbers_no_digit (c : ascii) (s : string) :
  is_digit c = true -> dict_get word_numbers (String c s) = None.
Proof.
  destruct c as [[] [] [] [] [] [] [] []]; intro H; try discriminate H;
    reflexivity.
Qed.

(** *** The token ["n/d"] *)

Section Fractions.

Variable word_to_num : string -> result pyfloat.

Lemma fraction_token_plain (n d : string) :
  digit_run n -> digit_run d ->
  fraction_token n d <> ""
  /\ strip (fraction_token n d) = fraction_token n d
  /\ lower (fraction_token n d) = fraction_token n d.
Proof.
  intros Hn Hd. pose proof Hn as [Hna Hne]. pose proof Hd as [Hda Hde].
  unfold fraction_token. repeat split.
  - destruct n; [contradiction|discriminate].
  - apply strip_no_space. rewrite no_space_app. simpl.
    now rewrite !all_digits_no_space.
  - rewrite lower_app. simpl. now rewrite !lower_digits.
Qed.

Lemma simple_fraction_digits (n d : string) :
  digit_run n -> digit_run d ->
  simple_fraction (fraction_token n d) = fdiv (decimal n) (decimal d).
Proof.
  intros Hn Hd. pose proof Hn as [Hna _]. pose proof Hd as [Hda _].
  unfold simple_fraction, fraction_token.
  rewrite split_app by now apply all_digits_no_char.
  rewrite split_no_sep by now apply all_digits_no_char.
  unfold index. simpl nth_error. unfold bind.
  now rewrite (py_float_digits_value Hn), (py_float_digits_value Hd).
Qed.

Lemma mixed_match_fraction_token (n d : string) :
  all_digits n = true -> mixed_match (fraction_token n d) = None.
Proof.
  intro Hn. unfold mixed_match, fraction_token.
  rewrite span_digits_run by (assumption || reflexivity).
  change (span_spaces (String "/" d)) with ("", String "/" d).
  cbv beta iota.
  change (span_digits (String "/" d)) with ("", String "/" d).
  cbv beta iota. destruct (span_digits d) as [denom rest].
  destruct (PyStr.truthy n), (PyStr.truthy denom); reflexivity.
Qed.

Lemma parse_words_digit_head (c : ascii) (s : string) :
  is_digit c = true ->
  parse_words word_to_num (String c s)
  = try_return (word_to_num (String c s)) is_Exception (Ok (fl 1.0)).
Proof.
  intro H. unfold parse_words. now rewrite word_numbers_no_digit.
Qed.

(** X9.  The token ["n/d"], two runs of digits around a slash, parses to
    the quotient of the two numbers.  When [d] is zero the division by
    zero is swallowed: the token is handed to [word2number], and parses to
    [1.0] if that fails. *)
Theorem parse_number_fraction (n d : string) :
  digit_run n -> digit_run d ->
  (forall q, fdiv (decimal n) (decimal d) = Ok q ->
             parse_number word_to_num (Some (fraction_token n d)) = Ok q)
  /\ (forall e, fdiv (decimal n) (decimal d) = Raise e ->
                parse_number word_to_num (Some (fraction_token n d))
                = try_return (word_to_num (fraction_token n d))
                             is_Exception (Ok (fl 1.0))).
Proof.
  intros Hn Hd.
  destruct (fraction_token_plain Hn Hd) as (Hne & Hstrip & Hlower).
  assert (Hfloat : py_float (fraction_token n d) = Raise float_error).
  { unfold fraction_token in *.
    apply py_float_digits_then; [exact Hn|now right|exact Hstrip]. }
  assert (Hparse :
    parse_number word_to_num (Some (fraction_token n d))
    = try_return (fdiv (decimal n) (decimal d)) is_Exception
        (parse_mixed word_to_num (fraction_token n d))).
  { rewrite parse_number_plain by (try assumption; now rewrite Hstrip).
    rewrite Hfloat. unfold try_return at 1, try_except at 1.
    cbn [float_error is_ValueError].
    unfold parse_fraction. unfold fraction_token at 1.
    rewrite contains_slash. now rewrite simple_fraction_digits. }
  rewrite Hparse. split.
  - intros q ->. reflexivity.
  - intros e ->. unfold try_return at 1, try_except at 1.
    cbn [is_Exception]. unfold parse_mixed.
    rewrite mixed_match_fraction_token by apply Hn.
    destruct Hn as [Hna Hne']. unfold fraction_token.
    destruct n as [|c n]; [contradiction|].
    simpl in Hna. apply andb_prop in Hna as [Hc _].
    now apply parse_words_digit_head.
Qed.

End Fractions.

Lemma parse_number_fraction_witness :
  parse_number Samples.no_words (Some (fraction_token "3" "4")) = Ok (fl 0.75)
  /\ parse_number Samples.no_words (Some (fraction_token "3" "0"))
     = try_return (Samples.no_words (fraction_token "3" "0")) is_Exception
         (Ok (fl 1.0)).
Proof.
  assert (H3 : digit_run "3") by (split; [reflexivity|discriminate]).
  assert (H4 : digit_run "4") by (split; [reflexivity|discriminate]).
  assert (H0 : digit_run "0") by (split; [reflexivity|discriminate]).
  split.
  - apply (proj1 (@parse_number_fraction Samples.no_words "3" "4" H3 H4)).
    reflexivity.
  - apply (proj2 (@parse_number_fraction Samples.no_words "3" "0" H3 H0)
             (ZeroDivisionError "float division by zero")).
    reflexivity.
Defined.

(** *** The token ["w n/d"] *)

Lemma no_char_app (c : ascii) (a b : string) :
  no_char c (a ++ b) = no_char c a && no_char c b.
Proof.
  induction a as [|c' a IH]; simpl; [reflexivity|].
  now rewrite IH, andb_assoc.
Qed.

Lemma mixed_token_assoc (w n d : string) :
  mixed_token w n d = (w ++ String " " n) ++ String "/" d.
Proof.
  unfold mixed_token, fraction_token.
  induction w as [|c w IH]; simpl; [reflexivity|]. now rewrite IH.
Qed.

Lemma spaced_strip (w r : string) :
  digit_run w -> rstrip r = r -> r <> "" ->
  strip (w ++ String " " r) = w ++ String " " r.
Proof.
  intros Hw Hr Hne. apply strip_fixed.
  - now apply digit_run_head_ok.
  - assert (H : rstrip (String " " r) = String " " r).
    { simpl. rewrite Hr. destruct r; [contradiction|reflexivity]. }
    rewrite rstrip_app; rewrite H; [reflexivity|discriminate].
Qed.

Lemma span_spaces_one (c : ascii) (r : string) :
  is_digit c = true ->
  span_spaces (String " " (String c r)) = (" ", String c r).
Proof.
  intro H. destruct (digit_facts c H) as [Hsp _].
  simpl. now rewrite Hsp.
Qed.

Section MixedFractions.

Variable word_to_num : string -> result pyfloat.

Lemma mixed_token_plain (w n d : string) :
  digit_run w -> digit_run n -> digit_run d ->
  mixed_token w n d <> ""
  /\ strip (mixed_token w n d) = mixed_token w n d
  /\ lower (mixed_token w n d) = mixed_token w n d.
Proof.
  intros Hw Hn Hd.
  destruct (fraction_token_plain Hn Hd) as (Hne & Hstrip & Hlower).
  unfold mixed_token. repeat split.
  - destruct Hw as [_ Hw]. destruct w; [contradiction|discriminate].
  - apply spaced_strip; [exact Hw| |exact Hne].
    apply rstrip_no_space. unfold fraction_token.
    rewrite no_space_app. simpl.
    destruct Hn as [Hn _], Hd as [Hd _].
    now rewrite !all_digits_no_space.
  - rewrite lower_app. simpl. rewrite Hlower.
    destruct Hw as [Hw _]. now rewrite lower_digits.
Qed.

Lemma simple_fraction_mixed_token (w n d : string) :
  digit_run w -> digit_run n -> digit_run d ->
  simple_fraction (mixed_token w n d) = Raise float_error.
Proof.
  intros Hw Hn Hd. unfold simple_fraction.
  rewrite mixed_token_assoc.
  rewrite split_app.
  - unfold index. simpl nth_error. unfold bind.
    rewrite py_float_digits_then; [reflexivity|exact Hw|now left|].
    apply spaced_strip; [exact Hw|now apply digit_run_rstrip|apply Hn].
  - rewrite no_char_app. simpl.
    destruct Hw as [Hw _], Hn as [Hn _].
    now rewrite !all_digits_no_char.
Qed.

Lemma mixed_match_mixed_token (w n d : string) :
  digit_run w -> digit_run n -> digit_run d ->
  mixed_match (mixed_token w n d) = Some (w, n, d).
Proof.
  intros [Hw Hwe] [Hn Hne] [Hd Hde].
  unfold mixed_match, mixed_token, fraction_token.
  rewrite span_digits_run by (assumption || reflexivity).
  destruct n as [|c n]; [contradiction|].
  pose proof Hn as Hn'. simpl in Hn'. apply andb_prop in Hn' as [Hc _].
  cbn [append]. rewrite span_spaces_one by assumption.
  change (String c (n ++ String "/" d)) with (String c n ++ String "/" d).
  rewrite span_digits_run by (assumption || reflexivity).
  rewrite (span_digits_all_digits _ Hd).
  destruct w; [contradiction|]. destruct d; [contradiction|]. reflexivity.
Qed.

(** X10.  The token ["w n/d"], three runs of digits, parses to the whole
    number plus the fraction.  With a zero denominator the token is handed
    to [word2number], and parses to [1.0] if that fails. *)
Theorem parse_number_mixed_fraction (w n d : string) :
  digit_run w -> digit_run n -> digit_run d ->
  (forall q, fdiv (decimal n) (decimal d) = Ok q ->
             parse_number word_to_num (Some (mixed_token w n d))
             = Ok (fadd (decimal w) q))
  /\ (forall e, fdiv (decimal n) (decimal d) = Raise e ->
                parse_number word_to_num (Some (mixed_token w n d))
                = try_return (word_to_num (mixed_token w n d))
                             is_Exception (Ok (fl 1.0))).
Proof.
  intros Hw Hn Hd.
  destruct (mixed_token_plain Hw Hn Hd) as (Hne & Hstrip & Hlower).
  assert (Hfloat : py_float (mixed_token w n d) = Raise float_error).
  { unfold mixed_token in *.
    apply py_float_digits_then; [exact Hw|now left|exact Hstrip]. }
  assert (Hparse :
    parse_number word_to_num (Some (mixed_token w n d))
    = try_return
        (bind (fdiv (decimal n) (decimal d))
              (fun q => Ok (fadd (decimal w) q)))
        is_ZeroDivisionError
        (parse_words word_to_num (mixed_token w n d))).
  { rewrite parse_number_plain by (try assumption; now rewrite Hstrip).
    rewrite Hfloat. unfold try_return at 1, try_except at 1.
    cbn [float_error is_ValueError].
    unfold parse_fraction.
    rewrite (mixed_token_assoc w n d) at 1. rewrite contains_slash.
    rewrite (simple_fraction_mixed_token Hw Hn Hd).
    unfold try_return at 1, try_except at 1. cbn [float_error is_Exception].
    unfold parse_mixed. rewrite (mixed_match_mixed_token Hw Hn Hd).
    unfold mixed_fraction, bind.
    now rewrite (py_float_digits_value Hw), (py_float_digits_value Hn),
      (py_float_digits_value Hd). }
  rewrite Hparse. split.
  - intros q ->. reflexivity.
  - intros e He. rewrite He. unfold bind, try_return, try_except.
    rewrite (fdiv_raise _ _ He).
    destruct Hw as [Hwa Hwe]. unfold mixed_token.
    destruct w as [|c w]; [contradiction|].
    simpl in Hwa. apply andb_prop in Hwa as [Hc _].
    cbn [append]. now apply parse_words_digit_head.
Qed.

End MixedFractions.

Lemma parse_number_mixed_fraction_witness :
  parse_number Samples.no_words (Some (mixed_token "2" "3" "4"))
  = Ok (fadd (decimal "2") (fl 0.75))
  /\ parse_number Samples.no_words (Some (mixed_token "2" "3" "0"))
     = try_return (Samples.no_words (mixed_token "2" "3" "0")) is_Exception
         (Ok (fl 1.0)).
Proof.
  assert (H2 : digit_run "2") by (split; [reflexivity|discriminate]).
  assert (H3 : digit_run "3") by (split; [reflexivity|discriminate]).
  assert (H4 : digit_run "4") by (split; [reflexivity|discriminate]).
  assert (H0 : digit_run "0") by (split; [reflexivity|discriminate]).
  split.
  - apply (proj1 (@parse_number_mixed_fraction Samples.no_words "2" "3" "4"
                    H2 H3 H4)).
    reflexivity.
  - apply (proj2 (@parse_number_mixed_fraction Samples.no_words "2" "3" "0"
                    H2 H3 H0)
             (ZeroDivisionError "float division by zero")).
    reflexivity.
Defined.

End FractionFacts.

(* ================================================================= *)
(** ** The resolver, path by path *)

Module ResolverFacts.

Import PyStr PyFloat Api ApiSpec ApiSamples Outcomes MoreApiSamples
       FloatFacts TotalsFacts PipelineFacts.
Open Scope string_scope.
Open Scope list_scope.

(** *** Validated and scaled macros *)

Lemma new_MacroInfo_valid (cal pro carb fat : pyfloat)
    (fib sug : option pyfloat) (m : MacroInfo) :
  new_MacroInfo cal pro carb fat fib sug = Ok m ->
  m = {| calories := cal; protein := pro; carbs := carb; fats := fat;
         fiber := fib; sugar := sug |}
  /\ valid_macros m.
Proof.
  unfold new_MacroInfo.
  destruct (ge0 cal) eqn:H1; [|intros [=]].
  destruct (ge0 pro) eqn:H2; [|intros [=]].
  destruct (ge0 carb) eqn:H3; [|intros [=]].
  destruct (ge0 fat) eqn:H4; [|intros [=]].
  destruct (opt_check ge0 fib) eqn:H5; [|intros [=]].
  destruct (opt_check ge0 sug) eqn:H6; [|intros [=]].
  intros [= <-]. split; [reflexivity|]. repeat split; assumption.
Qed.

Lemma scaled_MacroInfo_value (n : Nutrition) (q : Qc) :
  table_row n = true -> gt0 (Fin q) = true ->
  scaled_MacroInfo n (Fin q) = Ok (scaled n (Fin q)).
Proof.
  unfold table_row. intros Hrow Hq.
  repeat (apply andb_prop in Hrow as [Hrow ?]).
  unfold scaled_MacroInfo, new_MacroInfo, opt_check.
  now rewrite !scaled_value_ge0 by assumption.
Qed.

Lemma gt0_sign (q : Qc) : gt0 (Fin q) = true -> fsign (Fin q) = Gt.
Proof.
  intro H. apply gt0_Fin in H. simpl.
  apply Qgt_alt. exact H.
Qed.

Lemma fmul_ge0 (x : pyfloat) (q : Qc) :
  ge0 x = true -> gt0 (Fin q) = true -> ge0 (fmul x (Fin q)) = true.
Proof.
  intros Hx Hq. destruct x as [v| | |]; try discriminate.
  - apply ge0_Fin in Hx. apply gt0_Fin in Hq. apply ge0_Fin.
    simpl. rewrite norm_id.
    replace (rat 0) with (rat 0 * q)%Qc by (apply Qcmult_0_l).
    apply Qcmult_le_compat_r; [exact Hx|]. now apply Qclt_le_weak.
  - unfold fmul. rewrite (@gt0_sign q Hq). reflexivity.
Qed.

Lemma scale_if_truthy_ge0 (x : option pyfloat) (q : Qc) :
  opt_check ge0 x = true -> gt0 (Fin q) = true ->
  opt_check ge0 (scale_if_truthy x (Fin q)) = true.
Proof.
  destruct x as [v|]; [|reflexivity]. unfold scale_if_truthy, opt_check.
  intros Hv Hq. destruct (PyFloat.truthy v); [now apply fmul_ge0|exact Hv].
Qed.

Lemma scale_macros_valid (m : MacroInfo) (q : Qc) :
  valid_macros m -> gt0 (Fin q) = true ->
  valid_macros (scale_macros m (Fin q)).
Proof.
  intros (H1 & H2 & H3 & H4 & H5 & H6) Hq.
  unfold valid_macros, scale_macros. cbn [calories protein carbs fats fiber sugar].
  repeat split; try (now apply fmul_ge0); now apply scale_if_truthy_ge0.
Qed.

Lemma extract_usda_macros_valid (usda_food : UsdaFood) (m : MacroInfo) :
  extract_usda_macros usda_food = Ok m -> valid_macros m.
Proof.
  unfold extract_usda_macros.
  destruct (nutrient_loop [] (get_default (foodNutrients usda_food) []))
    as [nutrients|e]; [|intros [=]].
  unfold bind. intro H. now apply new_MacroInfo_valid in H.
Qed.

Lemma new_FoodItem_value (name : string) (quantity : pyfloat) (unit : string)
    (macros : MacroInfo) (confidence : pyfloat) (source : string)
    (notes usda_food_id : option string) :
  gt0 quantity = true -> ge0 confidence = true -> le1 confidence = true ->
  new_FoodItem name quantity unit macros (Some confidence) source notes
    usda_food_id
  = Ok {| name := name; quantity := quantity; unit := unit;
          macros := macros; confidence := Some confidence; source := source;
          notes := notes; usda_food_id := usda_food_id |}.
Proof.
  intros H1 H2 H3. unfold new_FoodItem, opt_check. now rewrite H1, H2, H3.
Qed.

Lemma new_FoodItem_checked (name : string) (quantity : pyfloat)
    (unit : string) (macros : MacroInfo) (confidence : pyfloat)
    (source : string) (notes usda_food_id : option string)
    (food_item : FoodItem) :
  new_FoodItem name quantity unit macros (Some confidence) source notes
    usda_food_id = Ok food_item ->
  food_item = {| name := name; quantity := quantity; unit := unit;
                 macros := macros; confidence := Some confidence;
                 source := source; notes := notes;
                 usda_food_id := usda_food_id |}
  /\ gt0 quantity = true /\ ge0 confidence = true /\ le1 confidence = true.
Proof.
  unfold new_FoodItem, opt_check.
  destruct (gt0 quantity); [|intros [=]].
  destruct (ge0 confidence); [|intros [=]].
  destruct (le1 confidence); [|intros [=]].
  intros [= <-]. repeat split.
Qed.

Section Resolver.

Variable USDA_API_KEY : string.
Variable http_search : string -> Z -> result (Response UsdaSearch).
Variable http_food : string -> result (Response UsdaFood).

Abbreviation search_usda_food := (search_usda_food USDA_API_KEY http_search).
Abbreviation get_usda_nutrition := (get_usda_nutrition USDA_API_KEY http_food).
Abbreviation usda_lookup := (usda_lookup USDA_API_KEY http_search http_food).
Abbreviation process_item := (process_item USDA_API_KEY http_search http_food).
Abbreviation process_items := (process_items USDA_API_KEY http_search http_food).

(** *** The fallback tier *)

Lemma process_item_estimated (include_usda : bool) (item : Extractor.Item)
    (notes : list string) :
  well_formed item ->
  (if include_usda && negb (key_missing USDA_API_KEY)
   then usda_lookup (Extractor.ingredient item) (Extractor.quantity item)
   else (None, [], None)) = (None, notes, None) ->
  process_item include_usda item
  = Ok (estimated item
          (join "; " (notes ++ ["Using estimated nutrition values"]))).
Proof.
  intros ([q Hq] & Hgt & Hge & Hle) Hstate.
  unfold Api.process_item. rewrite Hstate.
  unfold estimated, estimate. rewrite Hq in Hgt |- *.
  rewrite (@scaled_MacroInfo_value _ _
             (get_mock_table_row (Extractor.ingredient item)) Hgt).
  unfold bind. cbn [fst snd opt_str_truthy].
  rewrite new_FoodItem_value by assumption.
  destruct notes; reflexivity.
Qed.

(** X11.  The fallback tier.  For an extracted item with a finite quantity
    above zero and a confidence between 0 and 1: where the lookup is
    switched off or the key is not configured, and where the search finds
    no candidate, the resolved item has the name, quantity and unit of the
    extracted one, the fallback profile of the ingredient multiplied by the
    quantity, the confidence of the extraction, the source
    ["text_estimated"], no USDA id, and a note that says so. *)
Theorem estimated_item (include_usda : bool) (item : Extractor.Item) :
  well_formed item ->
  (lookup_enabled USDA_API_KEY include_usda = false ->
   process_item include_usda item
   = Ok (estimated item "Using estimated nutrition values"))
  /\ (lookup_enabled USDA_API_KEY include_usda = true ->
      search_usda_food (Extractor.ingredient item) 1 = Ok [] ->
      process_item include_usda item
      = Ok (estimated item
              "No USDA match found; Using estimated nutrition values")).
Proof.
  intro Hwf. unfold lookup_enabled. split.
  - intro Hoff.
    apply (@process_item_estimated include_usda item [] Hwf).
    now rewrite Hoff.
  - intros Hon Hsearch.
    apply (@process_item_estimated include_usda item ["No USDA match found"]
             Hwf).
    rewrite Hon. unfold Api.usda_lookup. now rewrite Hsearch.
Qed.

(** *** The USDA tier *)

Lemma process_item_with_macros (include_usda : bool) (item : Extractor.Item)
    (m : MacroInfo) (notes : list string) (id : string) :
  well_formed item ->
  (if include_usda && negb (key_missing USDA_API_KEY)
   then usda_lookup (Extractor.ingredient item) (Extractor.quantity item)
   else (None, [], None)) = (Some m, notes, Some id) ->
  process_item include_usda item
  = Ok (with_candidate item id m
          (match notes with [] => None | l => Some (join "; " l) end)).
Proof.
  intros ([q Hq] & Hgt & Hge & Hle) Hstate.
  unfold Api.process_item. rewrite Hstate.
  unfold bind. cbn [fst snd opt_str_truthy]. unfold with_candidate.
  destruct (PyStr.truthy id).
  - destruct (@boosted_in_range _ Hge Hle) as [H0 H1].
    rewrite new_FoodItem_value by assumption. destruct notes; reflexivity.
  - rewrite new_FoodItem_value by assumption. destruct notes; reflexivity.
Qed.

Lemma process_item_candidate_estimated (include_usda : bool)
    (item : Extractor.Item) (notes : list string) (id : string) :
  well_formed item ->
  (if include_usda && negb (key_missing USDA_API_KEY)
   then usda_lookup (Extractor.ingredient item) (Extractor.quantity item)
   else (None, [], None)) = (None, notes, Some id) ->
  process_item include_usda item
  = Ok (with_candidate item id (estimate item)
          (Some (join "; " (notes ++ ["Using estimated nutrition values"])))).
Proof.
  intros ([q Hq] & Hgt & Hge & Hle) Hstate.
  unfold Api.process_item. rewrite Hstate.
  unfold estimate. pose proof Hgt as Hgt'. rewrite Hq in Hgt' |- *.
  rewrite (@scaled_MacroInfo_value _ _
             (get_mock_table_row (Extractor.ingredient item)) Hgt').
  rewrite <- Hq.
  unfold bind. cbn [fst snd opt_str_truthy]. unfold with_candidate.
  assert (Hnotes :
    match notes ++ ["Using estimated nutrition values"] with
    | [] => None
    | l => Some (join "; " l)
    end = Some (join "; " (notes ++ ["Using estimated nutrition values"])))
    by (destruct notes; reflexivity).
  rewrite Hnotes.
  destruct (PyStr.truthy id).
  - destruct (@boosted_in_range _ Hge Hle) as [H0 H1].
    now rewrite new_FoodItem_value.
  - now rewrite new_FoodItem_value.
Qed.

(** X12.  The USDA tier.  For an extracted item with a finite quantity
    above zero and a confidence between 0 and 1, with the lookup enabled
    and a first search hit whose id is [id]: the resolved item carries
    [id]; its confidence is raised by [0.05], up to [1.0], and its source
    is ["text_usda"], exactly when [id] is not empty.  Its macros are the
    macros of the detail record multiplied by the quantity, with no note,
    when the record is fetched and read; otherwise they are the scaled
    fallback profile, with a note that names the failure. *)
Theorem usda_item (item : Extractor.Item) (hit : UsdaHit)
    (others : list UsdaHit) (id : string) :
  well_formed item ->
  lookup_enabled USDA_API_KEY true = true ->
  search_usda_food (Extractor.ingredient item) 1 = Ok (hit :: others) ->
  id = get_default (fdcId hit) "" ->
  (forall detail m,
      get_usda_nutrition id = Ok (Some detail) ->
      dict_truthy detail = true ->
      extract_usda_macros detail = Ok m ->
      process_item true item
      = Ok (with_candidate item id
              (scale_macros m (Extractor.quantity item)) None))
  /\ (get_usda_nutrition id = Ok None
      \/ (exists detail, get_usda_nutrition id = Ok (Some detail)
                         /\ dict_truthy detail = false) ->
      process_item true item
      = Ok (with_candidate item id (estimate item)
              (Some "USDA nutrition lookup failed; Using estimated nutrition values")))
  /\ (forall detail e,
        get_usda_nutrition id = Ok (Some detail) ->
        dict_truthy detail = true ->
        extract_usda_macros detail = Raise e ->
        process_item true item
        = Ok (with_candidate item id (estimate item)
                (Some (join "; " [usda_error_note e;
                                  "Using estimated nutrition values"])))).
Proof.
  intros Hwf Hon Hsearch ->. unfold lookup_enabled in Hon.
  split; [|split].
  - intros detail m Hdetail Htruthy Hm.
    apply (@process_item_with_macros true item _ [] _ Hwf).
    rewrite Hon. unfold Api.usda_lookup.
    now rewrite Hsearch, Hdetail, Htruthy, Hm.
  - intros Hfail.
    apply (@process_item_candidate_estimated true item
             ["USDA nutrition lookup failed"] _ Hwf).
    rewrite Hon. unfold Api.usda_lookup. rewrite Hsearch.
    destruct Hfail as [->|(detail & -> & ->)]; reflexivity.
  - intros detail e Hdetail Htruthy He.
    apply (@process_item_candidate_estimated true item
             [usda_error_note e] _ Hwf).
    rewrite Hon. unfold Api.usda_lookup.
    now rewrite Hsearch, Hdetail, Htruthy, He.
Qed.

(** *** An unconfigured key *)

Lemma key_missing_search (query : string) (limit : Z) :
  key_missing USDA_API_KEY = true -> search_usda_food query limit = Ok [].
Proof. intro H. unfold Api.search_usda_food. now rewrite H. Qed.

Lemma key_missing_nutrition (food_id : string) :
  key_missing USDA_API_KEY = true -> get_usda_nutrition food_id = Ok None.
Proof. intro H. unfold Api.get_usda_nutrition. now rewrite H. Qed.

End Resolver.

Lemma process_items_without_lookup (USDA_API_KEY : string)
    (http_search http_search' : string -> Z -> result (Response UsdaSearch))
    (http_food http_food' : string -> result (Response UsdaFood))
    (include_usda : bool) (extracted_items : list Extractor.Item) :
  lookup_enabled USDA_API_KEY include_usda = false ->
  process_items USDA_API_KEY http_search http_food include_usda
    extracted_items
  = process_items USDA_API_KEY http_search' http_food' false extracted_items.
Proof.
  intro Hoff. unfold lookup_enabled in Hoff.
  induction extracted_items as [|item rest IH]; [reflexivity|].
  cbn [process_items]. rewrite IH. unfold process_item.
  rewrite Hoff. reflexivity.
Qed.

(** X13.  Without a configured key, or with the lookup switched off, USDA
    is never consulted: the two client functions return nothing whatever
    the service would answer, and the resolver gives the same items for
    any service and as if the lookup had been switched off. *)
Theorem no_lookup_no_usda (USDA_API_KEY : string)
    (enhanced_extract : string -> result (list Extractor.Item))
    (http_search http_search' : string -> Z -> result (Response UsdaSearch))
    (http_food http_food' : string -> result (Response UsdaFood))
    (text : string) (include_usda : bool) :
  (key_missing USDA_API_KEY = true ->
   (forall query limit,
       search_usda_food USDA_API_KEY http_search query limit = Ok [])
   /\ (forall food_id,
         get_usda_nutrition USDA_API_KEY http_food food_id = Ok None))
  /\ (lookup_enabled USDA_API_KEY include_usda = false ->
      process_text_analysis USDA_API_KEY enhanced_extract http_search
        http_food text include_usda
      = process_text_analysis USDA_API_KEY enhanced_extract http_search'
          http_food' text false).
Proof.
  split.
  - intro Hkey. split; intros.
    + now apply key_missing_search.
    + now apply key_missing_nutrition.
  - intro Hoff. unfold process_text_analysis.
    destruct (try_except _ _ _) as [[[|item rest]|]|e]; try reflexivity.
    unfold bind. now apply process_items_without_lookup.
Qed.

(** *** Witnesses *)

Lemma estimated_item_witness :
  process_item api_key search_empty food_down true apples
  = Ok (estimated apples
          "No USDA match found; Using estimated nutrition values").
Proof.
  apply (proj2 (@estimated_item api_key search_empty food_down true apples
                  ltac:(repeat split; exists (rat 2); reflexivity))).
  - reflexivity.
  - reflexivity.
Defined.

Lemma usda_item_witness :
  process_item api_key search_hit food_apple true apples
  = Ok (with_candidate apples "171688"
          (scale_macros apple_macros (Extractor.quantity apples)) None).
Proof.
  assert (Hwf : well_formed apples)
    by (repeat split; exists (rat 2); reflexivity).
  apply (proj1 (@usda_item api_key search_hit food_apple apples
                  {| fdcId := Some "171688" |} [] "171688"
                  Hwf eq_refl eq_refl eq_refl)
           apple_detail apple_macros).
  - reflexivity.
  - reflexivity.
  - reflexivity.
Defined.

Lemma no_lookup_no_usda_witness :
  process_text_analysis placeholder_key (extracts [apples]) search_hit
    food_apple "I had 2 apples" true
  = process_text_analysis placeholder_key (extracts [apples]) search_down
      food_down "I had 2 apples" false.
Proof.
  apply (proj2 (@no_lookup_no_usda placeholder_key (extracts [apples])
                  search_hit search_down food_apple food_down
                  "I had 2 apples" true)).
  reflexivity.
Defined.

End ResolverFacts.

(* ================================================================= *)
(** ** The resolved items and the response *)

Module HandlerFacts.

Import PyStr PyFloat Shapes Api ApiSpec ApiSamples Outcomes MoreApiSamples
       FloatFacts TotalsFacts PipelineFacts ResolverFacts.
Open Scope string_scope.
Open Scope list_scope.

(** *** Items that were kept *)

Lemma kept_Forall (A B : Type) (R : A -> B -> Prop) (l : list A)
    (l' : list B) :
  kept R l l' -> Forall (fun a => exists b, In b l' /\ R a b) l.
Proof.
  induction 1 as [|l b l' _ IH|a l b l' Hab _ IH].
  - constructor.
  - eapply Forall_impl; [|exact IH].
    intros a (b' & Hin & HR). exists b'. split; [now right|exact HR].
  - constructor; [exists b; split; [now left|exact Hab]|].
    eapply Forall_impl; [|exact IH].
    intros a' (b' & Hin & HR). exists b'. split; [now right|exact HR].
Qed.

Lemma kept_length (A B : Type) (R : A -> B -> Prop) (l : list A)
    (l' : list B) :
  kept R l l' -> (List.length l <= List.length l')%nat.
Proof. induction 1; simpl; lia. Qed.

Lemma kept_impl (A B : Type) (R R' : A -> B -> Prop) (l : list A)
    (l' : list B) :
  (forall a b, R a b -> R' a b) -> kept R l l' -> kept R' l l'.
Proof.
  intro H. induction 1; [constructor|now constructor|].
  constructor; [now apply H|assumption].
Qed.

(** *** The aggregator on valid macros *)

Lemma sum_ge0 (f : FoodItem -> pyfloat) (items : list FoodItem) :
  Forall (fun i => ge0 (f i) = true) items ->
  ge0 (fsum (map f items)) = true.
Proof. intro H. now apply fsum_ge0, Forall_map_ge0. Qed.

Lemma calculate_totals_of (items : list FoodItem) :
  Forall (fun i => valid_macros (macros i)) items ->
  calculate_totals items = Ok (totals_of items).
Proof.
  intro Hvalid. unfold calculate_totals, new_MacroInfo, opt_check.
  rewrite !sum_ge0;
    try (eapply Forall_impl; [|exact Hvalid]; intros i H;
         try rewrite or_zero_contribution;
         try apply contribution_ge0; apply H).
  unfold bind, andb. cbv beta iota.
  unfold totals_of. cbn [calories protein carbs fats fiber sugar].
  rewrite !round_if_truthy_Some, !fsum_total.
  rewrite (map_ext (fun i => or_zero (fiber (macros i)))
                   (fun i => contribution (fiber (macros i))))
    by (intro; apply or_zero_contribution).
  rewrite (map_ext (fun i => or_zero (sugar (macros i)))
                   (fun i => contribution (sugar (macros i))))
    by (intro; apply or_zero_contribution).
  reflexivity.
Qed.

(** *** Counting by source *)

Lemma count_split (A : Type) (p : A -> bool) (l : list A) :
  (count p l + count (fun a => negb (p a)) l)%nat = List.length l.
Proof.
  unfold count. induction l as [|a l IH]; [reflexivity|].
  simpl. destruct (p a); simpl; lia.
Qed.

Lemma count_ext (A : Type) (p p' : A -> bool) (l : list A) :
  Forall (fun a => p a = p' a) l -> count p l = count p' l.
Proof.
  unfold count. induction 1 as [|a l Ha _ IH]; [reflexivity|].
  simpl. rewrite Ha. destruct (p' a); simpl; now rewrite IH.
Qed.

Lemma coherent_source (food_item : FoodItem) :
  coherent food_item ->
  opt_str_truthy (usda_food_id food_item) = from_usda food_item
  /\ negb (opt_str_truthy (usda_food_id food_item)) = from_table food_item.
Proof.
  intros (_ & _ & Hsource & _). unfold from_usda, from_table.
  rewrite Hsource. now destruct (opt_str_truthy (usda_food_id food_item)).
Qed.

Section Handler.

Variable USDA_API_KEY : string.
Variable ML_AVAILABLE : bool.
Variable enhanced_extract : string -> result (list Extractor.Item).
Variable http_search : string -> Z -> result (Response UsdaSearch).
Variable http_food : string -> result (Response UsdaFood).

Abbreviation usda_lookup := (usda_lookup USDA_API_KEY http_search http_food).
Abbreviation process_item := (process_item USDA_API_KEY http_search http_food).
Abbreviation process_items := (process_items USDA_API_KEY http_search http_food).
Abbreviation process_text_analysis :=
  (process_text_analysis USDA_API_KEY enhanced_extract http_search http_food).
Abbreviation analysis :=
  (analysis USDA_API_KEY ML_AVAILABLE enhanced_extract http_search http_food).
Abbreviation analyze_text :=
  (analyze_text USDA_API_KEY ML_AVAILABLE enhanced_extract http_search
                http_food).

(** *** One item *)

Lemma usda_lookup_macros (item_name : string) (item_quantity : pyfloat)
    (m : MacroInfo) (notes : list string) (id : option string) :
  usda_lookup item_name item_quantity = (Some m, notes, id) ->
  (exists m0, valid_macros m0 /\ m = scale_macros m0 item_quantity)
  /\ exists i, id = Some i.
Proof.
  unfold Api.usda_lookup.
  destruct (search_usda_food _ _ _ _) as [[|hit others]|e];
    [intros [=]| |intros [=]].
  destruct (get_usda_nutrition _ _ _) as [[detail|]|e];
    [|intros [=]|intros [=]].
  destruct (dict_truthy detail); [|intros [=]].
  destruct (extract_usda_macros detail) as [m0|e] eqn:E; [|intros [=]].
  intros [= <- _ <-]. split; [|eauto].
  exists m0. split; [|reflexivity]. now apply extract_usda_macros_valid in E.
Qed.

Lemma process_item_spec (include_usda : bool) (item : Extractor.Item)
    (food_item : FoodItem) :
  process_item include_usda item = Ok food_item ->
  same_food food_item item /\ coherent food_item.
Proof.
  unfold Api.process_item.
  destruct (if include_usda && negb (key_missing USDA_API_KEY)
            then usda_lookup (Extractor.ingredient item)
                             (Extractor.quantity item)
            else (None, [], None)) as [[[m|] notes] id] eqn:Hstate.
  - assert (Hm : (exists m0, valid_macros m0
                             /\ m = scale_macros m0 (Extractor.quantity item))
                 /\ exists i, id = Some i).
    { destruct (include_usda && negb (key_missing USDA_API_KEY));
        [|discriminate].
      now apply usda_lookup_macros in Hstate. }
    destruct Hm as [(m0 & Hvalid & ->) [i ->]].
    unfold bind. cbn [fst snd]. intro H.
    apply new_FoodItem_checked in H as (-> & Hgt & Hge & Hle).
    split; [repeat split|].
    unfold coherent.
    cbn [Api.quantity Api.confidence Api.source Api.usda_food_id Api.notes
         Api.macros].
    split; [exact Hgt|].
    split; [eexists; repeat split; assumption|]. split; [reflexivity|].
    split; [discriminate|].
    intros [q Hq]. rewrite Hq in Hgt |- *. now apply scale_macros_valid.
  - destruct (scaled_MacroInfo _ _) as [m|e] eqn:Hm; [|intros [=]].
    unfold scaled_MacroInfo in Hm. apply new_MacroInfo_valid in Hm as [_ Hvalid].
    unfold bind. cbn [fst snd]. intro H.
    apply new_FoodItem_checked in H as (-> & Hgt & Hge & Hle).
    split; [repeat split|].
    unfold coherent.
    cbn [Api.quantity Api.confidence Api.source Api.usda_food_id Api.notes
         Api.macros].
    split; [exact Hgt|].
    split; [eexists; repeat split; assumption|]. split; [reflexivity|].
    split; [|intros _; exact Hvalid].
    intros _. destruct notes; eexists; reflexivity.
Qed.

(** *** The loop *)

Lemma process_items_kept (include_usda : bool)
    (extracted_items : list Extractor.Item) :
  exists items,
    process_items include_usda extracted_items = Ok items
    /\ kept (fun food_item item => same_food food_item item
                                   /\ coherent food_item)
            items extracted_items.
Proof.
  induction extracted_items as [|item rest (others & IH & Hkept)].
  - exists []. split; [reflexivity|constructor].
  - cbn [Api.process_items]. rewrite IH.
    destruct (process_item include_usda item) as [food_item|e] eqn:E.
    + exists (food_item :: others). split; [reflexivity|].
      constructor; [now apply process_item_spec in E|exact Hkept].
    + exists others. split; [reflexivity|]. now constructor.
Qed.

Lemma process_text_analysis_value (text : string) (include_usda : bool) :
  process_text_analysis text include_usda
  = match enhanced_extract text with
    | Ok extracted_items => process_items include_usda extracted_items
    | Raise _ => Ok []
    end.
Proof.
  unfold Api.process_text_analysis.
  destruct (enhanced_extract text) as [[|item rest]|e]; reflexivity.
Qed.

Lemma process_text_analysis_kept (text : string) (include_usda : bool) :
  exists items,
    process_text_analysis text include_usda = Ok items
    /\ kept (fun food_item item => same_food food_item item
                                   /\ coherent food_item)
            items (extracted_from enhanced_extract text).
Proof.
  rewrite process_text_analysis_value. unfold extracted_from.
  destruct (enhanced_extract text) as [extracted_items|e].
  - apply process_items_kept.
  - exists []. split; [reflexivity|constructor].
Qed.

Lemma kept_coherent (items : list FoodItem)
    (extracted_items : list Extractor.Item) :
  kept (fun food_item item => same_food food_item item
                              /\ coherent food_item)
       items extracted_items ->
  Forall coherent items.
Proof.
  intro Hkept. apply kept_Forall in Hkept.
  eapply Forall_impl; [|exact Hkept].
  intros food_item (item & _ & _ & H). exact H.
Qed.

(** X14.  What holds of every item the resolver returns, whatever the
    extractor and the USDA service give: its quantity is above zero; its
    confidence is between 0 and 1; its source is ["text_usda"] when it
    carries a USDA id that is not empty and ["text_estimated"] otherwise;
    an item without a USDA id has a note; and if its quantity is finite,
    none of its macros is negative. *)
Theorem resolved_items_coherent (text : string) (include_usda : bool) :
  exists items,
    process_text_analysis text include_usda = Ok items
    /\ Forall coherent items.
Proof.
  destruct (process_text_analysis_kept text include_usda)
    as (items & Hitems & Hkept).
  exists items. split; [exact Hitems|]. now apply kept_coherent in Hkept.
Qed.

(** X15.  The resolver keeps the order and the identity of the extracted
    items: the items it returns answer, in order, to some of the extracted
    items, with the same name, quantity and unit; the others were skipped.
    It returns no more items than were extracted. *)
Theorem resolved_items_in_order (text : string) (include_usda : bool)
    (extracted_items : list Extractor.Item) :
  enhanced_extract text = Ok extracted_items ->
  exists items,
    process_text_analysis text include_usda = Ok items
    /\ kept same_food items extracted_items
    /\ (List.length items <= List.length extracted_items)%nat.
Proof.
  intro Hextract.
  destruct (process_text_analysis_kept text include_usda)
    as (items & Hitems & Hkept).
  unfold extracted_from in Hkept. rewrite Hextract in Hkept.
  exists items. split; [exact Hitems|].
  assert (H : kept same_food items extracted_items)
    by (eapply kept_impl; [|exact Hkept]; now intros a b [H _]).
  split; [exact H|now apply kept_length in H].
Qed.

(** *** The response *)

Lemma analyze_text_value (request : TextAnalysisRequest)
    (items : list FoodItem) :
  process_text_analysis (text request) (include_usda request) = Ok items ->
  Forall (fun i => valid_macros (macros i)) items ->
  analyze_text request
  = Ok {| success := true;
          input_type := "text";
          raw_input := text request;
          items := items;
          totals := totals_of items;
          warnings := analysis_warnings USDA_API_KEY ML_AVAILABLE items;
          metadata :=
            MetadataOk ML_AVAILABLE
              (negb (String.eqb USDA_API_KEY placeholder_key))
              (include_usda request)
              (count (fun item => opt_str_truthy (usda_food_id item)) items)
              (count (fun item => negb (opt_str_truthy (usda_food_id item)))
                     items) |}.
Proof.
  intros Hitems Hvalid. unfold Api.analyze_text, Api.analysis.
  rewrite Hitems. unfold bind at 1.
  now rewrite (calculate_totals_of Hvalid).
Qed.


(** X17.  A failure of the extractor is not reported as a failure.  Where
    the extractor raises, and where it finds nothing, the response has
    [success = true], no item, totals that are all zero (fiber and sugar
    included), no item counted, and the warning that no food item could be
    identified. *)
Theorem extractor_failure_is_success (request : TextAnalysisRequest) :
  (exists e, enhanced_extract (text request) = Raise e)
  \/ enhanced_extract (text request) = Ok [] ->
  exists response,
    analyze_text request = Ok response
    /\ success response = true
    /\ items response = []
    /\ totals response = all_zero_totals
    /\ hd_error (warnings response)
       = Some "No food items could be identified"
    /\ metadata response
       = MetadataOk ML_AVAILABLE
           (negb (String.eqb USDA_API_KEY placeholder_key))
           (include_usda request) 0 0.
Proof.
  intro Hfail.
  assert (Hitems :
    process_text_analysis (text request) (include_usda request) = Ok []).
  { rewrite process_text_analysis_value.
    destruct Hfail as [[e ->]| ->]; reflexivity. }
  eexists. split.
  - apply (@analyze_text_value request [] Hitems). constructor.
  - repeat split.
Qed.

(** X18.  The response always comes, and in a successful one the two
    counters of the metadata count the items by source:
    [items_with_usda] the items marked ["text_usda"], [items_estimated]
    the items marked ["text_estimated"], and together all the items. *)
Theorem metadata_counts_by_source (request : TextAnalysisRequest) :
  exists response,
    analyze_text request = Ok response
    /\ (success response = true ->
        exists with_usda estimated,
          metadata response
          = MetadataOk ML_AVAILABLE
              (negb (String.eqb USDA_API_KEY placeholder_key))
              (include_usda request) with_usda estimated
          /\ with_usda = count from_usda (items response)
          /\ estimated = count from_table (items response)
          /\ (with_usda + estimated)%nat = List.length (items response)).
Proof.
  destruct (process_text_analysis_kept (text request) (include_usda request))
    as (items & Hitems & Hkept).
  pose proof (kept_coherent Hkept) as Hall.
  unfold Api.analyze_text, Api.analysis. rewrite Hitems. unfold bind at 1.
  destruct (calculate_totals items) as [totals|e].
  - eexists. split; [reflexivity|]. intros _.
    cbn [metadata Api.items].
    do 2 eexists. split; [reflexivity|].
    assert (H1 : count (fun item => opt_str_truthy (usda_food_id item)) items
                 = count from_usda items).
    { apply count_ext. eapply Forall_impl; [|exact Hall].
      intros i H. now apply coherent_source in H. }
    assert (H2 : count (fun item => negb (opt_str_truthy (usda_food_id item)))
                       items
                 = count from_table items).
    { apply count_ext. eapply Forall_impl; [|exact Hall].
      intros i H. now apply coherent_source in H. }
    split; [exact H1|]. split; [exact H2|].
    apply count_split.
  - eexists. split; [reflexivity|]. simpl. intros [=].
Qed.

End Handler.

(** *** Witnesses *)

Lemma resolved_items_in_order_witness :
  exists items,
    process_text_analysis api_key (extracts [no_apples; apples]) search_down
      food_down "0 apples, 2 apples" false = Ok items
    /\ kept same_food items [no_apples; apples]
    /\ (List.length items <= List.length [no_apples; apples])%nat.
Proof.
  apply (@resolved_items_in_order api_key (extracts [no_apples; apples])
           search_down food_down "0 apples, 2 apples" false
           [no_apples; apples]).
  reflexivity.
Defined.


Lemma extractor_failure_is_success_witness :
  exists response,
    analyze_text api_key true extract_fails search_down food_down
      (request "I had 2 apples" true) = Ok response
    /\ success response = true
    /\ items response = []
    /\ totals response = all_zero_totals
    /\ hd_error (warnings response)
       = Some "No food items could be identified"
    /\ metadata response = MetadataOk true true true 0 0.
Proof.
  apply (@extractor_failure_is_success api_key true extract_fails search_down
           food_down (request "I had 2 apples" true)).
  left. exists (RuntimeError "model failure"). reflexivity.
Defined.

End HandlerFacts.

(* ================================================================= *)
(** ** Reading a USDA detail record *)

Module UsdaMacrosFacts.

Import PyStr PyFloat Api ApiSpec ApiSamples Outcomes MoreApiSamples
       FloatFacts TotalsFacts PipelineFacts ResolverFacts.
Open Scope string_scope.
Open Scope list_scope.

(** *** Entries that are not read *)

Lemma nutrient_step_irrelevant (nutrients : list (string * pyfloat))
    (nutrient : FoodNutrient) :
  relevant nutrient = false -> nutrient_step nutrients nutrient = Ok nutrients.
Proof.
  unfold relevant, nutrient_step.
  destruct (dict_get nutrient_map _) as [field|]; [|reflexivity].
  destruct (String.eqb (get_default (nutrient_name nutrient) "") "Energy");
    [|discriminate].
  destruct (String.eqb _ "KCAL"); [discriminate|].
  destruct (String.eqb _ "KJ"); [discriminate|reflexivity].
Qed.

Lemma nutrient_loop_filter (l : list FoodNutrient)
    (nutrients : list (string * pyfloat)) :
  nutrient_loop nutrients (filter relevant l) = nutrient_loop nutrients l.
Proof.
  revert nutrients. induction l as [|nutrient l IH]; intro nutrients;
    [reflexivity|].
  cbn [filter]. destruct (relevant nutrient) eqn:E.
  - cbn [nutrient_loop].
    destruct (nutrient_step nutrients nutrient) as [nutrients'|e];
      [apply IH|reflexivity].
  - cbn [nutrient_loop]. rewrite (nutrient_step_irrelevant nutrients _ E).
    apply IH.
Qed.

(** X19.  [extract_usda_macros] reads only the entries of [foodNutrients]
    that carry one of its six nutrient names, and of the energies only
    those in kcal or kJ, whatever the case of the unit: the other entries,
    and the other keys of the record, change nothing.  A record without
    entries gives the default macros. *)
Theorem extract_usda_macros_reads_relevant_only (usda_food : UsdaFood) :
  extract_usda_macros usda_food
  = extract_usda_macros
      {| other_keys := false;
         foodNutrients :=
           Some (filter relevant
                   (get_default (foodNutrients usda_food) [])) |}
  /\ (get_default (foodNutrients usda_food) [] = [] ->
      extract_usda_macros usda_food = Ok MacroInfo_default).
Proof.
  unfold extract_usda_macros. cbn [foodNutrients get_default]. split.
  - now rewrite nutrient_loop_filter.
  - intros ->. reflexivity.
Qed.

Lemma extract_usda_macros_reads_relevant_only_witness :
  extract_usda_macros {| other_keys := true; foodNutrients := None |}
  = Ok MacroInfo_default.
Proof.
  apply (proj2 (extract_usda_macros_reads_relevant_only
                  {| other_keys := true; foodNutrients := None |})).
  reflexivity.
Defined.

(** *** Amounts that are not negative *)








End UsdaMacrosFacts.

(* ================================================================= *)
(** ** The confidence of an item *)

Module ConfidenceFacts.

Import PyStr PyFloat Extractor Invariants Shapes MoreSamples FloatFacts
       AssemblerFacts AssemblerRules.
Open Scope string_scope.
Open Scope list_scope.

(** *** From [Qc] to [Q] *)

Lemma this_rat (q : Q) : (this (rat q) == q)%Q.
Proof. unfold rat, Q2Qc. cbn [this]. now rewrite !Qred_correct. Qed.

Lemma this_plus (x y : Qc) : (this (x + y)%Qc == this x + this y)%Q.
Proof. unfold Qcplus, Q2Qc. cbn [this]. apply Qred_correct. Qed.

Lemma this_div (x y : Qc) : (this (x / y)%Qc == this x / this y)%Q.
Proof.
  unfold Qcdiv, Qcmult, Qcinv, Q2Qc, Qdiv. cbn [this].
  now rewrite !Qred_correct.
Qed.

Lemma unit_Fin (q : Qc) :
  in_unit_interval (Fin q) = true <-> (0 <= this q)%Q /\ (this q <= 1)%Q.
Proof.
  unfold in_unit_interval, fl, fleb, Qc_leb.
  rewrite andb_true_iff, !Qle_bool_iff, !this_rat. reflexivity.
Qed.

Lemma unit_inv (x : pyfloat) :
  in_unit_interval x = true ->
  exists q, x = Fin q /\ (0 <= this q)%Q /\ (this q <= 1)%Q.
Proof.
  destruct x as [q| | |]; try discriminate.
  intro H. exists q. split; [reflexivity|now apply unit_Fin].
Qed.

Lemma inject_S (k : nat) :
  (inject_Z (Z.of_nat (S k)) == inject_Z (Z.of_nat k) + 1)%Q.
Proof. now rewrite Nat2Z.inj_succ, <- Z.add_1_r, inject_Z_plus. Qed.

(** *** The mean of scores between 0 and 1 *)

Lemma fold_fadd_unit (l : list pyfloat) (a : Qc) (k : nat) :
  Forall (fun v => in_unit_interval v = true) l ->
  (0 <= this a)%Q -> (this a <= inject_Z (Z.of_nat k))%Q ->
  exists s : Qc,
    fold_left fadd l (Fin a) = Fin s
    /\ (0 <= this s)%Q
    /\ (this s <= inject_Z (Z.of_nat (k + List.length l)))%Q.
Proof.
  intro Hl. revert a k.
  induction Hl as [|v l Hv _ IH]; intros a k H0 Hk.
  - exists a. rewrite Nat.add_0_r. now repeat split.
  - apply unit_inv in Hv as (q & -> & Hq0 & Hq1).
    cbn [fold_left fadd List.length]. rewrite norm_id.
    destruct (IH (a + q)%Qc (S k)) as (s & Hs & Hs0 & Hsk).
    + rewrite this_plus. lra.
    + rewrite this_plus, inject_S. lra.
    + exists s. rewrite Nat.add_succ_r. now repeat split.
Qed.

Lemma mean_unit (s : Qc) (n : nat) :
  (0 <= this s)%Q -> (this s <= inject_Z (Z.of_nat (S n)))%Q ->
  exists m : Qc,
    fdiv (Fin s) (of_nat (S n)) = Ok (Fin m)
    /\ (0 <= this m)%Q /\ (this m <= 1)%Q.
Proof.
  intros H0 Hn. unfold fdiv, of_nat, of_Z, fl.
  rewrite of_nat_S_not_zero, norm_id.
  eexists. split; [reflexivity|].
  assert (Hpos : (0 < inject_Z (Z.of_nat (S n)))%Q)
    by (unfold Qlt; simpl; lia).
  rewrite this_div, this_rat. split.
  - apply Qle_shift_div_l; [exact Hpos|]. lra.
  - apply Qle_shift_div_r; [exact Hpos|]. lra.
Qed.

(** *** Rounding keeps the interval *)

Lemma round_half_even_bounds (x : Q) (n : Z) :
  (0 <= x)%Q -> (x <= inject_Z n)%Q -> (0 <= round_half_even x <= n)%Z.
Proof.
  intros H0 Hn. unfold round_half_even.
  pose proof (Qfloor_resp_le _ _ H0) as Hf0.
  change 0%Q with (inject_Z 0) in Hf0. rewrite Qfloor_Z in Hf0.
  pose proof (Qfloor_resp_le _ _ Hn) as Hfn. rewrite Qfloor_Z in Hfn.
  pose proof (Qfloor_le x) as Hfx.
  destruct (Qcompare (x - inject_Z (Qfloor x)) (1 # 2)) eqn:E.
  - apply Qeq_alt in E.
    assert (Qfloor x < n)%Z.
    { destruct (Z_lt_le_dec (Qfloor x) n) as [Hlt|Hle]; [exact Hlt|].
      rewrite Zle_Qle in Hle. lra. }
    destruct (Z.even (Qfloor x)); lia.
  - lia.
  - apply Qgt_alt in E.
    assert (Qfloor x < n)%Z.
    { destruct (Z_lt_le_dec (Qfloor x) n) as [Hlt|Hle]; [exact Hlt|].
      rewrite Zle_Qle in Hle. lra. }
    lia.
Qed.

Lemma fround_unit (q : Qc) :
  (0 <= this q)%Q -> (this q <= 1)%Q ->
  in_unit_interval (fround (Fin q) 2) = true.
Proof.
  intros H0 H1. unfold fround.
  change (pow10 2) with 100%positive.
  destruct (@round_half_even_bounds (this q * inject_Z 100) 100) as [Hr0 Hr1].
  - change (inject_Z 100) with (100 # 1)%Q. lra.
  - change (inject_Z 100) with (100 # 1)%Q. lra.
  - unfold fl. apply unit_Fin. rewrite this_rat.
    unfold Qle. simpl. lia.
Qed.

(** *** The scorer and the assembler *)

Lemma or_else_cases (x d : option pyfloat) (sc : pyfloat) :
  or_else x d = Some sc -> x = Some sc \/ d = Some sc.
Proof.
  unfold or_else. destruct x as [v|]; [|now right].
  destruct (PyFloat.truthy v); [now left|now right].
Qed.

Lemma present_scores_unit (group : list Span) :
  Forall scored_in_unit_interval group ->
  Forall (fun v => in_unit_interval v = true)
         (present_scores (entity_info group)).
Proof.
  unfold present_scores, entity_info.
  induction 1 as [|ent group Hent _ IH]; [constructor|].
  cbn [map flat_map snd].
  destruct (or_else (attr_score ent) (attr_confidence ent)) as [sc|] eqn:E;
    [|exact IH].
  constructor; [|exact IH]. now apply Hent, or_else_cases.
Qed.

Lemma calculate_confidence_unit (group : list Span) :
  Forall scored_in_unit_interval group ->
  exists c,
    calculate_confidence (entity_info group) = Ok c
    /\ in_unit_interval (fround c 2) = true.
Proof.
  intro Hgroup. apply present_scores_unit in Hgroup.
  unfold calculate_confidence.
  destruct (entity_info group) as [|es rest]; [eexists; now split|].
  destruct (present_scores (es :: rest)) as [|sc scores].
  - repeat match goal with
           | |- context [if ?b then _ else _] => destruct b
           end; eexists; split; reflexivity.
  - destruct (@fold_fadd_unit (sc :: scores) (rat (inject_Z 0)) 0 Hgroup)
      as (s & Hs & Hs0 & Hsn).
    + now rewrite this_rat.
    + now rewrite this_rat.
    + unfold fsum, of_Z, fl. rewrite Hs.
      cbn [Nat.add List.length] in Hsn |- *.
      destruct (mean_unit _ Hs0 Hsn) as (m & -> & Hm0 & Hm1).
      exists (Fin m). split; [reflexivity|now apply fround_unit].
Qed.

(** X21.  The confidence of an extracted item is between 0 and 1.  Where
    the scores that the entities of a group carry are between 0 and 1,
    the assembler returns an item whose confidence, the rounded mean of
    the scores or one of the four constants of the scorer, is between 0
    and 1 as well. *)
Theorem item_confidence_in_unit_interval
    (word_to_num : string -> result pyfloat) (group : list Span) :
  Forall scored_in_unit_interval group ->
  exists item,
    extract_item_from_group word_to_num group = Ok item
    /\ in_unit_interval (confidence item) = true.
Proof.
  intro Hgroup.
  destruct (calculate_confidence_unit Hgroup) as (c & Hc & Hunit).
  destruct (extract_item_from_group_returns word_to_num group)
    as [item Hitem].
  exists item. split; [exact Hitem|].
  unfold extract_item_from_group in Hitem. rewrite Hc in Hitem.
  match type of Hitem with
  | bind ?m _ = _ => destruct m as [qu|e]
  end; [|discriminate].
  simpl in Hitem. injection Hitem as <-. exact Hunit.
Qed.

Lemma item_confidence_in_unit_interval_witness :
  exists item,
    extract_item_from_group Samples.no_words Samples.zero_scored_food
    = Ok item
    /\ in_unit_interval (confidence item) = true.
Proof.
  apply (@item_confidence_in_unit_interval Samples.no_words
           Samples.zero_scored_food).
  repeat constructor; intros sc [H|H]; inversion H; reflexivity.
Defined.

End ConfidenceFacts.

(* ================================================================= *)
(** ** Dropped items, the fallback profile and the key *)

Module EdgeFacts.

Import PyStr PyFloat Shapes Api ApiSpec ApiSamples Outcomes MoreApiSamples
       StringFacts TokenFacts FloatFacts TotalsFacts PipelineFacts
       ResolverFacts HandlerFacts.
Open Scope string_scope.
Open Scope list_scope.

(** *** The fallback profile *)



Section Dropped.

Variable USDA_API_KEY : string.
Variable ML_AVAILABLE : bool.
Variable enhanced_extract : string -> result (list Extractor.Item).
Variable http_search : string -> Z -> result (Response UsdaSearch).
Variable http_food : string -> result (Response UsdaFood).

Abbreviation process_item := (process_item USDA_API_KEY http_search http_food).
Abbreviation process_items := (process_items USDA_API_KEY http_search http_food).
Abbreviation process_text_analysis :=
  (process_text_analysis USDA_API_KEY enhanced_extract http_search http_food).
Abbreviation analyze_text :=
  (analyze_text USDA_API_KEY ML_AVAILABLE enhanced_extract http_search
                http_food).

(** *** Items that are dropped *)

Lemma process_item_not_positive (include_usda : bool)
    (item : Extractor.Item) :
  positive_quantity item = false ->
  exists e, process_item include_usda item = Raise e.
Proof.
  unfold positive_quantity. intro Hq. unfold Api.process_item.
  destruct (if include_usda && negb (key_missing USDA_API_KEY)
            then usda_lookup USDA_API_KEY http_search http_food
                   (Extractor.ingredient item) (Extractor.quantity item)
            else (None, [], None)) as [[[m|] notes] id].
  - unfold bind. cbn [fst snd]. unfold new_FoodItem. rewrite Hq.
    cbn [andb]. eauto.
  - destruct (scaled_MacroInfo _ _) as [m|e]; unfold bind; [|eauto].
    cbn [fst snd]. unfold new_FoodItem. rewrite Hq. cbn [andb]. eauto.
Qed.

Lemma process_items_drops (include_usda : bool)
    (extracted_items : list Extractor.Item) :
  Forall (fun item => positive_quantity item = true -> well_formed item)
         extracted_items ->
  exists items,
    process_items include_usda extracted_items = Ok items
    /\ map name items
       = map Extractor.ingredient (filter positive_quantity extracted_items).
Proof.
  induction 1 as [|item rest Hitem _ (others & IH & Hnames)];
    [exists []; now split|].
  cbn [Api.process_items filter]. rewrite IH.
  destruct (positive_quantity item) eqn:E.
  - destruct (@process_item_well_formed USDA_API_KEY http_search http_food
                include_usda item (Hitem eq_refl))
      as (food_item & -> & Hname).
    exists (food_item :: others). split; [reflexivity|].
    cbn [map]. now rewrite Hname, Hnames.
  - destruct (process_item_not_positive include_usda item E) as [e ->].
    exists others. split; [reflexivity|exact Hnames].
Qed.

(** X23.  The resolver drops exactly the items whose quantity is not
    above zero.  Where every extracted item with a quantity above zero
    has it finite and has a confidence between 0 and 1, the resolver
    returns one item, in order and under the same name, for each of
    them, and none for the others ("0 apples" disappears from the
    answer). *)
Theorem resolver_drops_exactly (text : string) (include_usda : bool)
    (extracted_items : list Extractor.Item) :
  enhanced_extract text = Ok extracted_items ->
  Forall (fun item => positive_quantity item = true -> well_formed item)
         extracted_items ->
  exists items,
    process_text_analysis text include_usda = Ok items
    /\ map name items
       = map Extractor.ingredient (filter positive_quantity extracted_items)
    /\ List.length items = count positive_quantity extracted_items.
Proof.
  intros Hextract Hall.
  destruct (process_items_drops include_usda Hall) as (items & Hitems & Hnames).
  exists items. split; [|split; [exact Hnames|]].
  - rewrite (@process_text_analysis_value USDA_API_KEY enhanced_extract
               http_search http_food text include_usda).
    now rewrite Hextract.
  - unfold count. now rewrite <- (length_map name), Hnames, length_map.
Qed.

(** *** The key, the flag and the warning *)

Lemma warning_iff_key_missing (items : list FoodItem) :
  In not_configured_warning
     (analysis_warnings USDA_API_KEY ML_AVAILABLE items)
  <-> key_missing USDA_API_KEY = true.
Proof.
  unfold analysis_warnings, not_configured_warning.
  rewrite !in_app_iff. split.
  - intros [H|[H|H]].
    + destruct items; [destruct H as [H|[]]; discriminate H|destruct H].
    + destruct ML_AVAILABLE; [destruct H|].
      destruct H as [H|[]]; discriminate H.
    + destruct (key_missing USDA_API_KEY); [reflexivity|destruct H].
  - intros ->. right. right. now left.
Qed.

Lemma flag_against_key_missing :
  negb (String.eqb USDA_API_KEY placeholder_key) = true
  /\ key_missing USDA_API_KEY = true
  <-> USDA_API_KEY = "".
Proof.
  unfold key_missing. destruct USDA_API_KEY as [|c s].
  - split; [reflexivity|]. intros _. now split.
  - cbn [PyStr.truthy negb orb].
    destruct (String.eqb (String c s) placeholder_key);
      split; [intros [[=] _]|discriminate|intros [_ [=]]|discriminate].
Qed.

(** X24.  In a successful response the flag [usda_configured] of the
    metadata and the warning that the USDA API is not configured
    contradict each other for exactly one key, the empty one: the flag
    compares the key with the placeholder only, the warning (like the
    client) also takes an empty key for missing. *)
Theorem configured_flag_and_warning (request : TextAnalysisRequest)
    (response : NutritionAnalysis) :
  analyze_text request = Ok response ->
  success response = true ->
  exists configured enabled with_usda estimated,
    metadata response
    = MetadataOk ML_AVAILABLE configured enabled with_usda estimated
    /\ (In not_configured_warning (warnings response)
        <-> key_missing USDA_API_KEY = true)
    /\ (configured = true
        /\ In not_configured_warning (warnings response)
        <-> USDA_API_KEY = "").
Proof.
  unfold Api.analyze_text, Api.analysis.
  destruct (Api.process_text_analysis _ _ _ _ _ _) as [items|e];
    [|intros [= <-]; discriminate].
  unfold bind at 1.
  destruct (calculate_totals items) as [totals|e];
    [|intros [= <-]; discriminate].
  intros [= <-] _. cbn [metadata warnings].
  do 4 eexists. split; [reflexivity|].
  split; [apply warning_iff_key_missing|].
  rewrite warning_iff_key_missing. apply flag_against_key_missing.
Qed.

End Dropped.

(** *** Witnesses *)

Lemma resolver_drops_exactly_witness :
  exists items,
    process_text_analysis api_key (extracts [no_apples; apples]) search_down
      food_down "0 apples, 2 apples" false = Ok items
    /\ map name items
       = map Extractor.ingredient
           (filter positive_quantity [no_apples; apples])
    /\ List.length items = count positive_quantity [no_apples; apples].
Proof.
  apply (@resolver_drops_exactly api_key (extracts [no_apples; apples])
           search_down food_down "0 apples, 2 apples" false
           [no_apples; apples]).
  - reflexivity.
  - repeat constructor; try discriminate. exists (rat 2). reflexivity.
Defined.

Lemma configured_flag_and_warning_witness :
  exists configured enabled with_usda estimated,
    MetadataOk true true false 0 1
    = MetadataOk true configured enabled with_usda estimated
    /\ (In not_configured_warning
           ["Using estimated nutrition data (USDA API not configured)"]
        <-> key_missing "" = true)
    /\ (configured = true
        /\ In not_configured_warning
             ["Using estimated nutrition data (USDA API not configured)"]
        <-> "" = "").
Proof.
  apply (@configured_flag_and_warning "" true (extracts [apples]) search_down
           food_down (request "I had 2 apples" false)
           {| success := true; input_type := "text";
              raw_input := "I had 2 apples";
              items := [resolved_apples];
              totals := twice_an_apple;
              warnings :=
                ["Using estimated nutrition data (USDA API not configured)"];
              metadata := MetadataOk true true false 0 1 |}).
  - reflexivity.
  - reflexivity.
Defined.

End EdgeFacts.
